(** * kid_readout: SRS SIM instrument drivers and ROACH measurement classes

    A shallow embedding of

    - [kid_readout/equipment/sim.py]: the serial drivers of the SRS SIM900
      mainframe and of the SIM921 / SIM922 thermometers, and
    - [kid_readout/measurement/basic.py]: the stream, sweep and
      sweep-stream measurement classes with their analysis pipeline.

    Conventions of the embedding.

    - A NumPy [float64] is a rational, an infinity or NaN ([Float.float64]).
      Finite arithmetic is exact: rounding and signed zeros are not modelled.
    - A Python exception is a value of [exn]; a method that can raise returns a
      [result].  Methods that mutate an object run in a state-and-exception
      monad in which the state reached before a [raise] is kept, as in Python.
    - Functions of NumPy, matplotlib and of modules of the package that are
      not part of the two files above are fields of interface classes. *)

From Stdlib Require Import List String Ascii ZArith QArith Qround Qabs Qpower Bool Lia.
From Stdlib Require Import Sorted Permutation DecimalString DecimalZ.
Import ListNotations.

Close Scope Q_scope.
Set Implicit Arguments.

(** ** Exceptions and results *)

Inductive exn : Type :=
| ValueError
| IndexError
| OverflowError
| ZeroDivisionError
| AttributeError
| SIMError
| OtherError.

Inductive result (A : Type) : Type :=
| Ok (a : A)
| Raise (e : exn).

Arguments Ok {A} a.
Arguments Raise {A} e.

Definition is_ok {A} (r : result A) : bool :=
  match r with Ok _ => true | Raise _ => false end.

(** ** NumPy floats *)

Module Float.

Inductive float64 : Type :=
| Fin (q : Q)
| Inf (negative : bool)
| NaN.

Definition Qltb (a b : Q) : bool := negb (Qle_bool b a).
Definition Qzerob (a : Q) : bool := Qeq_bool a 0.

Definition isnan (x : float64) : bool :=
  match x with NaN => true | _ => false end.

Definition isfinite (x : float64) : bool :=
  match x with Fin _ => true | _ => false end.

Definition of_Z (z : Z) : float64 := Fin (inject_Z z).

Definition add (x y : float64) : float64 :=
  match x, y with
  | NaN, _ | _, NaN => NaN
  | Fin a, Fin b => Fin (a + b)
  | Inf s, Fin _ | Fin _, Inf s => Inf s
  | Inf s, Inf t => if Bool.eqb s t then Inf s else NaN
  end.

Definition opp (x : float64) : float64 :=
  match x with
  | NaN => NaN
  | Fin a => Fin (- a)
  | Inf s => Inf (negb s)
  end.

Definition sub (x y : float64) : float64 := add x (opp y).

Definition div (x y : float64) : float64 :=
  match x, y with
  | NaN, _ | _, NaN => NaN
  | Fin a, Fin b =>
      if Qzerob b
      then (if Qzerob a then NaN else Inf (Qltb a 0))
      else Fin (a / b)
  | Fin _, Inf _ => Fin 0
  | Inf s, Fin b => Inf (xorb s (Qltb b 0))
  | Inf _, Inf _ => NaN
  end.

Definition mul (x y : float64) : float64 :=
  match x, y with
  | NaN, _ | _, NaN => NaN
  | Fin a, Fin b => Fin (a * b)
  | Inf s, Fin b | Fin b, Inf s =>
      if Qzerob b then NaN else Inf (xorb s (Qltb b 0))
  | Inf s, Inf t => Inf (xorb s t)
  end.

Definition abs (x : float64) : float64 :=
  match x with
  | NaN => NaN
  | Fin a => Fin (Qabs a)
  | Inf _ => Inf false
  end.

(** [x < y] and [x <= y]: every comparison with NaN is false. *)
Definition ltb (x y : float64) : bool :=
  match x, y with
  | NaN, _ | _, NaN => false
  | Fin a, Fin b => Qltb a b
  | Fin _, Inf t => negb t
  | Inf s, Fin _ => s
  | Inf s, Inf t => s && negb t
  end.

Definition leb (x y : float64) : bool :=
  match x, y with
  | NaN, _ | _, NaN => false
  | Fin a, Fin b => Qle_bool a b
  | Fin _, Inf t => negb t
  | Inf s, Fin _ => s
  | Inf s, Inf t => s || negb t
  end.

(** The order NumPy sorts and searches by: NaN is larger than every number. *)
Definition np_lt (x y : float64) : bool :=
  if isnan y then negb (isnan x) else ltb x y.

Definition np_le (x y : float64) : bool := negb (np_lt y x).

(** Truth value of a float: everything but zero is true. *)
Definition truthy (x : float64) : bool :=
  match x with Fin a => negb (Qzerob a) | _ => true end.

End Float.

Import Float.

(** ** The state-and-exception monad *)

Section Monad.

Variable St : Type.

Definition M (A : Type) : Type := St -> result A * St.

Definition ret {A} (a : A) : M A := fun s => (Ok a, s).

Definition raise {A} (e : exn) : M A := fun s => (Raise e, s).

Definition bind {A B} (m : M A) (k : A -> M B) : M B :=
  fun s =>
    match m s with
    | (Ok a, s') => k a s'
    | (Raise e, s') => (Raise e, s')
    end.

Definition get : M St := fun s => (Ok s, s).

Definition put (s : St) : M unit := fun _ => (Ok tt, s).

Definition lift {A} (r : result A) : M A := fun s => (r, s).

(** [for x in xs: body x] *)
Fixpoint for_each {A} (xs : list A) (body : A -> M unit) : M unit :=
  match xs with
  | [] => ret tt
  | x :: xs' => bind (body x) (fun _ => for_each xs' body)
  end.

End Monad.

Arguments ret {St A} a.
Arguments raise {St A} e.
Arguments bind {St A B} m k.
Arguments get {St}.
Arguments put {St} s.
Arguments lift {St A} r.
Arguments for_each {St A} xs body.

Declare Scope monad_scope.
Delimit Scope monad_scope with monad.
Notation "x <- m ;; k" := (bind m (fun x => k))
  (at level 61, m at next level, right associativity) : monad_scope.
Notation "m ;;; k" := (bind m (fun _ => k))
  (at level 61, right associativity) : monad_scope.

Open Scope string_scope.
Open Scope list_scope.

(** ** Python and NumPy helpers *)

(** [zip_with f a b]: the elementwise operation on arrays of one shape. *)
Fixpoint zip_with {A B C} (f : A -> B -> C) (a : list A) (b : list B) : list C :=
  match a, b with
  | x :: a', y :: b' => f x y :: zip_with f a' b'
  | _, _ => []
  end.

(** NumPy's broadcasting of a binary operation over two one-dimensional
    arrays: equal shapes combine elementwise, an array of one element is
    stretched to the other's shape, anything else raises [ValueError]. *)
Definition broadcast2 {A B C} (f : A -> B -> C) (a : list A) (b : list B)
  : result (list C) :=
  if Nat.eqb (List.length a) (List.length b) then Ok (zip_with f a b)
  else match a, b with
       | [x], _ => Ok (map (f x) b)
       | _, [y] => Ok (map (fun x => f x y) a)
       | _, _ => Raise ValueError
       end.

(** [numpy.diff]: [a[1:] - a[:-1]]. *)
Definition np_diff (a : list float64) : list float64 :=
  zip_with Float.sub (tl a) a.

(** [list[i]] with a non-negative index. *)
Definition getitem {A} (l : list A) (i : nat) : result A :=
  match nth_error l i with
  | Some x => Ok x
  | None => Raise IndexError
  end.

(** [str.split(sep)] for a separator of one character. *)
Fixpoint split (sep : ascii) (s : string) : list string :=
  match s with
  | EmptyString => [EmptyString]
  | String c s' =>
      if Ascii.eqb c sep then EmptyString :: split sep s'
      else match split sep s' with
           | [] => [String c EmptyString]
           | w :: ws => String c w :: ws
           end
  end.

(** [str.upper] on ASCII letters. *)
Definition upper_char (c : ascii) : ascii :=
  let n := nat_of_ascii c in
  if (Nat.leb 97 n && Nat.leb n 122)%bool then ascii_of_nat (n - 32) else c.

Fixpoint upper (s : string) : string :=
  match s with
  | EmptyString => EmptyString
  | String c s' => String (upper_char c) (upper s')
  end.

(** [int(s)] for a decimal literal with an optional minus sign; [None] is
    Python's [ValueError]. *)
Definition py_int (s : string) : option Z :=
  option_map Z.of_int (NilZero.int_of_string s).

(** ['{0}'.format(n)] for an integer. *)
Definition str_int (n : Z) : string := NilZero.string_of_int (Z.to_int n).

(** Python's conversions between floats and text: ['{0}'.format(x)] and
    [float(s)], where [None] is [ValueError]. *)
Class FloatText : Type := {
  str_float : float64 -> string;
  py_float : string -> option float64
}.

(** ** kid_readout/equipment/sim.py *)

Module Sim.

(** The serial port shared by a mainframe and its modules: what has been
    written to it, the (stripped) lines it will deliver to [readline], and
    the port the SIM900 mainframe is connected to ([SIM900.connected]). *)
Record World : Type := {
  written : list string;
  incoming : list string;
  connected : option string
}.

Definition termination : string := String "010"%char EmptyString.
Definition escape : string := "ESCAPE".
Definition dquote : string := String "034"%char EmptyString.

Definition serial_write (message : string) : M World unit :=
  fun w => (Ok tt, {| written := written w ++ [message];
                      incoming := incoming w;
                      connected := connected w |}).

(** [serial.readline().strip()]; a read that times out returns [''] *)
Definition serial_readline_strip : M World string :=
  fun w => match incoming w with
           | [] => (Ok EmptyString, w)
           | l :: ls => (Ok l, {| written := written w;
                                  incoming := ls;
                                  connected := connected w |})
           end.

Definition set_connected (c : option string) : M World unit :=
  fun w => (Ok tt, {| written := written w;
                      incoming := incoming w;
                      connected := c |}).

(** *** SIM900: the mainframe, whose own [parent] is [None] *)

Inductive SIM900 : Type := Mainframe.

Definition SIM900_send (message : string) : M World unit :=
  serial_write (message ++ termination).

Definition SIM900_receive : M World string := serial_readline_strip.

Definition connect (port : string) : M World unit :=
  (w <- get ;;
   match connected w with
   | Some _ => raise ValueError
   | None =>
       SIM900_send ("CONN " ++ port ++ ", " ++ dquote ++ escape ++ dquote) ;;;
       set_connected (Some port)
   end)%monad.

Definition disconnect : M World unit :=
  (SIM900_send escape ;;; set_connected None)%monad.

(** *** SIM: a module, talking directly or through a mainframe port *)

Record SIM : Type := {
  parent : option SIM900;
  port : string
}.

Definition send (self : SIM) (message : string) : M World unit :=
  match parent self with
  | None => serial_write (message ++ termination)
  | Some _ =>
      (connect (port self) ;;;
       serial_write (message ++ termination) ;;;
       disconnect)%monad
  end.

Definition send_and_receive (self : SIM) (message : string) : M World string :=
  match parent self with
  | None =>
      (serial_write (message ++ termination) ;;; serial_readline_strip)%monad
  | Some _ =>
      (connect (port self) ;;;
       serial_write (message ++ termination) ;;;
       reply <- SIM900_receive ;;
       disconnect ;;;
       ret reply)%monad
  end.

(** *** CalibrationCurve *)

Record CalibrationCurve : Type := {
  sensor : list float64;
  temperature : list float64;
  identification : string;
  format : string
}.

(** [CalibrationCurve.__init__] *)
Definition new_CalibrationCurve (sensor temperature : list float64)
           (identification format : string) : result CalibrationCurve :=
  if negb (forallb truthy (np_diff sensor)) then Raise ValueError
  else if negb (Nat.eqb (List.length sensor) (List.length temperature))
       then Raise ValueError
       else Ok {| sensor := sensor;
                  temperature := temperature;
                  identification := upper identification;
                  format := format |}.

(** *** SIMThermometer *)

(** The class attributes that the subclasses SIM921 and SIM922 set. *)
Record SIMThermometer : Type := {
  sim : SIM;
  CAPT_separator : ascii;
  maximum_temperature_points : nat
}.

Definition maximum_fractional_error : float64 := Fin (1e-4)%Q.

Definition parse_int (s : string) : result Z :=
  match py_int s with Some z => Ok z | None => Raise ValueError end.

Definition parse_float {FT : FloatText} (s : string) : result float64 :=
  match py_float s with Some x => Ok x | None => Raise ValueError end.

Definition curve_info (self : SIMThermometer) (number : Z)
  : M World (string * string * Z) :=
  (reply <- send_and_receive (sim self) ("CINI? " ++ str_int number) ;;
   let message := split ","%char reply in
   format <- lift (getitem message 0) ;;
   identification <- lift (getitem message 1) ;;
   field <- lift (getitem message 2) ;;
   points <- lift (parse_int field) ;;
   ret (format, identification, points))%monad.

Definition initialize_curve (self : SIMThermometer) (number : Z)
           (format identification : string) : M World unit :=
  send (sim self)
       ("CINI " ++ str_int number ++ ", " ++ format ++ ", " ++ identification).

(** The body of the loop of [read_curve], for the one-based index [n];
    the lists are accumulated in reverse. *)
Definition read_point {FT : FloatText} (self : SIMThermometer) (number : Z) (n : nat)
           (acc : list float64 * list float64)
  : M World (list float64 * list float64) :=
  (reply <- send_and_receive (sim self)
              ("CAPT? " ++ str_int number ++ ", " ++ str_int (Z.of_nat n)) ;;
   let message := split (CAPT_separator self) reply in
   s <- lift (getitem message 0) ;;
   x <- lift (parse_float s) ;;
   t <- lift (getitem message 1) ;;
   y <- lift (parse_float t) ;;
   ret (x :: fst acc, y :: snd acc))%monad.

Fixpoint read_points {FT : FloatText} (self : SIMThermometer) (number : Z)
         (ns : list nat) (acc : list float64 * list float64)
  : M World (list float64 * list float64) :=
  match ns with
  | [] => ret acc
  | n :: ns' =>
      (acc' <- read_point self number n acc ;;
       read_points self number ns' acc')%monad
  end.

(** [range(1, points + 1)] *)
Definition range1 (points : Z) : list nat := seq 1 (Z.to_nat points).

Definition read_curve {FT : FloatText} (self : SIMThermometer) (number : Z)
  : M World CalibrationCurve :=
  (info <- curve_info self number ;;
   let '(format, identification, points) := info in
   acc <- read_points self number (range1 points) ([], []) ;;
   lift (new_CalibrationCurve (rev (fst acc)) (rev (snd acc))
                              identification format))%monad.

(** [np.all(abs(stored / curve - 1) < maximum_fractional_error)] *)
Definition all_close (stored curve : list float64) : result bool :=
  match broadcast2 Float.div stored curve with
  | Raise e => Raise e
  | Ok ratio =>
      Ok (forallb (fun r => Float.ltb (Float.abs (Float.sub r (Fin 1)))
                                      maximum_fractional_error) ratio)
  end.

(** The expression inside the [try] of [validate_curve]: a chain of [and],
    evaluated from the left and stopping at the first false operand. *)
Definition curves_agree (stored curve : CalibrationCurve) : result bool :=
  match all_close (sensor stored) (sensor curve) with
  | Raise e => Raise e
  | Ok false => Ok false
  | Ok true =>
      match all_close (temperature stored) (temperature curve) with
      | Raise e => Raise e
      | Ok false => Ok false
      | Ok true =>
          Ok (String.eqb (identification stored) (identification curve)
              && String.eqb (format stored) (format curve))%bool
      end
  end.

Definition validate_curve {FT : FloatText} (self : SIMThermometer) (number : Z)
           (curve : CalibrationCurve) : M World bool :=
  (info <- curve_info self number ;;
   stored <- read_curve self number ;;
   match curves_agree stored curve with
   | Ok b => ret b
   | Raise ValueError => ret false
   | Raise e => raise e
   end)%monad.

Definition write_point {FT : FloatText} (number : Z) (curve : CalibrationCurve)
           (n : nat) : M World unit :=
  (x <- lift (getitem (sensor curve) n) ;;
   y <- lift (getitem (temperature curve) n) ;;
   serial_write ("CAPT " ++ str_int number ++ ", " ++ str_float x ++ ", "
                 ++ str_float y ++ termination))%monad.

Definition write_curve {FT : FloatText} (self : SIMThermometer) (number : Z)
           (curve : CalibrationCurve) : M World unit :=
  if Nat.ltb (maximum_temperature_points self) (List.length (sensor curve))
  then raise SIMError
  else
    (initialize_curve self number (format curve) (identification curve) ;;;
     match parent (sim self) with
     | Some _ => connect (port (sim self))
     | None => ret tt
     end ;;;
     for_each (seq 0 (List.length (sensor curve))) (write_point number curve) ;;;
     match parent (sim self) with
     | Some _ => disconnect
     | None => ret tt
     end ;;;
     valid <- validate_curve self number curve ;;
     if negb valid then raise SIMError else ret tt)%monad.

(** *** SIM921 and SIM922 *)

Definition SIM921 (s : SIM) : SIMThermometer :=
  {| sim := s; CAPT_separator := ","%char; maximum_temperature_points := 225 |}.

Definition SIM922 (s : SIM) : SIMThermometer :=
  {| sim := s; CAPT_separator := " "%char; maximum_temperature_points := 256 |}.

Definition minimum_frequency : float64 := Fin (1.95)%Q.
Definition maximum_frequency : float64 := Fin (61.1)%Q.

(** The getter and the setter of the property [SIM921.frequency]. *)
Definition get_frequency {FT : FloatText} (self : SIMThermometer) : M World float64 :=
  (reply <- send_and_receive (sim self) "FREQ?" ;;
   lift (parse_float reply))%monad.

Definition set_frequency {FT : FloatText} (self : SIMThermometer) (frequency : float64)
  : M World unit :=
  if negb (Float.leb minimum_frequency frequency
           && Float.leb frequency maximum_frequency)%bool
  then raise ValueError
  else send (sim self) ("FREQ " ++ str_float frequency).

(** *** The other methods of SIM *)

(** [SIM.receive] *)
Definition receive (self : SIM) : M World string :=
  match parent self with
  | None => serial_readline_strip
  | Some _ =>
      (connect (port self) ;;;
       message <- serial_readline_strip ;;
       disconnect ;;;
       ret message)%monad
  end.

(** A value given to a setter: a string, an integer or a boolean, and
    [str(v)], which is also what ['{0}'.format(v)] gives. *)
Inductive value : Type :=
| VStr (s : string)
| VInt (z : Z)
| VBool (b : bool).

Definition str (v : value) : string :=
  match v with
  | VStr s => s
  | VInt z => str_int z
  | VBool true => "True"
  | VBool false => "False"
  end.

(** The keys of [SIM.boolean_tokens], and [key in keys]. *)
Definition boolean_tokens : list string := ["OFF"; "0"; "ON"; "1"].

Definition member (key : string) (keys : list string) : bool :=
  existsb (String.eqb key) keys.

(** The getter and the setter of the property [SIM.token]. *)
Definition get_token (self : SIM) : M World string :=
  send_and_receive self "TOKN?".

Definition set_token (self : SIM) (mode : value) : M World unit :=
  if negb (member (upper (str mode)) boolean_tokens) then raise ValueError
  else send self ("TOKN " ++ str mode).

Definition identity (self : SIM) : M World string :=
  send_and_receive self "*IDN?".

Definition reset (self : SIM) : M World unit := send self "*RST".

(** *** The other methods of SIM900 *)

Definition broadcast (message : string) : M World unit :=
  SIM900_send ("BRDT " ++ dquote ++ message ++ dquote).

(** [s[n:]] *)
Fixpoint drop (n : nat) (s : string) : string :=
  match n, s with
  | O, _ => s
  | S _, EmptyString => EmptyString
  | S n', String _ s' => drop n' s'
  end.

(** [message[2 + int(message[1]):]] *)
Definition parse_definite_length (message : string) : result string :=
  match String.get 1 message with
  | None => Raise IndexError
  | Some c =>
      match py_int (String c EmptyString) with
      | None => Raise ValueError
      | Some length_bytes => Ok (drop (2 + Z.to_nat length_bytes) message)
      end
  end.

(** [str.split(sep, 1)] for a separator of one character. *)
Fixpoint split_once (sep : ascii) (s : string) : list string :=
  match s with
  | EmptyString => [EmptyString]
  | String c s' =>
      if Ascii.eqb c sep then [EmptyString; s']
      else match split_once sep s' with
           | [] => [String c EmptyString]
           | w :: ws => String c w :: ws
           end
  end.

(** [s[-1]] *)
Fixpoint last_char (s : string) : result string :=
  match s with
  | EmptyString => Raise IndexError
  | String c EmptyString => Ok (String c EmptyString)
  | String _ s' => last_char s'
  end.

(** [parse_message]: unpacking anything but two parts raises ValueError. *)
Definition parse_message (message : string) : result (string * string) :=
  match split_once ","%char message with
  | [header; content] =>
      match last_char header with
      | Ok port => Ok (port, content)
      | Raise e => Raise e
      end
  | _ => Raise ValueError
  end.

(** The keys that [SIM900.__init__] gives [self.ports]. *)
Definition ports : list string :=
  ["1"; "2"; "3"; "4"; "5"; "6"; "7"; "8"; "9"; "A"; "B"; "C"; "D"].

(** [flush(port)], where [keys] are the keys of [self.ports]. *)
Definition flush (keys : list string) (port : option value) : M World unit :=
  match port with
  | None => SIM900_send "FLSH"
  | Some p =>
      if member (str p) keys then SIM900_send ("SRST " ++ str p)
      else raise ValueError
  end.

(** [x in range(low, high)] for an integer [x]. *)
Definition in_range_of (low high x : Z) : bool := ((low <=? x) && (x <? high))%Z.

(** [SIM_reset(port)] for an integer port, whose [int(port)] is itself. *)
Definition SIM_reset (port : option Z) : M World unit :=
  match port with
  | None => SIM900_send "SRST"
  | Some p =>
      if in_range_of 1 9 p then SIM900_send ("SRST " ++ str_int p)
      else raise ValueError
  end.

(** *** The setters of SIM921 and SIM922

    The codes are integers, whose [int(code)] is the code itself. *)

Definition set_range (self : SIMThermometer) (code : Z) : M World unit :=
  if negb (in_range_of 0 10 code) then raise ValueError
  else send (sim self) ("RANG " ++ str_int code).

Definition set_excitation (self : SIMThermometer) (code : Z) : M World unit :=
  if negb (in_range_of (-1) 9 code) then raise ValueError
  else send (sim self) ("EXCI " ++ str_int code).

Definition set_excitation_state (self : SIMThermometer) (state : value)
  : M World unit :=
  if negb (member (upper (str state)) boolean_tokens) then raise ValueError
  else send (sim self) ("EXON " ++ str state).

Definition excitation_modes : list string :=
  ["PASSIVE"; "0"; "CURRENT"; "1"; "VOLTAGE"; "2"; "POWER"; "3"].

Definition set_excitation_mode (self : SIMThermometer) (mode : value)
  : M World unit :=
  if negb (member (upper (str mode)) excitation_modes) then raise ValueError
  else send (sim self) ("MODE " ++ str mode).

Definition set_display (self : SIMThermometer) (code : Z) : M World unit :=
  if negb (in_range_of 0 9 code) then raise ValueError
  else send (sim self) ("DISP " ++ str_int code).

Definition filter_reset (self : SIMThermometer) : M World unit :=
  send (sim self) "FRST".

Definition set_time_constant (self : SIMThermometer) (code : Z) : M World unit :=
  if negb (in_range_of (-1) 7 code) then raise ValueError
  else send (sim self) ("TCON " ++ str_int code).

Definition set_phase_hold (self : SIMThermometer) (mode : value) : M World unit :=
  if negb (member (upper (str mode)) boolean_tokens) then raise ValueError
  else send (sim self) ("PHLD " ++ str mode).

Definition set_display_temperature (self : SIMThermometer) (mode : value)
  : M World unit :=
  if negb (member (upper (str mode)) boolean_tokens) then raise ValueError
  else send (sim self) ("DTEM " ++ str mode).

Definition get_analog_output_temperature (self : SIMThermometer)
  : M World string :=
  send_and_receive (sim self) "ATEM?".

Definition set_analog_output_temperature (self : SIMThermometer) (mode : value)
  : M World unit :=
  if negb (member (upper (str mode)) boolean_tokens) then raise ValueError
  else send (sim self) ("A " ++ str mode).

Definition set_active_curve (self : SIMThermometer) (number : value)
  : M World unit :=
  if negb (member (str number) ["1"; "2"; "3"]) then raise ValueError
  else send (sim self) ("CURV " ++ str number).

Definition set_autorange_gain (self : SIMThermometer) (mode : value)
  : M World unit :=
  if negb (member (upper (str mode)) boolean_tokens) then raise ValueError
  else send (sim self) ("AGAI " ++ str mode).

Definition set_autorange_display (self : SIMThermometer) (mode : value)
  : M World unit :=
  if negb (member (upper (str mode)) boolean_tokens) then raise ValueError
  else send (sim self) ("ADIS " ++ str mode).

Definition autocalibrate (self : SIMThermometer) : M World unit :=
  send (sim self) "ACAL".

(** [SIM922.set_curve_type(channel, curve_type)] *)
Definition set_curve_type (self : SIMThermometer) (channel curve_type : value)
  : M World unit :=
  if negb (member (upper (str curve_type)) ["0"; "STAN"; "1"; "USER"])
  then raise ValueError
  else send (sim self) ("CURV " ++ str channel ++ ", " ++ str curve_type).

End Sim.

(** ** Complex numbers and arrays *)

Record complex : Type := Complex { re : float64; im : float64 }.

(** A real operand is converted to a complex one with a zero imaginary part. *)
Definition of_real (x : float64) : complex := Complex x (Fin 0).

(** The imaginary unit [1j]. *)
Definition j : complex := Complex (Fin 0) (Fin 1).

Definition cadd (a b : complex) : complex :=
  Complex (Float.add (re a) (re b)) (Float.add (im a) (im b)).

Definition cmul (a b : complex) : complex :=
  Complex (Float.sub (Float.mul (re a) (re b)) (Float.mul (im a) (im b)))
          (Float.add (Float.mul (re a) (im b)) (Float.mul (im a) (re b))).

(** NumPy's complex division (Smith's method), with its branch for a zero
    divisor. *)
Definition cdiv (a b : complex) : complex :=
  let br := Float.abs (re b) in
  let bi := Float.abs (im b) in
  if Float.leb bi br then
    if (Float.leb br (Fin 0) && Float.leb bi (Fin 0))%bool then
      Complex (Float.div (re a) br) (Float.div (im a) br)
    else
      let rat := Float.div (im b) (re b) in
      let scl := Float.div (Fin 1) (Float.add (re b) (Float.mul (im b) rat)) in
      Complex (Float.mul (Float.add (re a) (Float.mul (im a) rat)) scl)
              (Float.mul (Float.sub (im a) (Float.mul (re a) rat)) scl)
  else
    let rat := Float.div (re b) (im b) in
    let scl := Float.div (Fin 1) (Float.add (im b) (Float.mul (re b) rat)) in
    Complex (Float.mul (Float.add (Float.mul (re a) rat) (im a)) scl)
            (Float.mul (Float.sub (Float.mul (im a) rat) (re a)) scl).

(** [numpy.isnan] of a complex number. *)
Definition cisnan (z : complex) : bool := (isnan (re z) || isnan (im z))%bool.

(** An array of at most two dimensions, as the stream classes hold them: a
    scalar, a one-dimensional array, or the rows of a two-dimensional one. *)
Inductive ndarray (A : Type) : Type :=
| Arr0 (x : A)
| Arr1 (l : list A)
| Arr2 (rows : list (list A)).

Arguments Arr0 {A} x.
Arguments Arr1 {A} l.
Arguments Arr2 {A} rows.

(** [a.shape[-1]]; reading it from a scalar raises [IndexError]. *)
Definition shape_last {A} (a : ndarray A) : result nat :=
  match a with
  | Arr0 _ => Raise IndexError
  | Arr1 l => Ok (List.length l)
  | Arr2 rows => Ok (match rows with [] => O | r :: _ => List.length r end)
  end.

(** [a.size] *)
Definition size {A} (a : ndarray A) : nat :=
  match a with
  | Arr0 _ => 1
  | Arr1 l => List.length l
  | Arr2 rows => List.length (List.concat rows)
  end.

(** [l[start:stop]] for indices within [0 .. len(l)]. *)
Definition slice {A} (start stop : nat) (l : list A) : list A :=
  firstn (stop - start) (skipn start l).

(** [a[..., start:stop]] *)
Definition slice_last {A} (start stop : nat) (a : ndarray A) : result (ndarray A) :=
  match a with
  | Arr0 _ => Raise IndexError
  | Arr1 l => Ok (Arr1 (slice start stop l))
  | Arr2 rows => Ok (Arr2 (map (slice start stop) rows))
  end.

(** [l[1:-1]] *)
Definition drop_ends {A} (l : list A) : list A := removelast (tl l).

(** [l[i]] for a Python index, which counts from the end when negative. *)
Definition py_getitem {A} (l : list A) (i : Z) : result A :=
  let n := Z.of_nat (List.length l) in
  if (0 <=? i)%Z then getitem l (Z.to_nat i)
  else if (- n <=? i)%Z then getitem l (Z.to_nat (n + i))
       else Raise IndexError.

Fixpoint sequence {A} (l : list (result A)) : result (list A) :=
  match l with
  | [] => Ok []
  | Ok x :: l' => match sequence l' with Ok xs => Ok (x :: xs) | Raise e => Raise e end
  | Raise e :: _ => Raise e
  end.

(** [a[index]] for an array of integer indices. *)
Definition take {A} (l : list A) (index : list nat) : result (list A) :=
  sequence (map (getitem l) index).

(** [a[mask]] for a boolean mask, which must have the shape of [a]. *)
Definition compress {A} (l : list A) (mask : list bool) : result (list A) :=
  if Nat.eqb (List.length l) (List.length mask)
  then Ok (map fst (filter snd (combine l mask)))
  else Raise IndexError.

(** [numpy.searchsorted(a, v, side)] on an ascending array [a]: the number of
    entries before [v] ([side='left']), or not after it ([side='right']). *)
Definition searchsorted_left (a : list float64) (v : float64) : nat :=
  List.length (filter (fun x => np_lt x v) a).

Definition searchsorted_right (a : list float64) (v : float64) : nat :=
  List.length (filter (fun x => np_le x v) a).

(** [numpy.arange(n, dtype='float')] *)
Definition arange (n : nat) : list float64 :=
  map (fun i => Float.of_Z (Z.of_nat i)) (seq 0 n).

(** [int(x)] for a float: truncation towards zero. *)
Definition int_of_float (x : float64) : result Z :=
  match x with
  | Fin q => Ok (Z.quot (Qnum q) (Zpos (Qden q)))
  | Inf _ => Raise OverflowError
  | NaN => Raise ValueError
  end.

(** Exact base-two logarithms of a positive rational, rounded to an integer. *)
Definition Qfloor_log2 (q : Q) : Z :=
  if Qle_bool 1 q then Z.log2 (Qfloor q)
  else - Z.log2_up (Qceiling (/ q)).

Definition Qceil_log2 (q : Q) : Z :=
  if Qle_bool 1 q then Z.log2_up (Qceiling q)
  else - Z.log2 (Qfloor (/ q)).

(** [numpy.floor(numpy.log2(x))] and [numpy.ceil(numpy.log2(x))]: an integer
    exponent [Ok k], or a float that is not finite. *)
Definition np_round_log2 (round : Q -> Z) (x : float64) : Z + float64 :=
  match x with
  | Fin q => if Qle_bool q 0
             then inr (if Qzerob q then Inf true else NaN)
             else inl (round q)
  | Inf false => inr (Inf false)
  | Inf true => inr NaN
  | NaN => inr NaN
  end.

(** [2 ** e] for the exponents above, shifted by the integer [d]. *)
Definition exp2_shift (e : Z + float64) (d : Z) : float64 :=
  match e with
  | inl k => Fin (Qpower 2 (k + d))
  | inr (Inf true) => Fin 0
  | inr (Inf false) => Inf false
  | inr _ => NaN
  end.

(** Results as a monad of their own, for code that raises without state. *)
Definition rbind {A B} (r : result A) (k : A -> result B) : result B :=
  match r with
  | Ok a => k a
  | Raise e => Raise e
  end.

Definition rmap {A B} (f : A -> B) (r : result A) : result B :=
  rbind r (fun a => Ok (f a)).

Declare Scope result_scope.
Delimit Scope result_scope with result.
Notation "x <- m ;; k" := (rbind m (fun x => k))
  (at level 61, m at next level, right associativity) : result_scope.

(** [try: body except: handler], with a bare [except] that catches every
    exception; the handler starts from the state the body had reached. *)
Definition try_except {St A} (body handler : M St A) : M St A :=
  fun s =>
    match body s with
    | (Ok a, s') => (Ok a, s')
    | (Raise _, s') => handler s'
    end.

(** [numpy.array([...])] of scalars: a one-dimensional array.  Entries that
    are arrays themselves are outside what the sweep classes are given. *)
Definition np_array {A} (l : list (ndarray A)) : result (list A) :=
  sequence (map (fun a => match a with
                          | Arr0 x => Ok x
                          | _ => Raise ValueError
                          end) l).

(** [numpy.concatenate] of one-dimensional arrays. *)
Definition np_concatenate {A} (l : list (ndarray A)) : result (list A) :=
  match l with
  | [] => Raise ValueError
  | _ => rmap (@List.concat A)
              (sequence (map (fun a => match a with
                                       | Arr1 x => Ok x
                                       | _ => Raise ValueError
                                       end) l))
  end.

(** [numpy.atleast_2d] as rows, and [numpy.vstack], which needs at least
    one array and rows of one length. *)
Definition rows_of {A} (a : ndarray A) : list (list A) :=
  match a with
  | Arr0 x => [[x]]
  | Arr1 l => [l]
  | Arr2 rows => rows
  end.

Definition same_lengths {A} (rows : list (list A)) : bool :=
  match rows with
  | [] => true
  | r :: rs => forallb (fun r' => Nat.eqb (List.length r') (List.length r)) rs
  end.

Definition np_vstack {A} (l : list (ndarray A)) : result (list (list A)) :=
  match l with
  | [] => Raise ValueError
  | _ => let rows := List.concat (map rows_of l) in
         if same_lengths rows then Ok rows else Raise ValueError
  end.

(** [tone_bin[tone_index]] for an integer or an array of integers. *)
Definition index_with {A} (l : list A) (index : ndarray Z) : result (ndarray A) :=
  match index with
  | Arr0 i => rmap Arr0 (py_getitem l i)
  | Arr1 ix => rmap Arr1 (sequence (map (py_getitem l) ix))
  | Arr2 rows =>
      rmap Arr2 (sequence (map (fun ix => sequence (map (py_getitem l) ix)) rows))
  end.

Definition ndmap {A B} (f : A -> B) (a : ndarray A) : ndarray B :=
  match a with
  | Arr0 x => Arr0 (f x)
  | Arr1 l => Arr1 (map f l)
  | Arr2 rows => Arr2 (map (map f) rows)
  end.

(** [a[number]] for an integer [number]: an entry of a one-dimensional
    array, a row of a two-dimensional one. *)
Definition item {A} (a : ndarray A) (number : Z) : result (ndarray A) :=
  match a with
  | Arr0 _ => Raise IndexError
  | Arr1 l => rmap Arr0 (py_getitem l number)
  | Arr2 rows => rmap Arr1 (py_getitem rows number)
  end.

(** [a[number, :]], which needs two dimensions. *)
Definition row {A} (a : ndarray A) (number : Z) : result (ndarray A) :=
  match a with
  | Arr2 rows => rmap Arr1 (py_getitem rows number)
  | _ => Raise IndexError
  end.

(** [numpy.any(numpy.diff(sizes))] for a list of integers. *)
Definition any_difference (sizes : list Z) : bool :=
  existsb (fun d => negb (d =? 0)%Z) (zip_with Z.sub (tl sizes) sizes).

(** ** Interfaces of the modules that basic.py imports *)

(** [kid_readout.measurement.core]: the dictionaries of state. *)
Class Core : Type := {
  StateDict : Type
}.

(** [kid_readout.roach.calculate]; [frequency] acts on each tone bin. *)
Class Calculate {CORE : Core} : Type := {
  calculate_frequency : StateDict -> Z -> float64;
  calculate_stream_sample_rate : StateDict -> float64
}.

(** [numpy]: reductions over the last axis, the square root, and sorting. *)
Class NumPy : Type := {
  nanmean : list complex -> complex;
  nanstd : list float64 -> float64;
  np_sqrt : float64 -> float64;
  argsort : list float64 -> list nat
}.

(** [kid_readout.analysis.resonator.lmfit_resonator]: a model class is
    called to build a resonator from sweep data, which is then fitted. *)
Class LmfitResonator : Type := {
  Model : Type;
  Params : Type;
  Resonator : Type;
  LinearResonatorWithCable : Model;
  new_resonator : Model -> list float64 -> list complex -> list complex -> Resonator;
  fit : Resonator -> option Params -> Resonator;
  remove_background : Resonator -> ndarray float64 -> ndarray complex -> list complex;
  invert : Resonator -> list complex -> list float64 * list float64
}.

(** [kid_readout.analysis.timeseries.despike]; both functions may raise. *)
Class Despike : Type := {
  deglitch_mask_mad :
    list float64 -> float64 -> Z -> Z -> result (list bool);
  mask_glitches :
    list float64 -> list float64 -> list complex -> list bool -> Z ->
    result (list float64 * list float64 * list complex)
}.

(** [matplotlib.mlab]: [psd(x, Fs, NFFT, window, detrend, noverlap, **kwds)]
    and [csd(x, y, ...)], each returning the spectrum and its frequencies. *)
Class Mlab : Type := {
  Window : Type;
  Detrend : Type;
  PsdKwds : Type;
  window_none : Window;
  detrend_none : Detrend;
  no_kwds : PsdKwds;
  psd : list float64 -> float64 -> Z -> Window -> Detrend -> Z -> PsdKwds ->
        list float64 * list float64;
  csd : list float64 -> list float64 -> float64 -> Z -> Window -> Detrend -> Z ->
        PsdKwds -> list complex * list float64
}.

(** [kid_readout.analysis.timeseries.binning.log_bin_with_variance(f,
    bins_per_decade, *data_and_variance)]: the edges, the counts, the mean
    frequency of each bin, and the binned data with their variances. *)
Record Binned : Type := {
  bin_edges : list float64;
  bin_counts : list Z;
  bin_f_mean : list float64;
  bin_xx : list float64 * list float64;
  bin_qq : list float64 * list float64;
  bin_xq : list complex * list complex
}.

Class Binning : Type := {
  log_bin_with_variance :
    list float64 -> Z ->
    list float64 * list float64 -> list float64 * list float64 ->
    list complex * list complex -> Binned
}.

(** [kid_readout.analysis.timeseries.iqnoise.pca_noise(d, NFFT, Fs, window,
    detrend, use_log_bins, use_full_spectral_helper)], of whose six results
    [fr], [evals] and [angles] are used. *)
Record Pca : Type := {
  pca_fr : list float64;
  pca_evals : list (list float64);
  pca_angles_out : list float64
}.

Class IQNoise {ML : Mlab} : Type := {
  pca_noise : list complex -> Z -> float64 -> Window -> Detrend -> bool -> bool -> Pca
}.

(** ** kid_readout/measurement/basic.py *)

(** *** RoachStream, with its subclasses StreamArray and SingleStream

    A SingleStream holds a scalar [tone_index] and a one-dimensional
    [s21_raw]; a StreamArray holds a one-dimensional [tone_index] and a
    two-dimensional [s21_raw] with one row per channel.  The memoized
    properties of a stream are functions of its attributes, which no method
    of the module assigns after construction. *)

Module RoachStream.
Section Defs.

Context {CORE : Core} {CALC : Calculate} {NP : NumPy}.

Inductive StreamClass : Type :=
| RoachStreamClass
| StreamArrayClass
| SingleStreamClass.

Record t : Type := {
  class_ : StreamClass;
  tone_bin : list Z;
  tone_amplitude : list float64;
  tone_phase : list float64;
  tone_index : ndarray Z;
  filterbank_bin : ndarray Z;
  epoch : float64;
  (** [None] stands for [numpy.nan] *)
  sequence_start_number : option Z;
  s21_raw : ndarray complex;
  data_demodulated : bool;
  roach_state : StateDict;
  number : option Z;
  state : StateDict;
  description : string
}.

Definition stream_sample_rate (self : t) : float64 :=
  calculate_stream_sample_rate (roach_state self).

Definition sample_time (self : t) : result (list float64) :=
  (n <- shape_last (s21_raw self) ;;
   Ok (map (fun i => Float.div i (stream_sample_rate self)) (arange n)))%result.

Definition frequency (self : t) : result (ndarray float64) :=
  rmap (ndmap (calculate_frequency (roach_state self)))
       (index_with (tone_bin self) (tone_index self)).

(** A reduction over the last axis ([axis=-1]). *)
Definition reduce_last {A B} (f : list A -> B) (a : ndarray A)
  : result (ndarray B) :=
  match a with
  | Arr0 _ => Raise ValueError
  | Arr1 l => Ok (Arr0 (f l))
  | Arr2 rows => Ok (Arr1 (map f rows))
  end.

Definition s21_raw_mean (self : t) : result (ndarray complex) :=
  reduce_last nanmean (s21_raw self).

(** [np.sum(~np.isnan(s21_raw), axis=-1).astype(np.float)] for one channel *)
Definition count_good (samples : list complex) : float64 :=
  Float.of_Z (Z.of_nat (List.length (filter (fun z => negb (cisnan z)) samples))).

(** [n == 0] *)
Definition is_zero (n : float64) : bool :=
  match n with Fin q => Qzerob q | _ => false end.

(** [(nanstd(real) + 1j * nanstd(imag)) / sqrt(num_good_samples)] for one
    channel *)
Definition standard_error (samples : list complex) (num_good_samples : float64)
  : complex :=
  cdiv (cadd (of_real (nanstd (map re samples)))
             (cmul j (of_real (nanstd (map im samples)))))
       (of_real (np_sqrt num_good_samples)).

Definition s21_raw_mean_error (self : t) : result (ndarray complex) :=
  match s21_raw self with
  | Arr0 _ => Raise ValueError
  | Arr1 samples =>
      (* num_good_samples is a scalar *)
      let num_good_samples := count_good samples in
      let num_good_samples :=
        if is_zero num_good_samples then NaN else num_good_samples in
      Ok (Arr0 (standard_error samples num_good_samples))
  | Arr2 rows =>
      (* num_good_samples is an array, one entry per channel *)
      let num_good_samples := map count_good rows in
      let num_good_samples :=
        map (fun n => if is_zero n then NaN else n) num_good_samples in
      Ok (Arr1 (zip_with standard_error rows num_good_samples))
  end.

Definition s21_point (self : t) : result (ndarray complex) := s21_raw_mean self.

Definition s21_point_error (self : t) : result (ndarray complex) :=
  s21_raw_mean_error self.

(** [epochs(start, stop)]; the defaults are minus and plus infinity. *)
Definition epochs (self : t) (start stop : float64) : result t :=
  (sample_time <- sample_time self ;;
   let times := map (Float.add (epoch self)) sample_time in
   let start_index := searchsorted_left times start in
   let stop_index := searchsorted_right times stop in
   first <- getitem sample_time start_index ;;
   sliced <- slice_last start_index stop_index (s21_raw self) ;;
   Ok {| class_ := class_ self;
         tone_bin := tone_bin self;
         tone_amplitude := tone_amplitude self;
         tone_phase := tone_phase self;
         tone_index := tone_index self;
         filterbank_bin := filterbank_bin self;
         epoch := Float.add (epoch self) first;
         sequence_start_number := None;
         s21_raw := sliced;
         data_demodulated := data_demodulated self;
         roach_state := roach_state self;
         number := None;
         state := state self;
         description := description self |})%result.

End Defs.
End RoachStream.

(** *** StreamArray: the methods of its own *)

Module StreamArray.
Section Defs.

Context {CORE : Core} {CALC : Calculate} {NP : NumPy}.

(** [StreamArray.__getitem__(number)] for an integer [number]: the
    SingleStream of one channel. *)
Definition getitem (self : RoachStream.t) (number : Z) : result RoachStream.t :=
  (index <- item (RoachStream.tone_index self) number ;;
   bin <- item (RoachStream.filterbank_bin self) number ;;
   samples <- row (RoachStream.s21_raw self) number ;;
   Ok {| RoachStream.class_ := RoachStream.SingleStreamClass;
         RoachStream.tone_bin := RoachStream.tone_bin self;
         RoachStream.tone_amplitude := RoachStream.tone_amplitude self;
         RoachStream.tone_phase := RoachStream.tone_phase self;
         RoachStream.tone_index := index;
         RoachStream.filterbank_bin := bin;
         RoachStream.epoch := RoachStream.epoch self;
         RoachStream.sequence_start_number :=
           RoachStream.sequence_start_number self;
         RoachStream.s21_raw := samples;
         RoachStream.data_demodulated := RoachStream.data_demodulated self;
         RoachStream.roach_state := RoachStream.roach_state self;
         RoachStream.number := Some number;
         RoachStream.state := RoachStream.state self;
         RoachStream.description := RoachStream.description self |})%result.

Definition stream (self : RoachStream.t) (number : Z) : result RoachStream.t :=
  getitem self number.

End Defs.
End StreamArray.

(** *** SweepArray: a list of StreamArrays *)

Module SweepArray.
Section Defs.

Context {CORE : Core} {CALC : Calculate} {NP : NumPy}.

Record t : Type := {
  stream_arrays : list RoachStream.t;
  state : StateDict;
  description : string
}.

(** [np.concatenate([sa.<property> for sa in self.stream_arrays])] *)
Definition concatenated {A} (property : RoachStream.t -> result (ndarray A))
           (self : t) : result (list A) :=
  (values <- sequence (map property (stream_arrays self)) ;;
   np_concatenate values)%result.

Definition ascending_order (self : t) : result (list nat) :=
  rmap argsort (concatenated RoachStream.frequency self).

Definition frequency (self : t) : result (list float64) :=
  (values <- concatenated RoachStream.frequency self ;;
   order <- ascending_order self ;;
   take values order)%result.

Definition s21_point (self : t) : result (list complex) :=
  (values <- concatenated RoachStream.s21_point self ;;
   order <- ascending_order self ;;
   take values order)%result.

Definition s21_point_error (self : t) : result (list complex) :=
  (values <- concatenated RoachStream.s21_point_error self ;;
   order <- ascending_order self ;;
   take values order)%result.

Definition s21_raw (self : t) : result (list (list complex)) :=
  (rows <- np_vstack (map RoachStream.s21_raw (stream_arrays self)) ;;
   order <- ascending_order self ;;
   take rows order)%result.

(** The property [num_channels]: the [IndexError] of [self.stream_arrays[0]]
    on an empty list is caught and gives 0. *)
Definition num_channels (self : t) : result nat :=
  let sizes := map (fun sa => Z.of_nat (size (RoachStream.tone_index sa)))
                   (stream_arrays self) in
  if any_difference sizes then Raise ValueError
  else match stream_arrays self with
       | [] => Ok 0
       | sa :: _ => Ok (size (RoachStream.tone_index sa))
       end.

End Defs.
End SweepArray.

(** *** SweepStreamArray: a SweepArray and a StreamArray *)

Module SweepStreamArray.
Section Defs.

Context {CORE : Core} {CALC : Calculate} {NP : NumPy}.

(** [core.MeasurementError] *)
Definition MeasurementError : exn := OtherError.

Record t : Type := {
  sweep_array : SweepArray.t;
  stream_array : RoachStream.t;
  state : StateDict;
  description : string
}.

(** [SweepStreamArray.__init__] *)
Definition new (sweep_array : SweepArray.t) (stream_array : RoachStream.t)
           (state : StateDict) (description : string) : result t :=
  (channels <- SweepArray.num_channels sweep_array ;;
   if negb (Nat.eqb channels (size (RoachStream.tone_index stream_array)))
   then Raise MeasurementError
   else Ok {| sweep_array := sweep_array;
              stream_array := stream_array;
              state := state;
              description := description |})%result.

Definition epochs (self : t) (start stop : float64) : result t :=
  (sliced <- RoachStream.epochs (stream_array self) start stop ;;
   new (sweep_array self) sliced (state self) (description self))%result.

Definition num_channels (self : t) : result nat :=
  SweepArray.num_channels (sweep_array self).

End Defs.
End SweepStreamArray.

(** *** SingleSweep: a list of SingleStreams

    The properties [ascending_order], [frequency], [s21_point],
    [s21_point_error] and [s21_raw] are memoized functions of [streams]; the
    one cache that a method writes with a value of its own is [_resonator],
    which is the cache of the memoized property [resonator] and the attribute
    that [fit_resonator] assigns. *)

Module SingleSweep.
Section Defs.

Context {CORE : Core} {CALC : Calculate} {NP : NumPy} {LM : LmfitResonator}.

Record t : Type := {
  streams : list RoachStream.t;
  number : option Z;
  state : StateDict;
  description : string;
  _resonator : option Resonator
}.

Definition set_resonator (r : option Resonator) (self : t) : t :=
  {| streams := streams self;
     number := number self;
     state := state self;
     description := description self;
     _resonator := r |}.

(** [np.array([s.<property> for s in self.streams])] *)
Definition collected {A} (property : RoachStream.t -> result (ndarray A))
           (self : t) : result (list A) :=
  (values <- sequence (map property (streams self)) ;;
   np_array values)%result.

Definition ascending_order (self : t) : result (list nat) :=
  rmap argsort (collected RoachStream.frequency self).

Definition frequency (self : t) : result (list float64) :=
  (values <- collected RoachStream.frequency self ;;
   order <- ascending_order self ;;
   take values order)%result.

Definition s21_point (self : t) : result (list complex) :=
  (values <- collected RoachStream.s21_point self ;;
   order <- ascending_order self ;;
   take values order)%result.

Definition s21_point_error (self : t) : result (list complex) :=
  (values <- collected RoachStream.s21_point_error self ;;
   order <- ascending_order self ;;
   take values order)%result.

Definition s21_raw (self : t) : result (list (list complex)) :=
  (rows <- np_vstack (map RoachStream.s21_raw (streams self)) ;;
   order <- ascending_order self ;;
   take rows order)%result.

(** The methods run on the sweep together with the state [P] of the
    measurement that holds it: [parent_delete] is the method
    [_delete_memoized_property_caches] of [self._parent], or [None] when
    [self._parent] is [None]. *)
Section Methods.

Variable P : Type.
Variable parent_delete : option (P -> P).

Definition delete_memoized_property_caches : M (t * P) unit :=
  fun sp =>
    (Ok tt, (set_resonator None (fst sp),
             match parent_delete with
             | Some delete => delete (snd sp)
             | None => snd sp
             end)).

Definition assign_resonator (r : Resonator) : M (t * P) unit :=
  fun sp => (Ok tt, (set_resonator (Some r) (fst sp), snd sp)).

Definition fit_resonator (model : Model) (params : option Params)
  : M (t * P) Resonator :=
  (delete_memoized_property_caches ;;;
   sp <- get ;;
   f <- lift (frequency (fst sp)) ;;
   s21 <- lift (s21_point (fst sp)) ;;
   errors <- lift (s21_point_error (fst sp)) ;;
   assign_resonator (new_resonator model f s21 errors) ;;;
   assign_resonator (fit (new_resonator model f s21 errors) params) ;;;
   ret (fit (new_resonator model f s21 errors) params))%monad.

(** The memoized property, whose default model is
    [LinearResonatorWithCable] with no initial parameters. *)
Definition resonator : M (t * P) Resonator :=
  (sp <- get ;;
   match _resonator (fst sp) with
   | Some r => ret r
   | None =>
       r <- fit_resonator LinearResonatorWithCable None ;;
       assign_resonator r ;;;
       ret r
   end)%monad.

End Methods.

End Defs.
End SingleSweep.

(** *** SweepArray: the sweep of one channel *)

Module SweepArrayChannel.
Section Defs.

Context {CORE : Core} {CALC : Calculate} {NP : NumPy} {LM : LmfitResonator}.

(** [SweepArray.__getitem__(number)] for an integer [number]: the
    SingleSweep of the streams of one channel, on which no resonator has
    been fitted. *)
Definition getitem (self : SweepArray.t) (number : Z) : result SingleSweep.t :=
  (streams <- sequence (map (fun sa => StreamArray.stream sa number)
                            (SweepArray.stream_arrays self)) ;;
   Ok {| SingleSweep.streams := streams;
         SingleSweep.number := Some number;
         SingleSweep.state := SweepArray.state self;
         SingleSweep.description := SweepArray.description self;
         SingleSweep._resonator := None |})%result.

Definition sweep (self : SweepArray.t) (number : Z) : result SingleSweep.t :=
  getitem self number.

End Defs.
End SweepArrayChannel.

(** *** SingleSweepStream: a sweep and a stream of one channel

    The attributes that the methods set are kept in a dictionary, as in
    Python: [hasattr], [getattr], [setattr] and [delattr] act on it by name. *)

Module SingleSweepStream.

Inductive attr : Type :=
| _glitch_mask
| _number_of_masked_samples
| _x
| _q
| _stream_s21_normalized_deglitched
| _stream_s21_normalized
| _x_raw
| _q_raw
| _S_edges
| _S_counts
| _S_frequency
| _S_qq
| _S_xx
| _S_xq
| _S_xx_variance
| _S_qq_variance
| _S_xq_variance
| _S_mask
| _pca_S_frequency
| _pca_S_00
| _pca_S_11
| _pca_angles.

Definition attr_eq_dec (a b : attr) : {a = b} + {a <> b}.
Proof. decide equality. Defined.

Definition attr_type (a : attr) : Type :=
  match a with
  | _glitch_mask | _S_mask => list bool
  | _number_of_masked_samples => Z
  | _stream_s21_normalized_deglitched | _stream_s21_normalized
  | _S_xq | _S_xq_variance => list complex
  | _S_edges => option (list float64)
  | _S_counts => list Z
  | _ => list float64
  end.

Definition Dict : Type := forall a : attr, option (attr_type a).

Definition empty : Dict := fun _ => None.

Definition dict_set (a : attr) (v : attr_type a) (d : Dict) : Dict :=
  fun b =>
    match attr_eq_dec a b with
    | left e => Some (eq_rect a attr_type v b e)
    | right _ => d b
    end.

Definition dict_delete (names : list attr) (d : Dict) : Dict :=
  fun b => if existsb (fun a => if attr_eq_dec a b then true else false) names
           then None else d b.

(** The attributes ['_' + name] for the names [dir(self)] lists: every
    attribute but [_S_xq_variance] and [_S_mask], which no property or
    method is named after. *)
Definition memoized : list attr :=
  [_glitch_mask; _number_of_masked_samples; _x; _q;
   _stream_s21_normalized_deglitched; _stream_s21_normalized; _x_raw; _q_raw;
   _S_edges; _S_counts; _S_frequency; _S_qq; _S_xx; _S_xq;
   _S_xx_variance; _S_qq_variance;
   _pca_S_frequency; _pca_S_00; _pca_S_11; _pca_angles].

Section Defs.

Context {CORE : Core} {CALC : Calculate} {NP : NumPy} {LM : LmfitResonator}
        {DS : Despike} {ML : Mlab} {BN : Binning} {IQ : IQNoise}.

(** [sweep_parent] tells whether [self.sweep._parent] is [self]; the
    attribute [_parent] is set outside this module. *)
Record t : Type := {
  sweep : SingleSweep.t;
  stream : RoachStream.t;
  number : option Z;
  state : StateDict;
  description : string;
  sweep_parent : bool;
  dict : Dict
}.

Definition with_dict (d : Dict) (self : t) : t :=
  {| sweep := sweep self;
     stream := stream self;
     number := number self;
     state := state self;
     description := description self;
     sweep_parent := sweep_parent self;
     dict := d |}.

Definition with_sweep (sw : SingleSweep.t) (self : t) : t :=
  {| sweep := sw;
     stream := stream self;
     number := number self;
     state := state self;
     description := description self;
     sweep_parent := sweep_parent self;
     dict := dict self |}.

(** [SingleSweepStream.__init__] *)
Definition new (sweep : SingleSweep.t) (stream : RoachStream.t)
           (number : option Z) (state : StateDict) (description : string)
           (sweep_parent : bool) : t :=
  {| sweep := sweep;
     stream := stream;
     number := number;
     state := state;
     description := description;
     sweep_parent := sweep_parent;
     dict := empty |}.

Definition hasattr (a : attr) : M t bool :=
  fun s => (Ok (match dict s a with Some _ => true | None => false end), s).

Definition getattr (a : attr) : M t (attr_type a) :=
  fun s => match dict s a with
           | Some v => (Ok v, s)
           | None => (Raise AttributeError, s)
           end.

Definition setattr (a : attr) (v : attr_type a) : M t unit :=
  fun s => (Ok tt, with_dict (dict_set a v (dict s)) s).

Definition delete_memoized_property_caches : M t unit :=
  fun s => (Ok tt, with_dict (dict_delete memoized (dict s)) s).

(** A method of [self.sweep], run on the sweep and on the attributes of
    [self], which are those of the sweep's parent. *)
Definition in_sweep {A}
           (method : option (Dict -> Dict) -> M (SingleSweep.t * Dict) A) : M t A :=
  fun s =>
    let hook := if sweep_parent s then Some (dict_delete memoized) else None in
    let '(r, (sw, d)) := method hook (sweep s, dict s) in
    (r, with_dict d (with_sweep sw s)).

(** [self.sweep.resonator] *)
Definition sweep_resonator : M t Resonator :=
  in_sweep (fun hook => SingleSweep.resonator hook).

Definition resonator : M t Resonator := sweep_resonator.

(** The memoized property [stream_s21_normalized]. *)
Definition stream_s21_normalized : M t (list complex) :=
  (cached <- hasattr _stream_s21_normalized ;;
   (if cached then ret tt
    else
      r <- sweep_resonator ;;
      self <- get ;;
      f <- lift (RoachStream.frequency (stream self)) ;;
      setattr _stream_s21_normalized
              (remove_background r f (RoachStream.s21_raw (stream self)))) ;;;
   getattr _stream_s21_normalized)%monad.

Definition set_raw_q_and_x : M t unit :=
  (r <- resonator ;;
   s21 <- stream_s21_normalized ;;
   setattr _x_raw (fst (invert r s21)) ;;;
   setattr _q_raw (snd (invert r s21)))%monad.

Definition q_raw : M t (list float64) :=
  (present <- hasattr _q_raw ;;
   (if present then ret tt else set_raw_q_and_x) ;;;
   getattr _q_raw)%monad.

Definition x_raw : M t (list float64) :=
  (present <- hasattr _x_raw ;;
   (if present then ret tt else set_raw_q_and_x) ;;;
   getattr _x_raw)%monad.

Definition y_raw : M t (list float64) :=
  (q <- q_raw ;; ret (map (fun v => Float.div v (Fin 2)) q))%monad.

(** [mask.sum()] *)
Definition mask_sum (mask : list bool) : Z :=
  Z.of_nat (List.length (filter (fun b => b) mask)).

(** [int(2 ** np.ceil(np.log2(window_in_seconds * stream_sample_rate)))] *)
Definition window_samples (window_in_seconds rate : float64) : result Z :=
  int_of_float
    (exp2_shift (np_round_log2 Qceil_log2 (Float.mul window_in_seconds rate)) 0).

(** The body of the [try] of [deglitch]. *)
Definition deglitch_try (threshold : float64) (window : Z)
           (mask_extend_samples : Z) : M t unit :=
  (x <- x_raw ;;
   mask <- lift (deglitch_mask_mad x threshold window mask_extend_samples) ;;
   setattr _glitch_mask mask ;;;
   mask <- getattr _glitch_mask ;;
   setattr _number_of_masked_samples (mask_sum mask) ;;;
   x <- x_raw ;;
   q <- q_raw ;;
   s21 <- stream_s21_normalized ;;
   mask <- getattr _glitch_mask ;;
   masked <- lift (mask_glitches x q s21 mask window) ;;
   setattr _x (fst (fst masked)) ;;;
   setattr _q (snd (fst masked)) ;;;
   setattr _stream_s21_normalized_deglitched (snd masked))%monad.

(** The body of the [except] of [deglitch]. *)
Definition deglitch_except : M t unit :=
  (x <- x_raw ;;
   setattr _glitch_mask (repeat false (List.length x)) ;;;
   mask <- getattr _glitch_mask ;;
   setattr _number_of_masked_samples (mask_sum mask) ;;;
   x <- x_raw ;;
   setattr _x x ;;;
   q <- q_raw ;;
   setattr _q q ;;;
   s21 <- stream_s21_normalized ;;
   setattr _stream_s21_normalized_deglitched s21)%monad.

(** [deglitch(threshold=8, window_in_seconds=1, mask_extend_samples=50)];
    its last statement logs [self._number_of_masked_samples] and
    [self._x_raw.size]. *)
Definition deglitch (threshold window_in_seconds : float64)
           (mask_extend_samples : Z) : M t unit :=
  (self <- get ;;
   window <- lift (window_samples window_in_seconds
                                  (RoachStream.stream_sample_rate (stream self))) ;;
   try_except (deglitch_try threshold window mask_extend_samples)
              deglitch_except ;;;
   masked <- getattr _number_of_masked_samples ;;
   x <- getattr _x_raw ;;
   ret tt)%monad.

Definition deglitch_default : M t unit :=
  deglitch (Fin 8) (Fin 1) 50%Z.

(** A property that runs [deglitch()] when its attribute is missing. *)
Definition deglitched (a : attr) : M t (attr_type a) :=
  (present <- hasattr a ;;
   (if present then ret tt else deglitch_default) ;;;
   getattr a)%monad.

Definition glitch_mask : M t (list bool) := deglitched _glitch_mask.

Definition number_of_masked_samples : M t Z :=
  deglitched _number_of_masked_samples.

Definition stream_s21_normalized_deglitched : M t (list complex) :=
  deglitched _stream_s21_normalized_deglitched.

Definition q : M t (list float64) := deglitched _q.

Definition x : M t (list float64) := deglitched _x.

Definition y : M t (list float64) :=
  (v <- q ;; ret (map (fun v => Float.div v (Fin 2)) v))%monad.

(** [int(2**(np.floor(np.log2(self.stream.s21_raw.size)) - 3))] *)
Definition default_NFFT (self : t) : result Z :=
  int_of_float
    (exp2_shift
       (np_round_log2 Qfloor_log2
          (Float.of_Z (Z.of_nat (size (RoachStream.s21_raw (stream self))))))
       (-3)).

Definition choose_NFFT (NFFT : option Z) : M t Z :=
  match NFFT with
  | Some n => ret n
  | None => (self <- get ;; lift (default_NFFT self))%monad
  end.

(** [S**2 / ndof] *)
Definition variance (S : list float64) (ndof : Z) : list float64 :=
  map (fun s => Float.div (Float.mul s s) (Float.of_Z ndof)) S.

Definition cvariance (S : list complex) (ndof : Z) : list complex :=
  map (fun s => cdiv (cmul s s) (of_real (Float.of_Z ndof))) S.

Definition MaskingFunction : Type :=
  list float64 -> list float64 -> list float64 -> list complex -> list bool.

Definition set_S (NFFT : option Z) (window : Window) (detrend : Detrend)
           (noverlap : option Z) (binned : bool) (bins_per_decade : Z)
           (masking_function : option MaskingFunction) (psd_kwds : PsdKwds)
  : M t unit :=
  (NFFT <- choose_NFFT NFFT ;;
   let noverlap := match noverlap with Some n => n | None => (NFFT / 2)%Z end in
   self <- get ;;
   let Fs := RoachStream.stream_sample_rate (stream self) in
   q1 <- q ;;
   let S_qq := fst (psd q1 Fs NFFT window detrend noverlap psd_kwds) in
   x1 <- x ;;
   let S_xx := fst (psd x1 Fs NFFT window detrend noverlap psd_kwds) in
   x2 <- x ;;
   q2 <- q ;;
   let S_xq := fst (csd x2 q2 Fs NFFT window detrend noverlap psd_kwds) in
   let f := snd (csd x2 q2 Fs NFFT window detrend noverlap psd_kwds) in
   masked <-
     match masking_function with
     | None => ret (f, S_qq, S_xx, S_xq)
     | Some masking =>
         let mask := masking f S_xx S_qq S_xq in
         f' <- lift (compress f mask) ;;
         S_qq' <- lift (compress S_qq mask) ;;
         S_xx' <- lift (compress S_xx mask) ;;
         S_xq' <- lift (compress S_xq mask) ;;
         setattr _S_mask mask ;;;
         ret (f', S_qq', S_xx', S_xq')
     end ;;
   let '(f, S_qq, S_xx, S_xq) := masked in
   (* Drop the DC and Nyquist bins. *)
   let f := drop_ends f in
   let S_xx := drop_ends S_xx in
   let S_qq := drop_ends S_qq in
   let S_xq := drop_ends S_xq in
   x3 <- x ;;
   ndof <- (if (NFFT =? 0)%Z then raise ZeroDivisionError
            else ret ((2 * Z.of_nat (List.length x3)) / NFFT)%Z) ;;
   (if binned then
      let b := log_bin_with_variance f bins_per_decade
                 (S_xx, variance S_xx ndof)
                 (S_qq, variance S_qq ndof)
                 (S_xq, cvariance S_xq ndof) in
      setattr _S_edges (Some (bin_edges b)) ;;;
      setattr _S_counts (bin_counts b) ;;;
      setattr _S_frequency (bin_f_mean b) ;;;
      setattr _S_qq (fst (bin_qq b)) ;;;
      setattr _S_xx (fst (bin_xx b)) ;;;
      setattr _S_xq (fst (bin_xq b)) ;;;
      setattr _S_xx_variance (snd (bin_xx b)) ;;;
      setattr _S_qq_variance (snd (bin_qq b)) ;;;
      setattr _S_xq_variance (snd (bin_xq b))
    else
      setattr _S_edges None ;;;
      setattr _S_counts (repeat 1%Z (List.length f)) ;;;
      setattr _S_frequency f ;;;
      setattr _S_qq S_qq ;;;
      setattr _S_xx S_xx ;;;
      setattr _S_xq S_xq ;;;
      setattr _S_xx_variance (variance S_xx ndof) ;;;
      setattr _S_qq_variance (variance S_qq ndof) ;;;
      setattr _S_xq_variance (cvariance S_xq ndof)))%monad.

(** [set_S()] with every argument at its default. *)
Definition set_S_default : M t unit :=
  set_S None window_none detrend_none None true 30%Z None no_kwds.

(** A property that runs [set_S()] when its attribute is missing. *)
Definition spectral (a : attr) : M t (attr_type a) :=
  (present <- hasattr a ;;
   (if present then ret tt else set_S_default) ;;;
   getattr a)%monad.

Definition S_frequency : M t (list float64) := spectral _S_frequency.
Definition S_qq : M t (list float64) := spectral _S_qq.
Definition S_xx : M t (list float64) := spectral _S_xx.
Definition S_xq : M t (list complex) := spectral _S_xq.
Definition S_edges : M t (option (list float64)) := spectral _S_edges.
Definition S_counts : M t (list Z) := spectral _S_counts.
Definition S_xx_variance : M t (list float64) := spectral _S_xx_variance.
Definition S_qq_variance : M t (list float64) := spectral _S_qq_variance.

(** [self.x + 1j * self.y] *)
Definition complex_series (x y : list float64) : result (list complex) :=
  broadcast2 (fun a b => cadd (of_real a) (cmul j (of_real b))) x y.

Definition set_pca (NFFT : option Z) (window : Window) (detrend : Detrend)
           (binned : bool) : M t unit :=
  (NFFT <- choose_NFFT NFFT ;;
   x1 <- x ;;
   y1 <- y ;;
   series <- lift (complex_series x1 y1) ;;
   self <- get ;;
   let r := pca_noise series NFFT (RoachStream.stream_sample_rate (stream self))
                      window detrend binned true in
   setattr _pca_S_frequency (pca_fr r) ;;;
   evals0 <- lift (getitem (pca_evals r) 0) ;;
   setattr _pca_S_00 evals0 ;;;
   evals1 <- lift (getitem (pca_evals r) 1) ;;
   setattr _pca_S_11 evals1 ;;;
   setattr _pca_angles (pca_angles_out r))%monad.

Definition set_pca_default : M t unit :=
  set_pca None window_none detrend_none true.

Definition pca_S_00 : M t (list float64) :=
  (present <- hasattr _pca_S_00 ;;
   (if present then ret tt else set_pca_default) ;;;
   getattr _pca_S_00)%monad.

Definition pca_S_11 : M t (list float64) :=
  (present <- hasattr _pca_S_11 ;;
   (if present then ret tt else set_pca_default) ;;;
   getattr _pca_S_11)%monad.

Definition pca_angles : M t (list float64) :=
  (present <- hasattr _pca_angles ;;
   (if present then ret tt else set_pca_default) ;;;
   getattr _pca_angles)%monad.

(** [pca_S_frequency] tests for an attribute named [_pca_frequency], which
    no statement of the module assigns, and not for [_pca_S_frequency]. *)
Definition pca_S_frequency : M t (list float64) :=
  (let present := false in
   (if present then ret tt else set_pca_default) ;;;
   getattr _pca_S_frequency)%monad.

(** [S_yy = S_qq / 4], [S_xy = S_xq / 2] and
    [S_yy_variance = S_qq_variance / 16]. *)
Definition S_yy : M t (list float64) :=
  (v <- S_qq ;; ret (map (fun s => Float.div s (Fin 4)) v))%monad.

Definition S_xy : M t (list complex) :=
  (v <- S_xq ;; ret (map (fun s => cdiv s (of_real (Fin 2))) v))%monad.

Definition S_yy_variance : M t (list float64) :=
  (v <- S_qq_variance ;; ret (map (fun s => Float.div s (Fin 16)) v))%monad.

End Defs.
End SingleSweepStream.

(** * Concrete instruments and measurements

    Instances of the interfaces and small objects on which the properties
    below are evaluated. *)

Module Examples.

(** Floats printed as a fraction, and read back from integer literals. *)
Definition fraction_text : FloatText :=
  {| str_float := fun x =>
       match x with
       | Fin q => (str_int (Qnum q) ++ "/" ++ str_int (Zpos (Qden q)))%string
       | Inf false => "inf"
       | Inf true => "-inf"
       | NaN => "nan"
       end;
     py_float := fun s => option_map Float.of_Z (py_int s) |}.

(** A thermometer on its own serial port, and one in port 3 of a
    mainframe. *)
Definition direct : Sim.SIM := {| Sim.parent := None; Sim.port := "" |}.

Definition in_port_3 : Sim.SIM :=
  {| Sim.parent := Some Sim.Mainframe; Sim.port := "3" |}.

Definition quiet : Sim.World :=
  {| Sim.written := []; Sim.incoming := []; Sim.connected := None |}.

(** A curve of one point, and a link on which the instrument answers the
    two [CINI?] queries of [validate_curve] with a curve of no points. *)
Definition one_point_curve : Sim.CalibrationCurve :=
  {| Sim.sensor := [Fin 100];
     Sim.temperature := [Fin 4];
     Sim.identification := "X";
     Sim.format := "0" |}.

Definition point_dropped : Sim.World :=
  {| Sim.written := [];
     Sim.incoming := ["0,X,0"; "0,X,0"];
     Sim.connected := None |}.

(** A ROACH whose state is its stream sample rate, with tone bins one
    hertz apart. *)
Definition core : Core := {| StateDict := float64 |}.

Definition calculate : @Calculate core :=
  {| calculate_frequency := fun (_ : @StateDict core) bin => Float.of_Z bin;
     calculate_stream_sample_rate := fun rate : @StateDict core => rate |}.

(** Square roots rounded up to a multiple of the denominator. *)
Definition sqrt_up (x : float64) : float64 :=
  match x with
  | Fin q => if Qltb q 0 then NaN
             else Fin (Z.sqrt_up (Qnum q * Zpos (Qden q)) # Qden q)
  | Inf false => Inf false
  | Inf true => NaN
  | NaN => NaN
  end.

Definition fsum (l : list float64) : float64 := fold_right Float.add (Fin 0) l.

Definition mean (l : list float64) : float64 :=
  Float.div (fsum l) (Float.of_Z (Z.of_nat (List.length l))).

Definition not_nan (l : list float64) : list float64 :=
  filter (fun x => negb (isnan x)) l.

Definition std (l : list float64) : float64 :=
  let m := mean l in
  sqrt_up (mean (map (fun x => Float.mul (Float.sub x m) (Float.sub x m)) l)).

(** The index of each entry, inserted in ascending order of the entries. *)
Fixpoint insert_index (key : nat -> float64) (i : nat) (sorted : list nat)
  : list nat :=
  match sorted with
  | [] => [i]
  | k :: rest =>
      if np_le (key i) (key k) then i :: sorted
      else k :: insert_index key i rest
  end.

Definition insertion_argsort (l : list float64) : list nat :=
  fold_right (insert_index (fun i => nth i l NaN)) [] (seq 0 (List.length l)).

Definition numpy : NumPy :=
  {| nanmean := fun l =>
       Complex (mean (not_nan (map re l))) (mean (not_nan (map im l)));
     nanstd := fun l => std (not_nan l);
     np_sqrt := sqrt_up;
     argsort := insertion_argsort |}.

(** Three samples taken at 0 s, 1 s and 2 s. *)
Definition z0 : complex := Complex (Fin 1) (Fin 0).
Definition z1 : complex := Complex (Fin 0) (Fin 1).
Definition z2 : complex := Complex (Fin 2) (Fin 2).

Definition single_stream (bin : Z) (samples : list complex)
  : @RoachStream.t core :=
  {| RoachStream.class_ := RoachStream.SingleStreamClass;
     RoachStream.tone_bin := [100; 101; 102]%Z;
     RoachStream.tone_amplitude := [Fin 1; Fin 1; Fin 1];
     RoachStream.tone_phase := [Fin 0; Fin 0; Fin 0];
     RoachStream.tone_index := Arr0 bin;
     RoachStream.filterbank_bin := Arr0 0%Z;
     RoachStream.epoch := Fin 0;
     RoachStream.sequence_start_number := Some 0%Z;
     RoachStream.s21_raw := Arr1 samples;
     RoachStream.data_demodulated := true;
     RoachStream.roach_state := Fin 1 : @StateDict core;
     RoachStream.number := Some 0%Z;
     RoachStream.state := Fin 0 : @StateDict core;
     RoachStream.description := "" |}.

Definition three_seconds : @RoachStream.t core := single_stream 0 [z0; z1; z2].

(** Two channels of three samples: one of NaN only, one with a NaN. *)
Definition znan : complex := Complex NaN NaN.

Definition stream_array (index : list Z) (rows : list (list complex))
  : @RoachStream.t core :=
  {| RoachStream.class_ := RoachStream.StreamArrayClass;
     RoachStream.tone_bin := [100; 101; 102]%Z;
     RoachStream.tone_amplitude := [Fin 1; Fin 1; Fin 1];
     RoachStream.tone_phase := [Fin 0; Fin 0; Fin 0];
     RoachStream.tone_index := Arr1 index;
     RoachStream.filterbank_bin := Arr1 (map (fun _ => 0%Z) index);
     RoachStream.epoch := Fin 0;
     RoachStream.sequence_start_number := Some 0%Z;
     RoachStream.s21_raw := Arr2 rows;
     RoachStream.data_demodulated := true;
     RoachStream.roach_state := Fin 1 : @StateDict core;
     RoachStream.number := None;
     RoachStream.state := Fin 0 : @StateDict core;
     RoachStream.description := "" |}.

Definition two_channels : @RoachStream.t core :=
  stream_array [0; 1]%Z [[znan; znan; znan]; [z0; znan; z2]].

(** A resonator that remembers the data it was built from and how it was
    fitted; it has no background to remove, and it reads the real part of
    S21 as x and the imaginary part as q. *)
Record resonator : Type := {
  res_model : Z;
  res_frequency : list float64;
  res_s21 : list complex;
  res_errors : list complex;
  res_fitted : option (option Z)
}.

Definition lmfit : LmfitResonator :=
  {| Model := Z;
     Params := Z;
     Resonator := resonator;
     LinearResonatorWithCable := 0%Z;
     new_resonator := fun model f s21 errors =>
       {| res_model := model; res_frequency := f; res_s21 := s21;
          res_errors := errors; res_fitted := None |};
     fit := fun r params =>
       {| res_model := res_model r; res_frequency := res_frequency r;
          res_s21 := res_s21 r; res_errors := res_errors r;
          res_fitted := Some params |};
     remove_background := fun _ _ s21 => List.concat (rows_of s21);
     invert := fun _ s21 => (map re s21, map im s21) |}.

(** Three streams at 102 Hz, 100 Hz and 101 Hz, and the same three channels
    in two stream arrays. *)
Definition sweep_of_three : @SingleSweep.t core lmfit :=
  {| SingleSweep.streams :=
       [single_stream 2 [z2; z2]; single_stream 0 [z0; z0];
        single_stream 1 [z1; znan]];
     SingleSweep.number := Some 0%Z;
     SingleSweep.state := Fin 0 : @StateDict core;
     SingleSweep.description := "";
     SingleSweep._resonator := None |}.

Definition sweep_array_of_three : @SweepArray.t core :=
  {| SweepArray.stream_arrays :=
       [stream_array [2; 0]%Z [[z2; z2]; [z0; z0]];
        stream_array [1]%Z [[z1; znan]]];
     SweepArray.state := Fin 0 : @StateDict core;
     SweepArray.description := "" |}.

(** A despiker that masks the samples whose magnitude exceeds the
    threshold and sets them to zero; it raises when the window is not
    positive. *)
Definition despike : Despike :=
  {| deglitch_mask_mad := fun x thresh window_length mask_extend =>
       if (window_length <=? 0)%Z then Raise ValueError
       else Ok (map (fun v => Float.ltb thresh (Float.abs v)) x);
     mask_glitches := fun x q s21 mask window_length =>
       if (window_length <=? 0)%Z then Raise ValueError
       else Ok (zip_with (fun v (m : bool) => if m then Fin 0 else v) x mask,
                zip_with (fun v (m : bool) => if m then Fin 0 else v) q mask,
                zip_with (fun v (m : bool) => if m then Complex (Fin 0) (Fin 0) else v)
                         s21 mask) |}.

(** Spectra of [NFFT // 2 + 1] points: the squares, or the products, of the
    first samples, at multiples of [Fs / NFFT]. *)
Definition spectrum_points (NFFT : Z) : list nat :=
  seq 0 (Z.to_nat (NFFT / 2) + 1).

Definition mlab : Mlab :=
  {| Window := unit;
     Detrend := unit;
     PsdKwds := unit;
     window_none := tt;
     detrend_none := tt;
     no_kwds := tt;
     psd := fun x Fs NFFT _ _ _ _ =>
       (map (fun i => Float.mul (nth i x (Fin 0)) (nth i x (Fin 0)))
            (spectrum_points NFFT),
        map (fun i => Float.div (Float.mul (Float.of_Z (Z.of_nat i)) Fs)
                                (Float.of_Z NFFT))
            (spectrum_points NFFT));
     csd := fun x y Fs NFFT _ _ _ _ =>
       (map (fun i => of_real (Float.mul (nth i x (Fin 0)) (nth i y (Fin 0))))
            (spectrum_points NFFT),
        map (fun i => Float.div (Float.mul (Float.of_Z (Z.of_nat i)) Fs)
                                (Float.of_Z NFFT))
            (spectrum_points NFFT)) |}.

(** Bins of one spectral sample each. *)
Definition binning : Binning :=
  {| log_bin_with_variance := fun f bins_per_decade xx qq xq =>
       {| bin_edges := f;
          bin_counts := map (fun _ => 1%Z) f;
          bin_f_mean := f;
          bin_xx := xx;
          bin_qq := qq;
          bin_xq := xq |} |}.

(** A decomposition that returns the real and the imaginary parts. *)
Definition iqnoise : @IQNoise mlab :=
  {| pca_noise := fun d NFFT Fs _ _ _ _ =>
       {| pca_fr := map (fun i => Float.of_Z (Z.of_nat i)) (spectrum_points NFFT);
          pca_evals := [map re d; map im d];
          pca_angles_out := map (fun _ => Fin 0) d |} |}.

(** A stream of sixteen samples at 101 Hz, with the sweep of three streams. *)
Definition sixteen : list complex :=
  map (fun i => Complex (Float.of_Z (Z.of_nat i)) (Fin 2)) (seq 0 16).

Definition sweep_stream : @SingleSweepStream.t core lmfit :=
  SingleSweepStream.new sweep_of_three (single_stream 1 sixteen)
                        (Some 0%Z) (Fin 0 : @StateDict core) "" true.

(** The same with a stream of four samples. *)
Definition short_sweep_stream : @SingleSweepStream.t core lmfit :=
  SingleSweepStream.new sweep_of_three (single_stream 1 [z0; z1; z2; z0])
                        (Some 0%Z) (Fin 0 : @StateDict core) "" true.

End Examples.

(** * The order NumPy sorts and searches by *)


Lemma np_le_trans (a b c : float64) :
  np_le a b = true -> np_le b c = true -> np_le a c = true.
Proof.
  unfold np_le, np_lt, Float.ltb, Qltb.
  destruct a as [qa | sa |], b as [qb | sb |], c as [qc | sc |]; simpl;
    try destruct sa; try destruct sb; try destruct sc; simpl;
    try discriminate; try reflexivity.
  rewrite !negb_involutive. rewrite !Qle_bool_iff. apply Qle_trans.
Qed.

(** * Properties of the SIM drivers *)

Module SimFacts.
Import Sim.

(** The mainframe is idle when it is connected to no port, which is how
    [SIM900.__init__] leaves it and how every method of a module leaves it. *)
Definition idle (w : World) : Prop := connected w = None.

(** What a module's [send] adds to the link: the message, and around it the
    mainframe's connect and disconnect commands when there is a mainframe. *)
Definition framed (self : SIM) (message : string) : list string :=
  match parent self with
  | None => [(message ++ termination)%string]
  | Some _ =>
      [(("CONN " ++ port self ++ ", " ++ dquote ++ escape ++ dquote) ++ termination)%string;
       (message ++ termination)%string;
       (escape ++ termination)%string]
  end.

Definition wrote (w : World) (lines : list string) : World :=
  {| written := written w ++ lines;
     incoming := incoming w;
     connected := connected w |}.

Lemma world_eta (w : World) :
  {| written := written w; incoming := incoming w; connected := connected w |} = w.
Proof. destruct w; reflexivity. Qed.

Lemma send_idle (self : SIM) (message : string) (w : World) :
  idle w -> send self message w = (Ok tt, wrote w (framed self message)).
Proof.
  unfold idle, send, framed, wrote. intros Hc.
  destruct w as [wr inc con]. simpl in Hc. subst con.
  destruct (parent self); simpl.
  - unfold connect, disconnect, SIM900_send, serial_write, set_connected, bind, get.
    simpl. rewrite <- !app_assoc. reflexivity.
  - unfold serial_write. reflexivity.
Qed.

Lemma send_busy (self : SIM) (message : string) (w : World) (m : SIM900) (p : string) :
  parent self = Some m -> connected w = Some p ->
  send self message w = (Raise ValueError, w).
Proof.
  intros Hp Hc. unfold send. rewrite Hp.
  unfold connect, bind, get. simpl. rewrite Hc. reflexivity.
Qed.

(** The replies a module reads are taken from the head of [incoming]. *)
Definition next_reply (w : World) : string :=
  match incoming w with [] => EmptyString | l :: _ => l end.

Definition consumed (w : World) : World :=
  {| written := written w; incoming := tl (incoming w); connected := connected w |}.

Lemma send_and_receive_idle (self : SIM) (message : string) (w : World) :
  idle w ->
  send_and_receive self message w
  = (Ok (next_reply w), wrote (consumed w) (framed self message)).
Proof.
  unfold idle, send_and_receive, framed, wrote, consumed, next_reply. intros Hc.
  destruct w as [wr inc con]. simpl in Hc. subst con.
  destruct (parent self); simpl.
  - unfold connect, disconnect, SIM900_send, SIM900_receive, serial_write,
      serial_readline_strip, set_connected, bind, get, ret. simpl.
    destruct inc; simpl; rewrite <- !app_assoc; reflexivity.
  - unfold serial_write, serial_readline_strip, bind. simpl.
    destruct inc; reflexivity.
Qed.

Lemma idle_wrote (w : World) (lines : list string) : idle w -> idle (wrote w lines).
Proof. exact (fun H => H). Qed.

Lemma idle_consumed (w : World) : idle w -> idle (consumed w).
Proof. exact (fun H => H). Qed.


Definition in_range (f : float64) : bool :=
  (Float.leb minimum_frequency f && Float.leb f maximum_frequency)%bool.









(** A busy mainframe refuses the connection: nothing is sent. *)
Lemma set_frequency_busy {FT : FloatText} (s : SIM) (m : SIM900) (p : string)
      (f : float64) (w : World) :
  parent s = Some m -> connected w = Some p -> in_range f = true ->
  set_frequency (SIM921 s) f w = (Raise ValueError, w).
Proof.
  intros Hp Hc E. unfold set_frequency. fold (in_range f). rewrite E. simpl.
  eapply send_busy; eauto.
Qed.

(** *** Calibration curves *)

(** [write_curve] refuses a curve with too many points before it sends
    anything. *)
Lemma write_curve_too_many_points {FT : FloatText} (self : SIMThermometer)
      (number : Z) (curve : CalibrationCurve) (w : World) :
  maximum_temperature_points self < List.length (sensor curve) ->
  write_curve self number curve w = (Raise SIMError, w).
Proof.
  intros Hlt. unfold write_curve.
  destruct (Nat.ltb_spec (maximum_temperature_points self)
                         (List.length (sensor curve))) as [_ | Hge].
  - reflexivity.
  - lia.
Qed.

(** The line that [write_curve] sends for point [n]. *)
Definition capt_line {FT : FloatText} (number : Z) (curve : CalibrationCurve) (n : nat)
  : string :=
  ("CAPT " ++ str_int number ++ ", " ++ str_float (nth n (sensor curve) NaN)
   ++ ", " ++ str_float (nth n (temperature curve) NaN) ++ termination)%string.

Lemma getitem_nth {A} (l : list A) (n : nat) (d : A) :
  n < List.length l -> getitem l n = Ok (nth n l d).
Proof.
  intros Hn. unfold getitem.
  rewrite (nth_error_nth' l d Hn). reflexivity.
Qed.

Lemma wrote_wrote (w : World) (a b : list string) :
  wrote (wrote w a) b = wrote w (a ++ b).
Proof. unfold wrote; simpl. rewrite app_assoc. reflexivity. Qed.

Lemma wrote_nil (w : World) : wrote w [] = w.
Proof. unfold wrote. rewrite app_nil_r. apply world_eta. Qed.

Lemma write_points_ok {FT : FloatText} (number : Z) (curve : CalibrationCurve)
      (ns : list nat) (w : World) :
  (forall n, In n ns ->
             n < List.length (sensor curve) /\ n < List.length (temperature curve)) ->
  for_each ns (write_point number curve) w
  = (Ok tt, wrote w (map (capt_line number curve) ns)).
Proof.
  revert w. induction ns as [| n ns IH]; intros w Hall.
  - simpl. unfold ret. rewrite wrote_nil. reflexivity.
  - simpl. unfold bind at 1.
    destruct (Hall n (or_introl eq_refl)) as [Hs Ht].
    unfold write_point at 1. unfold bind, lift.
    rewrite (getitem_nth _ NaN Hs), (getitem_nth _ NaN Ht).
    change (serial_write _ w) with (Ok tt, wrote w [capt_line number curve n]).
    cbv iota beta.
    rewrite IH by (intros m Hm; apply Hall; right; exact Hm).
    rewrite wrote_wrote. reflexivity.
Qed.

(** Everything [write_curve] sends before it validates: the [CINI] command
    and then the points, on a connection that is held open for all of them. *)
Definition curve_lines {FT : FloatText} (self : SIMThermometer) (number : Z)
           (curve : CalibrationCurve) : list string :=
  framed (sim self)
         ("CINI " ++ str_int number ++ ", " ++ format curve ++ ", "
          ++ identification curve)
  ++ match parent (sim self) with
     | None => map (capt_line number curve) (seq 0 (List.length (sensor curve)))
     | Some _ =>
         [(("CONN " ++ port (sim self) ++ ", " ++ dquote ++ escape ++ dquote)
           ++ termination)%string]
         ++ map (capt_line number curve) (seq 0 (List.length (sensor curve)))
         ++ [(escape ++ termination)%string]
     end.

(** [write_curve] on a curve that fits: all points are written, then the
    outcome is that of [validate_curve], with [False] turned into
    [SIMError]. *)
Lemma write_curve_then_validate {FT : FloatText} (self : SIMThermometer)
      (number : Z) (curve : CalibrationCurve) (w : World) :
  List.length (sensor curve) <= maximum_temperature_points self ->
  List.length (sensor curve) = List.length (temperature curve) ->
  idle w ->
  write_curve self number curve w
  = match validate_curve self number curve
            (wrote w (curve_lines self number curve)) with
    | (Ok true, w') => (Ok tt, w')
    | (Ok false, w') => (Raise SIMError, w')
    | (Raise e, w') => (Raise e, w')
    end.
Proof.
  intros Hfit Hlen Hidle. unfold write_curve.
  destruct (Nat.ltb_spec (maximum_temperature_points self)
                         (List.length (sensor curve))) as [Hlt | _]; [lia |].
  assert (Hall : forall n, In n (seq 0 (List.length (sensor curve))) ->
                           n < List.length (sensor curve)
                           /\ n < List.length (temperature curve)).
  { intros n Hn. apply in_seq in Hn. lia. }
  unfold bind at 1. unfold initialize_curve.
  rewrite (send_idle _ _ Hidle).
  unfold curve_lines.
  set (cini := framed (sim self) _).
  destruct (parent (sim self)) as [m |] eqn:Hp.
  - unfold bind at 1. unfold connect at 1. unfold bind at 1. unfold get.
    assert (Hc : connected (wrote w cini) = None) by exact Hidle.
    rewrite Hc. unfold bind at 1. unfold SIM900_send, serial_write, set_connected.
    cbn [fst snd written incoming connected wrote].
    unfold bind at 1.
    rewrite (write_points_ok number curve _ _ Hall).
    unfold bind at 1. unfold disconnect at 1.
    unfold bind at 1. unfold SIM900_send, serial_write, set_connected.
    cbn [fst snd written incoming connected wrote].
    unfold bind at 1.
    unfold wrote. cbn [written incoming connected].
    rewrite Hidle.
    rewrite <- !app_assoc. cbn [app].
    destruct (validate_curve self number curve _) as [[[|] | e] w'];
      reflexivity.
  - unfold bind at 1. unfold ret at 1.
    unfold bind at 1.
    rewrite (write_points_ok number curve _ _ Hall).
    unfold bind at 1. unfold ret at 1.
    rewrite wrote_wrote.
    unfold bind at 1.
    destruct (validate_curve self number curve _) as [[[|] | e] w'];
      reflexivity.
Qed.

(** A stored value agrees with the value written when their ratio is
    within [maximum_fractional_error] of one. *)
Definition close (stored written : float64) : bool :=
  Float.ltb (Float.abs (Float.sub (Float.div stored written) (Fin 1)))
            maximum_fractional_error.

Lemma forallb_zip_with (stored written : list float64) :
  List.length stored = List.length written ->
  forallb (fun r => Float.ltb (Float.abs (Float.sub r (Fin 1)))
                              maximum_fractional_error)
          (zip_with Float.div stored written) = true ->
  Forall2 (fun a b => close a b = true) stored written.
Proof.
  revert written. induction stored as [| a stored IH]; intros [| b written] Hlen Hall;
    simpl in *; try discriminate; constructor.
  - apply andb_true_iff in Hall. exact (proj1 Hall).
  - apply IH; [lia |]. apply andb_true_iff in Hall. exact (proj2 Hall).
Qed.

Lemma all_close_same_length (stored written : list float64) :
  List.length stored = List.length written ->
  all_close stored written = Ok true ->
  Forall2 (fun a b => close a b = true) stored written.
Proof.
  intros Hlen. unfold all_close, broadcast2.
  rewrite Hlen, Nat.eqb_refl. intros E. injection E as E'.
  apply forallb_zip_with; assumption.
Qed.

(** Arrays of different lengths, neither of them of one element, cannot be
    compared. *)
Lemma all_close_mismatch (stored written : list float64) :
  List.length stored <> List.length written ->
  List.length stored <> 1 -> List.length written <> 1 ->
  all_close stored written = Raise ValueError.
Proof.
  intros Hne Hs Hw. unfold all_close, broadcast2.
  destruct (Nat.eqb_spec (List.length stored) (List.length written)) as [E | _];
    [contradiction |].
  destruct stored as [| a [| a' stored]]; destruct written as [| b [| b' written]];
    simpl in *; try reflexivity; try contradiction; exfalso; auto.
Qed.

(** When [validate_curve] finds curves of one length in agreement, every
    stored sensor and temperature value is close to the one written and the
    identification and format are the same. *)
Lemma curves_agree_sound (stored curve : CalibrationCurve) :
  List.length (sensor stored) = List.length (sensor curve) ->
  List.length (temperature stored) = List.length (temperature curve) ->
  curves_agree stored curve = Ok true ->
  Forall2 (fun a b => close a b = true) (sensor stored) (sensor curve)
  /\ Forall2 (fun a b => close a b = true) (temperature stored) (temperature curve)
  /\ identification stored = identification curve
  /\ format stored = format curve.
Proof.
  intros Hs Ht. unfold curves_agree.
  destruct (all_close (sensor stored) (sensor curve)) as [[|] | e] eqn:E1;
    try discriminate.
  destruct (all_close (temperature stored) (temperature curve)) as [[|] | e] eqn:E2;
    try discriminate.
  intros E. injection E as E'.
  apply andb_true_iff in E'. destruct E' as [Ei Ef].
  apply String.eqb_eq in Ei. apply String.eqb_eq in Ef.
  repeat split; auto using all_close_same_length.
Qed.

(** With lengths that differ and are not one, the comparison raises
    [ValueError], which [validate_curve] turns into [False]. *)
Lemma curves_agree_mismatch (stored curve : CalibrationCurve) :
  List.length (sensor stored) <> List.length (sensor curve) ->
  List.length (sensor stored) <> 1 -> List.length (sensor curve) <> 1 ->
  curves_agree stored curve = Raise ValueError.
Proof.
  intros H1 H2 H3. unfold curves_agree.
  rewrite (all_close_mismatch _ _ H1 H2 H3). reflexivity.
Qed.

(** The curve of one point is what [CalibrationCurve] builds from its data. *)
Lemma one_point_curve_constructed :
  new_CalibrationCurve [Fin 100] [Fin 4] "x" "0" = Ok Examples.one_point_curve.
Proof. reflexivity. Qed.

(** C10, where it fails: the instrument holds a curve of no points, the
    curve written has one point, and [validate_curve] returns [True]: NumPy
    stretches the array of one element instead of raising [ValueError]. *)
Theorem validate_curve_accepts_dropped_point {FT : FloatText} :
  validate_curve (SIM921 Examples.direct) 1 Examples.one_point_curve
                 Examples.point_dropped
  = (Ok true,
     {| written := [String "C" (String "I" (String "N" (String "I" (String "?"
                      (String " " (String "1" (String "010" EmptyString)))))));
                    String "C" (String "I" (String "N" (String "I" (String "?"
                      (String " " (String "1" (String "010" EmptyString)))))))];
        incoming := [];
        connected := None |}).
Proof. reflexivity. Qed.

(** On the same link [write_curve] ends without [SIMError], although the
    point it wrote was not stored. *)
Lemma write_curve_accepts_dropped_point {FT : FloatText} :
  fst (write_curve (SIM921 Examples.direct) 1 Examples.one_point_curve
                   Examples.point_dropped) = Ok tt.
Proof. reflexivity. Qed.

End SimFacts.

(** * Properties of the streams *)

Module StreamFacts.

(** The samples of a one-dimensional stream. *)
Definition samples {CORE : Core} (s : result RoachStream.t) : result (list complex) :=
  match s with
  | Ok r => match RoachStream.s21_raw r with
            | Arr1 l => Ok l
            | _ => Raise ValueError
            end
  | Raise e => Raise e
  end.

Definition epochs3 (start stop : Z) : result (list complex) :=
  samples (RoachStream.epochs (CALC := Examples.calculate) Examples.three_seconds
                              (Float.of_Z start) (Float.of_Z stop)).

(** C6, where it fails: [epochs(0, 1)] on samples taken at 0 s, 1 s and 2 s
    keeps the sample at 1 s, whose time is not before the stop, and that
    sample is again the first of [epochs(1, 2)], so the two slices together
    hold it twice. *)
Theorem epochs_keeps_the_stop_sample :
  epochs3 0 1 = Ok [Examples.z0; Examples.z1]
  /\ epochs3 1 2 = Ok [Examples.z1; Examples.z2]
  /\ epochs3 0 2 = Ok [Examples.z0; Examples.z1; Examples.z2].
Proof. repeat split. Qed.

(** A start after the last sample selects nothing, and [epochs] raises
    [IndexError] rather than returning an empty stream. *)
Lemma epochs_after_the_end : epochs3 3 4 = Raise IndexError.
Proof. reflexivity. Qed.

(** *** What [epochs] keeps *)

Section Slices.

Variable A : Type.
Variables start stop : float64.

(** A sample is kept when its time is not before [start] and not after
    [stop]. *)
Definition kept (time : float64) : bool := np_le start time && np_le time stop.

Definition between (times : list float64) (l : list A) : list A :=
  map snd (filter (fun p => kept (fst p)) (combine times l)).

Lemma searchsorted_left_cons (t : float64) (ts : list float64) (v : float64) :
  searchsorted_left (t :: ts) v
  = if np_lt t v then S (searchsorted_left ts v) else searchsorted_left ts v.
Proof. unfold searchsorted_left. simpl. destruct (np_lt t v); reflexivity. Qed.

Lemma searchsorted_right_cons (t : float64) (ts : list float64) (v : float64) :
  searchsorted_right (t :: ts) v
  = if np_le t v then S (searchsorted_right ts v) else searchsorted_right ts v.
Proof.
  unfold searchsorted_right. cbn [filter]. destruct (np_le t v); reflexivity.
Qed.

Lemma between_cons (t : float64) (ts : list float64) (x : A) (xs : list A) :
  between (t :: ts) (x :: xs)
  = if kept t then x :: between ts xs else between ts xs.
Proof.
  unfold between. cbn [combine filter fst]. destruct (kept t); reflexivity.
Qed.

Lemma slice_to_0 (i : nat) (l : list A) : slice i 0 l = [].
Proof. reflexivity. Qed.

Lemma slice_S_S (i j : nat) (x : A) (xs : list A) :
  slice (S i) (S j) (x :: xs) = slice i j xs.
Proof. reflexivity. Qed.

Lemma slice_0_S (j : nat) (x : A) (xs : list A) :
  slice 0 (S j) (x :: xs) = x :: slice 0 j xs.
Proof. unfold slice. simpl. rewrite Nat.sub_0_r. reflexivity. Qed.

Lemma none_before (times : list float64) (t : float64) :
  np_lt t start = false ->
  Forall (fun u => np_le t u = true) times ->
  searchsorted_left times start = 0.
Proof.
  intros Ht Hall.
  induction Hall as [| u us Hu _ IH]; [reflexivity |].
  rewrite searchsorted_left_cons.
  assert (Hus : np_lt u start = false).
  { apply negb_true_iff. fold (np_le start u).
    apply np_le_trans with t; [| exact Hu].
    unfold np_le. rewrite Ht. reflexivity. }
  rewrite Hus. exact IH.
Qed.

Lemma none_through (times : list float64) (t : float64) :
  np_le t stop = false ->
  Forall (fun u => np_le t u = true) times ->
  searchsorted_right times stop = 0.
Proof.
  intros Ht Hall.
  induction Hall as [| u us Hu _ IH]; [reflexivity |].
  rewrite searchsorted_right_cons.
  assert (Hus : np_le u stop = false).
  { apply not_true_is_false. intros Hle.
    rewrite (np_le_trans _ _ _ Hu Hle) in Ht. discriminate Ht. }
  rewrite Hus. exact IH.
Qed.

Lemma between_none (times : list float64) (l : list A) :
  searchsorted_right times stop = 0 -> between times l = [].
Proof.
  revert l. induction times as [| t ts IH]; intros l Hz; [reflexivity |].
  destruct l as [| x xs]; [reflexivity |].
  rewrite searchsorted_right_cons in Hz. rewrite between_cons. unfold kept.
  destruct (np_le t stop); [discriminate Hz |].
  rewrite andb_false_r. apply IH. exact Hz.
Qed.

(** On ascending times, the slice from [searchsorted(..., side='left')] of
    [start] to [searchsorted(..., side='right')] of [stop] holds the
    samples whose time is from [start] through [stop], in their order. *)
Lemma slice_between (times : list float64) (l : list A) :
  StronglySorted (fun a b => np_le a b = true) times ->
  List.length l = List.length times ->
  slice (searchsorted_left times start) (searchsorted_right times stop) l
  = between times l.
Proof.
  intros Hsorted. revert l.
  induction Hsorted as [| t ts Hts IH Hall]; intros l Hlen.
  - destruct l; [reflexivity | discriminate Hlen].
  - destruct l as [| x xs]; [discriminate Hlen |].
    injection Hlen as Hlen. specialize (IH xs Hlen).
    rewrite searchsorted_left_cons, searchsorted_right_cons, between_cons.
    unfold kept. unfold np_le at 2.
    destruct (np_lt t start) eqn:Hlt; cbn [negb andb].
    + destruct (np_le t stop) eqn:Hle.
      * rewrite slice_S_S. exact IH.
      * rewrite (@none_through ts t Hle Hall), slice_to_0.
        rewrite (between_none ts xs (@none_through ts t Hle Hall)). reflexivity.
    + rewrite (@none_before ts t Hlt Hall) in *.
      destruct (np_le t stop) eqn:Hle.
      * rewrite slice_0_S, IH. reflexivity.
      * rewrite (@none_through ts t Hle Hall), slice_to_0.
        rewrite (between_none ts xs (@none_through ts t Hle Hall)). reflexivity.
Qed.

End Slices.

(** The sample times of a stream with a finite epoch and a positive sample
    rate ascend. *)
Lemma sorted_map_seq {B} (R : B -> B -> Prop) (f : nat -> B) (a n : nat) :
  (forall i k, i <= k -> R (f i) (f k)) ->
  StronglySorted R (map f (seq a n)).
Proof.
  intros Hmono. revert a. induction n as [| n IH]; intros a; simpl.
  - constructor.
  - constructor; [apply IH |].
    apply Forall_forall. intros y Hy. apply in_map_iff in Hy.
    destruct Hy as [i [<- Hi]]. apply in_seq in Hi. apply Hmono. lia.
Qed.

Definition time_of (epoch rate : float64) (i : nat) : float64 :=
  Float.add epoch (Float.div (Float.of_Z (Z.of_nat i)) rate).

Lemma time_of_ascends (e q : Q) (i k : nat) :
  (0 < q)%Q -> i <= k -> np_le (time_of (Fin e) (Fin q) i) (time_of (Fin e) (Fin q) k) = true.
Proof.
  intros Hq Hik. unfold time_of, Float.of_Z, Float.div.
  assert (Hz : Qzerob q = false).
  { apply not_true_is_false. intros E. apply Qeq_bool_iff in E.
    rewrite E in Hq. discriminate Hq. }
  rewrite Hz. unfold Float.add, np_le, np_lt, isnan, Float.ltb, Qltb.
  rewrite negb_involutive. apply Qle_bool_iff.
  apply Qplus_le_r. apply Qmult_le_compat_r.
  - rewrite <- Zle_Qle. lia.
  - apply Qlt_le_weak, Qinv_lt_0_compat. exact Hq.
Qed.

Lemma sample_times_ascend (e q : Q) (n : nat) :
  (0 < q)%Q ->
  StronglySorted (fun a b => np_le a b = true)
    (map (Float.add (Fin e))
         (map (fun i => Float.div i (Fin q)) (arange n))).
Proof.
  intros Hq. unfold arange. rewrite !map_map.
  apply (sorted_map_seq (fun a b => np_le a b = true)
                        (time_of (Fin e) (Fin q))).
  intros i k Hik. apply time_of_ascends; assumption.
Qed.

(** [epochs(start, stop)] on a stream of one channel whose sample times
    ascend: when some sample is not before [start], the new stream holds
    the samples taken from [start] through [stop], the time [stop]
    included, with the same state, and its epoch is the time of the first
    sample that is not before [start]. *)
Lemma epochs_from_start_through_stop {CORE : Core} {CALC : Calculate}
      (self : RoachStream.t) (start stop : float64)
      (l : list complex) (relative : list float64) :
  RoachStream.s21_raw self = Arr1 l ->
  RoachStream.sample_time self = Ok relative ->
  let times := map (Float.add (RoachStream.epoch self)) relative in
  StronglySorted (fun a b => np_le a b = true) times ->
  searchsorted_left times start < List.length l ->
  exists (r : RoachStream.t) (first : float64),
    RoachStream.epochs self start stop = Ok r
    /\ RoachStream.s21_raw r = Arr1 (between start stop times l)
    /\ RoachStream.state r = RoachStream.state self
    /\ nth_error relative (searchsorted_left times start) = Some first
    /\ RoachStream.epoch r = Float.add (RoachStream.epoch self) first.
Proof.
  intros Hraw Htime times Hsorted Hstart.
  assert (Hlen : List.length l = List.length times).
  { unfold times. rewrite length_map.
    unfold RoachStream.sample_time in Htime. rewrite Hraw in Htime.
    simpl in Htime. injection Htime as <-.
    rewrite length_map. unfold arange. rewrite length_map, length_seq.
    reflexivity. }
  assert (Hin : searchsorted_left times start < List.length relative).
  { unfold times in Hlen. rewrite length_map in Hlen. lia. }
  destruct (nth_error relative (searchsorted_left times start)) as [first |] eqn:E;
    [| apply nth_error_None in E; lia].
  unfold RoachStream.epochs. rewrite Htime. simpl. fold times.
  unfold getitem. rewrite E. simpl. rewrite Hraw. simpl.
  eexists. exists first. split; [reflexivity |]. simpl.
  rewrite slice_between by assumption.
  repeat split.
Qed.

(** The same for every stream of one channel with a finite epoch and a
    positive sample rate. *)
Lemma epochs_of_a_steady_stream {CORE : Core} {CALC : Calculate}
      (self : RoachStream.t) (start stop : float64)
      (l : list complex) (e q : Q) :
  RoachStream.s21_raw self = Arr1 l ->
  RoachStream.epoch self = Fin e ->
  RoachStream.stream_sample_rate self = Fin q ->
  (0 < q)%Q ->
  let times := map (time_of (Fin e) (Fin q)) (seq 0 (List.length l)) in
  searchsorted_left times start < List.length l ->
  exists r : RoachStream.t,
    RoachStream.epochs self start stop = Ok r
    /\ RoachStream.s21_raw r = Arr1 (between start stop times l)
    /\ RoachStream.state r = RoachStream.state self
    /\ RoachStream.epoch r
       = time_of (Fin e) (Fin q) (searchsorted_left times start).
Proof.
  intros Hraw He Hrate Hq times Hstart.
  assert (Htime : RoachStream.sample_time self
                  = Ok (map (fun i => Float.div i (Fin q))
                            (arange (List.length l)))).
  { unfold RoachStream.sample_time. rewrite Hraw, Hrate. reflexivity. }
  assert (Htimes : map (Float.add (RoachStream.epoch self))
                       (map (fun i => Float.div i (Fin q))
                            (arange (List.length l)))
                   = times).
  { rewrite He. unfold times, arange. rewrite !map_map. reflexivity. }
  destruct (@epochs_from_start_through_stop _ _ self start stop l _ Hraw Htime)
    as [r [first [Hrun [Hs [Hst [Hfirst Hepoch]]]]]].
  - rewrite He. apply sample_times_ascend. exact Hq.
  - rewrite Htimes. exact Hstart.
  - rewrite Htimes in *. exists r.
    split; [exact Hrun | split; [exact Hs | split; [exact Hst |]]].
    rewrite Hepoch, He. unfold time_of. f_equal.
    unfold arange in Hfirst. rewrite map_map in Hfirst.
    rewrite nth_error_map in Hfirst.
    rewrite nth_error_seq in Hfirst.
    destruct (Nat.ltb_spec (searchsorted_left times start) (List.length l))
      as [_ | Hge]; [| lia].
    simpl in Hfirst. injection Hfirst as <-. reflexivity.
Qed.

(** *** The standard error of the mean *)

Section MeanError.

Context {CORE : Core} {CALC : Calculate} {NP : NumPy}.

(** The number of samples of a channel that are not NaN. *)
Definition good (samples : list complex) : nat :=
  List.length (filter (fun z => negb (cisnan z)) samples).

Lemma good_zero (samples : list complex) :
  Forall (fun z => cisnan z = true) samples -> good samples = 0.
Proof.
  unfold good. induction 1 as [| z l Hz _ IH]; simpl; [reflexivity |].
  rewrite Hz. simpl. exact IH.
Qed.

Lemma good_positive (samples : list complex) :
  Exists (fun z => cisnan z = false) samples -> 0 < good samples.
Proof.
  unfold good. induction 1 as [z l Hz | z l _ IH]; simpl.
  - rewrite Hz. simpl. lia.
  - destruct (negb (cisnan z)); simpl; lia.
Qed.

Lemma is_zero_of_nat (n : nat) :
  RoachStream.is_zero (Float.of_Z (Z.of_nat n)) = Nat.eqb n 0.
Proof.
  destruct n as [| n]; [reflexivity |].
  unfold RoachStream.is_zero, Float.of_Z, Qzerob.
  apply not_true_is_false. intros E. apply Qeq_bool_iff in E.
  unfold Qeq, inject_Z in E. simpl in E. lia.
Qed.

Lemma mul_nan_r (x : float64) : Float.mul x NaN = NaN.
Proof. destruct x; reflexivity. Qed.

(** Dividing by a NaN gives NaN in both parts, whatever is divided. *)
Lemma cdiv_nan (z : complex) : cdiv z (of_real NaN) = Complex NaN NaN.
Proof.
  unfold cdiv, of_real. simpl. rewrite !mul_nan_r. reflexivity.
Qed.

(** The count that the standard error of a channel is computed with: the
    number of good samples, or NaN when there is none. *)
Definition divisor_count (samples : list complex) : float64 :=
  if Nat.eqb (good samples) 0 then NaN
  else Float.of_Z (Z.of_nat (good samples)).

Definition channel_error (samples : list complex) : complex :=
  RoachStream.standard_error samples (divisor_count samples).

Lemma zip_with_map_r {A B C} (f : A -> B -> C) (g : A -> B) (l : list A) :
  zip_with f l (map g l) = map (fun a => f a (g a)) l.
Proof. induction l as [| a l IH]; simpl; [| rewrite IH]; reflexivity. Qed.

Lemma s21_raw_mean_error_by_channel (self : RoachStream.t) :
  RoachStream.s21_raw_mean_error self
  = match RoachStream.s21_raw self with
    | Arr0 _ => Raise ValueError
    | Arr1 samples => Ok (Arr0 (channel_error samples))
    | Arr2 rows => Ok (Arr1 (map channel_error rows))
    end.
Proof.
  unfold RoachStream.s21_raw_mean_error, channel_error, divisor_count.
  destruct (RoachStream.s21_raw self) as [z | samples | rows].
  - reflexivity.
  - unfold RoachStream.count_good. fold (good samples).
    rewrite is_zero_of_nat. reflexivity.
  - rewrite map_map, zip_with_map_r. do 2 f_equal.
    apply map_ext. intros samples.
    unfold RoachStream.count_good. fold (good samples).
    rewrite is_zero_of_nat. reflexivity.
Qed.

(** What the claim says of one channel and its error. *)
Definition channel_spec (samples : list complex) (err : complex) : Prop :=
  (Forall (fun z => cisnan z = true) samples ->
   divisor_count samples = NaN /\ err = Complex NaN NaN)
  /\ (Exists (fun z => cisnan z = false) samples ->
      err = cdiv (cadd (of_real (nanstd (map re samples)))
                       (cmul j (of_real (nanstd (map im samples)))))
                 (of_real (np_sqrt (Float.of_Z (Z.of_nat (good samples))))))
  /\ RoachStream.is_zero (np_sqrt (divisor_count samples)) = false.

Hypothesis sqrt_nan : np_sqrt NaN = NaN.
Hypothesis sqrt_positive :
  forall q : Q, (0 < q)%Q -> RoachStream.is_zero (np_sqrt (Fin q)) = false.

Lemma channel_error_spec (samples : list complex) :
  channel_spec samples (channel_error samples).
Proof.
  unfold channel_spec, channel_error, divisor_count. split; [| split].
  - intros Hall. rewrite (good_zero Hall). simpl. split; [reflexivity |].
    unfold RoachStream.standard_error. rewrite sqrt_nan. apply cdiv_nan.
  - intros Hex. apply good_positive in Hex.
    destruct (Nat.eqb_spec (good samples) 0) as [E | _]; [lia | reflexivity].
  - destruct (Nat.eqb_spec (good samples) 0) as [E | Hne].
    + rewrite sqrt_nan. reflexivity.
    + apply sqrt_positive. unfold Float.of_Z.
      unfold Qlt, inject_Z. simpl. lia.
Qed.

(** C8: [s21_raw_mean_error] never divides by zero.  For a channel whose
    samples are all NaN the count of good samples is NaN and so is the
    error; for a channel with a good sample the error is
    [(nanstd(real) + 1j * nanstd(imag)) / sqrt(n)], where [n] counts the
    good samples; and the divisor is not zero in either case. *)
Theorem s21_raw_mean_error_never_divides_by_zero (self : RoachStream.t) :
  match RoachStream.s21_raw self with
  | Arr0 _ => RoachStream.s21_raw_mean_error self = Raise ValueError
  | Arr1 samples =>
      exists err, RoachStream.s21_raw_mean_error self = Ok (Arr0 err)
                  /\ channel_spec samples err
  | Arr2 rows =>
      exists errs, RoachStream.s21_raw_mean_error self = Ok (Arr1 errs)
                   /\ Forall2 channel_spec rows errs
  end.
Proof.
  rewrite s21_raw_mean_error_by_channel.
  destruct (RoachStream.s21_raw self) as [z | samples | rows].
  - reflexivity.
  - exists (channel_error samples). split; [reflexivity | apply channel_error_spec].
  - exists (map channel_error rows). split; [reflexivity |].
    induction rows as [| r rows IH]; simpl; constructor.
    + apply channel_error_spec.
    + exact IH.
Qed.

End MeanError.

Lemma sqrt_up_nan : Examples.sqrt_up NaN = NaN.
Proof. reflexivity. Qed.

Lemma sqrt_up_positive (q : Q) :
  (0 < q)%Q -> RoachStream.is_zero (Examples.sqrt_up (Fin q)) = false.
Proof.
  intros Hq. unfold Examples.sqrt_up, Qltb.
  assert (Hle : Qle_bool 0 q = true).
  { apply Qle_bool_iff. apply Qlt_le_weak. exact Hq. }
  rewrite Hle. simpl.
  unfold Qzerob. apply not_true_is_false. intros E. apply Qeq_bool_iff in E.
  unfold Qeq in E. simpl in E. rewrite Z.mul_1_r in E.
  assert (Hpos : (0 < Z.sqrt_up (Qnum q * Z.pos (Qden q)))%Z).
  { apply Z.sqrt_up_pos. unfold Qlt in Hq. simpl in Hq. lia. }
  lia.
Qed.

(** C8 on two channels, the first of which holds NaN only. *)
Lemma s21_raw_mean_error_witness :
  exists errs,
    RoachStream.s21_raw_mean_error (NP := Examples.numpy) Examples.two_channels
    = Ok (Arr1 errs)
    /\ Forall2 (channel_spec (NP := Examples.numpy))
               [[Examples.znan; Examples.znan; Examples.znan];
                [Examples.z0; Examples.znan; Examples.z2]]
               errs.
Proof.
  exact (s21_raw_mean_error_never_divides_by_zero
           (NP := Examples.numpy)
           sqrt_up_nan sqrt_up_positive Examples.two_channels).
Defined.

End StreamFacts.

(** * Properties of the sweeps *)

Module SweepFacts.

(** *** Reordering several arrays by one array of indices *)


(** [picked items order xs]: [xs] lists the items that [order] points at. *)
Definition picked {X} (items : list X) (order : list nat) (xs : list X) : Prop :=
  Forall2 (fun k x => nth_error items k = Some x) order xs.












Section SingleSweeps.

Context {CORE : Core} {CALC : Calculate} {NP : NumPy} {LM : LmfitResonator}.














End SingleSweeps.

Section SweepArrays.

Context {CORE : Core} {CALC : Calculate} {NP : NumPy}.

(** The frequencies and the rows of a StreamArray, one per channel. *)
Definition frequencies_of (sa : RoachStream.t) : list float64 :=
  match RoachStream.frequency sa with
  | Ok (Arr1 fs) => fs
  | _ => []
  end.

Definition rows_of_array (sa : RoachStream.t) : list (list complex) :=
  match RoachStream.s21_raw sa with
  | Arr2 rows => rows
  | _ => []
  end.


(** A channel: its frequency and its samples. *)
Definition channels_of (sa : RoachStream.t) : list (float64 * list complex) :=
  combine (frequencies_of sa) (rows_of_array sa).

Definition channels (self : SweepArray.t) : list (float64 * list complex) :=
  List.concat (map channels_of (SweepArray.stream_arrays self)).













End SweepArrays.


(** *** An argsort that keeps the promise *)

Section InsertionSort.

Variable key : nat -> float64.







End InsertionSort.



(** The order found for the three streams, and their frequencies in it. *)
Lemma sweep_of_three_frequency :
  SingleSweep.ascending_order (CALC := Examples.calculate) (NP := Examples.numpy)
                              Examples.sweep_of_three
  = Ok [1; 2; 0]
  /\ SingleSweep.frequency (CALC := Examples.calculate) (NP := Examples.numpy)
                           Examples.sweep_of_three
     = Ok [Float.of_Z 100; Float.of_Z 101; Float.of_Z 102].
Proof. split; reflexivity. Qed.

End SweepFacts.

(** * Properties of the resonator fit *)

Module ResonatorFacts.

Section Fit.

Context {CORE : Core} {CALC : Calculate} {NP : NumPy} {LM : LmfitResonator}.

(** The resonator that [fit_resonator(model, params)] builds from the
    ordered arrays of the sweep and fits. *)
Definition fitted (self : SingleSweep.t) (model : Model) (params : option Params)
  : result Resonator :=
  (f <- SingleSweep.frequency self ;;
   s21 <- SingleSweep.s21_point self ;;
   errors <- SingleSweep.s21_point_error self ;;
   Ok (fit (new_resonator model f s21 errors) params))%result.

(** The parent after [self._parent._delete_memoized_property_caches()]. *)
Definition notified {P} (parent_delete : option (P -> P)) (p : P) : P :=
  match parent_delete with
  | Some delete => delete p
  | None => p
  end.

Lemma fit_resonator_run {P} (parent_delete : option (P -> P))
      (model : Model) (params : option Params) (self : SingleSweep.t) (p : P)
      (r : Resonator) :
  fitted self model params = Ok r ->
  SingleSweep.fit_resonator parent_delete model params (self, p)
  = (Ok r, (SingleSweep.set_resonator (Some r) self, notified parent_delete p)).
Proof.
  unfold fitted, SingleSweep.fit_resonator, rbind. intros Hfit.
  unfold bind, SingleSweep.delete_memoized_property_caches, get, lift,
    SingleSweep.assign_resonator, ret. cbn [fst snd].
  change (SingleSweep.frequency (SingleSweep.set_resonator None self))
    with (SingleSweep.frequency self).
  change (SingleSweep.s21_point (SingleSweep.set_resonator None self))
    with (SingleSweep.s21_point self).
  change (SingleSweep.s21_point_error (SingleSweep.set_resonator None self))
    with (SingleSweep.s21_point_error self).
  destruct (SingleSweep.frequency self) as [f |]; [| discriminate].
  destruct (SingleSweep.s21_point self) as [s21 |]; [| discriminate].
  destruct (SingleSweep.s21_point_error self) as [errors |]; [| discriminate].
  injection Hfit as <-. reflexivity.
Qed.

Lemma resonator_cached {P} (parent_delete : option (P -> P))
      (self : SingleSweep.t) (p : P) (r : Resonator) :
  SingleSweep._resonator self = Some r ->
  SingleSweep.resonator parent_delete (self, p) = (Ok r, (self, p)).
Proof.
  intros Hc. unfold SingleSweep.resonator, bind, get. cbn [fst]. rewrite Hc.
  reflexivity.
Qed.

Lemma resonator_first_access {P} (parent_delete : option (P -> P))
      (self : SingleSweep.t) (p : P) (r : Resonator) :
  SingleSweep._resonator self = None ->
  fitted self LinearResonatorWithCable None = Ok r ->
  SingleSweep.resonator parent_delete (self, p)
  = (Ok r, (SingleSweep.set_resonator (Some r) self, notified parent_delete p)).
Proof.
  intros Hc Hfit. unfold SingleSweep.resonator, bind at 1, get. cbn [fst].
  rewrite Hc. unfold bind at 1.
  rewrite fit_resonator_run with (r := r) by exact Hfit.
  reflexivity.
Qed.

Lemma fitted_arrays (self : SingleSweep.t) (model : Model)
      (params : option Params) (f : list float64) (s21 errors : list complex) :
  SingleSweep.frequency self = Ok f ->
  SingleSweep.s21_point self = Ok s21 ->
  SingleSweep.s21_point_error self = Ok errors ->
  fitted self model params = Ok (fit (new_resonator model f s21 errors) params).
Proof.
  intros Hf Hs He. unfold fitted. rewrite Hf, Hs, He. reflexivity.
Qed.

(** The hook through which the sweep of a SingleSweepStream reaches the
    attributes of its parent. *)
Definition hook_of (s : SingleSweepStream.t)
  : option (SingleSweepStream.Dict -> SingleSweepStream.Dict) :=
  if SingleSweepStream.sweep_parent s
  then Some (SingleSweepStream.dict_delete SingleSweepStream.memoized)
  else None.

Lemma sweep_stream_resonator (s : SingleSweepStream.t) :
  SingleSweepStream.resonator s
  = let '(r, (sw, d)) :=
      SingleSweep.resonator (hook_of s)
                            (SingleSweepStream.sweep s, SingleSweepStream.dict s) in
    (r, SingleSweepStream.with_dict d (SingleSweepStream.with_sweep sw s)).
Proof. reflexivity. Qed.

(** C4: [fit_resonator(model, params)] fits the model to the arrays
    [frequency], [s21_point] and [s21_point_error] of the sweep, which are in
    ascending frequency order, and the property [resonator] then returns that
    fit without fitting again; on first access [resonator] fits the default
    model once; and the resonator of a SingleSweepStream is the resonator of
    its sweep. *)
Theorem resonator_is_the_last_fit :
  (forall (P : Type) (parent_delete : option (P -> P)) (self : SingleSweep.t)
          (p : P) (model : Model) (params : option Params)
          (f : list float64) (s21 errors : list complex),
      SingleSweep.frequency self = Ok f ->
      SingleSweep.s21_point self = Ok s21 ->
      SingleSweep.s21_point_error self = Ok errors ->
      let r := fit (new_resonator model f s21 errors) params in
      let after := (SingleSweep.set_resonator (Some r) self,
                    notified parent_delete p) in
      SingleSweep.fit_resonator parent_delete model params (self, p)
      = (Ok r, after)
      /\ SingleSweep.resonator parent_delete after = (Ok r, after))
  /\ (forall (P : Type) (parent_delete : option (P -> P)) (self : SingleSweep.t)
             (p : P) (f : list float64) (s21 errors : list complex),
         SingleSweep._resonator self = None ->
         SingleSweep.frequency self = Ok f ->
         SingleSweep.s21_point self = Ok s21 ->
         SingleSweep.s21_point_error self = Ok errors ->
         let r := fit (new_resonator LinearResonatorWithCable f s21 errors) None in
         let after := (SingleSweep.set_resonator (Some r) self,
                       notified parent_delete p) in
         SingleSweep.resonator parent_delete (self, p) = (Ok r, after)
         /\ SingleSweep.resonator parent_delete after = (Ok r, after))
  /\ (forall s : SingleSweepStream.t,
         fst (SingleSweepStream.resonator s)
         = fst (SingleSweep.resonator
                  (hook_of s)
                  (SingleSweepStream.sweep s, SingleSweepStream.dict s))
         /\ SingleSweepStream.sweep (snd (SingleSweepStream.resonator s))
            = fst (snd (SingleSweep.resonator
                          (hook_of s)
                          (SingleSweepStream.sweep s, SingleSweepStream.dict s)))).
Proof.
  split; [| split].
  - intros P parent_delete self p model params f s21 errors Hf Hs He r after.
    assert (Hfit := fitted_arrays self model params Hf Hs He).
    split.
    + apply fit_resonator_run. exact Hfit.
    + apply resonator_cached. reflexivity.
  - intros P parent_delete self p f s21 errors Hc Hf Hs He r after.
    assert (Hfit := fitted_arrays self LinearResonatorWithCable None Hf Hs He).
    split.
    + apply resonator_first_access; assumption.
    + apply resonator_cached. reflexivity.
  - intros s. rewrite sweep_stream_resonator.
    destruct (SingleSweep.resonator _ _) as [r [sw d]]. split; reflexivity.
Qed.

End Fit.

(** C4 on the three streams at 102 Hz, 100 Hz and 101 Hz: the first access to
    [resonator] fits the default model to the arrays in ascending order. *)
Lemma resonator_witness :
  let r := fit (LmfitResonator := Examples.lmfit)
               (new_resonator (LmfitResonator := Examples.lmfit)
                  0%Z
                  [Float.of_Z 100; Float.of_Z 101; Float.of_Z 102]
                  [Complex (Fin (2 # 2)) (Fin (0 # 2)); Examples.z1;
                   Complex (Fin (4 # 2)) (Fin (4 # 2))]
                  [Complex (Fin (0 # 262144)) (Fin (0 # 262144));
                   Complex (Fin 0) (Fin 0);
                   Complex (Fin (0 # 262144)) (Fin (0 # 262144))])
               None in
  let after := (SingleSweep.set_resonator (Some r) Examples.sweep_of_three, tt) in
  SingleSweep.resonator (CALC := Examples.calculate) (NP := Examples.numpy) None
                        (Examples.sweep_of_three, tt)
  = (Ok r, after)
  /\ SingleSweep.resonator (CALC := Examples.calculate) (NP := Examples.numpy) None
                           after
     = (Ok r, after).
Proof.
  destruct (resonator_is_the_last_fit
              (CALC := Examples.calculate) (NP := Examples.numpy)
              (LM := Examples.lmfit)) as [_ [Hfirst _]].
  exact (Hfirst unit None Examples.sweep_of_three tt _ _ _
                eq_refl eq_refl eq_refl eq_refl).
Defined.

End ResonatorFacts.

(** * Properties of the analysis pipeline *)

Module PipelineFacts.
Import SingleSweepStream.

Section Pipeline.

Context {CORE : Core} {CALC : Calculate} {NP : NumPy} {LM : LmfitResonator}
        {DS : Despike} {ML : Mlab} {BN : Binning} {IQ : IQNoise}.

(** *** Attributes *)

Lemma dict_set_same (a : attr) (v : attr_type a) (d : Dict) :
  dict_set a v d a = Some v.
Proof.
  unfold dict_set. destruct (attr_eq_dec a a) as [e | n]; [| contradiction].
  rewrite (Eqdep_dec.UIP_dec attr_eq_dec e eq_refl). reflexivity.
Qed.

Lemma dict_set_other (a b : attr) (v : attr_type a) (d : Dict) :
  a <> b -> dict_set a v d b = d b.
Proof.
  intros Hne. unfold dict_set.
  destruct (attr_eq_dec a b) as [e | n]; [contradiction | reflexivity].
Qed.

Lemma getattr_present (a : attr) (v : attr_type a) (s : t) :
  dict s a = Some v -> getattr a s = (Ok v, s).
Proof. intros E. unfold getattr. rewrite E. reflexivity. Qed.

Lemma deglitched_present (a : attr) (v : attr_type a) (s : t) :
  dict s a = Some v -> deglitched a s = (Ok v, s).
Proof.
  intros E. unfold deglitched, bind, hasattr, ret, getattr.
  rewrite E. cbv beta iota. rewrite E. reflexivity.
Qed.

Lemma x_raw_present (v : list float64) (s : t) :
  dict s _x_raw = Some v -> x_raw s = (Ok v, s).
Proof.
  intros E. unfold x_raw, bind, hasattr, ret, getattr.
  rewrite E. cbv beta iota. rewrite E. reflexivity.
Qed.

Lemma q_raw_present (v : list float64) (s : t) :
  dict s _q_raw = Some v -> q_raw s = (Ok v, s).
Proof.
  intros E. unfold q_raw, bind, hasattr, ret, getattr.
  rewrite E. cbv beta iota. rewrite E. reflexivity.
Qed.

Lemma stream_s21_normalized_present (v : list complex) (s : t) :
  dict s _stream_s21_normalized = Some v -> stream_s21_normalized s = (Ok v, s).
Proof.
  intros E. unfold stream_s21_normalized, bind, hasattr, ret, getattr.
  rewrite E. cbv beta iota. rewrite E. reflexivity.
Qed.

(** [s'] is [s] with other attributes: the sweep, the stream and the rest of
    the object are the same. *)
Definition same_object (s s' : t) : Prop :=
  sweep s' = sweep s /\ stream s' = stream s /\ number s' = number s
  /\ state s' = state s /\ description s' = description s
  /\ sweep_parent s' = sweep_parent s.

Lemma same_object_refl (s : t) : same_object s s.
Proof. repeat split. Qed.

Lemma same_object_with_dict (d : Dict) (s s' : t) :
  same_object s s' -> same_object s (with_dict d s').
Proof. intros Hs. exact Hs. Qed.

(** *** The raw time series *)

(** The raw series are ready in [s]: the resonator [r] of the sweep, the
    normalized stream [n] and the series [x] and [q] are all stored. *)
Definition raw_ready (s : t) (n : list complex) (x q : list float64) : Prop :=
  dict s _stream_s21_normalized = Some n
  /\ dict s _x_raw = Some x
  /\ dict s _q_raw = Some q.

(** [stream_s21_normalized] when it is not stored yet. *)
Lemma stream_s21_normalized_computed (s s1 : t) (r : Resonator)
      (f : ndarray float64) :
  dict s _stream_s21_normalized = None ->
  sweep_resonator s = (Ok r, s1) ->
  RoachStream.frequency (stream s1) = Ok f ->
  let n := remove_background r f (RoachStream.s21_raw (stream s1)) in
  stream_s21_normalized s
  = (Ok n, with_dict (dict_set _stream_s21_normalized n (dict s1)) s1).
Proof.
  intros Hmiss Hres Hf n.
  unfold stream_s21_normalized, bind at 1, hasattr. rewrite Hmiss.
  unfold bind at 1. unfold bind at 1. rewrite Hres.
  unfold bind at 1, get. unfold bind at 1, lift. rewrite Hf.
  unfold setattr, getattr. cbn [dict with_dict].
  rewrite dict_set_same. reflexivity.
Qed.

Lemma set_raw_q_and_x_run (s s1 s2 : t) (r : Resonator) (n : list complex) :
  resonator s = (Ok r, s1) ->
  stream_s21_normalized s1 = (Ok n, s2) ->
  set_raw_q_and_x s
  = (Ok tt, with_dict (dict_set _q_raw (snd (invert r n))
                         (dict_set _x_raw (fst (invert r n)) (dict s2))) s2).
Proof.
  intros Hres Hn. unfold set_raw_q_and_x, bind at 1. rewrite Hres.
  unfold bind at 1. rewrite Hn. reflexivity.
Qed.

Lemma stream_s21_normalized_stored (s s' : t) (n : list complex) :
  stream_s21_normalized s = (Ok n, s') -> dict s' _stream_s21_normalized = Some n.
Proof.
  unfold stream_s21_normalized, bind at 1, hasattr.
  unfold bind at 1.
  destruct (match dict s _stream_s21_normalized with
            | Some _ => true | None => false end).
  - unfold ret, getattr.
    destruct (dict s _stream_s21_normalized) as [v |] eqn:E; intros Hrun;
      inversion Hrun; subst. exact E.
  - destruct (bind sweep_resonator _ s) as [[[] | e] s2]; [| discriminate].
    unfold getattr.
    destruct (dict s2 _stream_s21_normalized) as [v |] eqn:E; intros Hrun;
      inversion Hrun; subst. exact E.
Qed.

Lemma x_raw_computed (s s' : t) (x : list float64) :
  dict s _x_raw = None ->
  set_raw_q_and_x s = (Ok tt, s') ->
  dict s' _x_raw = Some x ->
  x_raw s = (Ok x, s').
Proof.
  intros Hmiss Hset Hx. unfold x_raw, bind at 1, hasattr. rewrite Hmiss.
  unfold bind at 1. rewrite Hset. exact (@getattr_present _x_raw x s' Hx).
Qed.

(** Reading [x_raw] in [s] leaves the raw series ready in [s1]. *)
Definition prepares (s s1 : t) (n : list complex) (x q : list float64) : Prop :=
  x_raw s = (Ok x, s1) /\ raw_ready s1 n x q.

Lemma raw_ready_prepares (s : t) (n : list complex) (x q : list float64) :
  raw_ready s n x q -> prepares s s n x q.
Proof.
  intros Hr. split; [| exact Hr].
  apply x_raw_present. exact (proj1 (proj2 Hr)).
Qed.

(** *** The resonator of the sweep, seen from the sweep-stream *)

Lemma with_same (s : t) : with_dict (dict s) (with_sweep (sweep s) s) = s.
Proof. destruct s; reflexivity. Qed.

Lemma sweep_resonator_cached (s : t) (r : Resonator) :
  SingleSweep._resonator (sweep s) = Some r -> sweep_resonator s = (Ok r, s).
Proof.
  intros Hc. unfold sweep_resonator, in_sweep.
  rewrite ResonatorFacts.resonator_cached with (r := r) by exact Hc.
  rewrite with_same. reflexivity.
Qed.

(** The object after the first access to the resonator of its sweep: the
    sweep holds the fit, and the attributes are deleted when the sweep
    knows its parent. *)
Definition refit (s : t) (r : Resonator) : t :=
  with_dict (ResonatorFacts.notified (ResonatorFacts.hook_of s) (dict s))
            (with_sweep (SingleSweep.set_resonator (Some r) (sweep s)) s).

Lemma sweep_resonator_first (s : t) (r : Resonator) :
  SingleSweep._resonator (sweep s) = None ->
  ResonatorFacts.fitted (sweep s) LinearResonatorWithCable None = Ok r ->
  sweep_resonator s = (Ok r, refit s r).
Proof.
  intros Hc Hfit. unfold sweep_resonator, in_sweep.
  fold (ResonatorFacts.hook_of s).
  rewrite ResonatorFacts.resonator_first_access with (r := r) by assumption.
  reflexivity.
Qed.

(** The raw series computed in [s1], where the sweep has its resonator [r]
    and the normalized stream is not stored yet. *)
Definition with_raw (s1 : t) (n : list complex) (x q : list float64) : t :=
  with_dict (dict_set _q_raw q
               (dict_set _x_raw x
                  (dict_set _stream_s21_normalized n (dict s1)))) s1.

Lemma raw_computed (s s1 : t) (r : Resonator) (f : ndarray float64) :
  resonator s = (Ok r, s1) ->
  SingleSweep._resonator (sweep s1) = Some r ->
  dict s1 _stream_s21_normalized = None ->
  RoachStream.frequency (stream s1) = Ok f ->
  let n := remove_background r f (RoachStream.s21_raw (stream s1)) in
  let x := fst (invert r n) in
  let q := snd (invert r n) in
  set_raw_q_and_x s = (Ok tt, with_raw s1 n x q)
  /\ raw_ready (with_raw s1 n x q) n x q.
Proof.
  intros Hres Hc Hmiss Hf n x q. split.
  - rewrite set_raw_q_and_x_run with (r := r) (n := n) (s1 := s1)
      (s2 := with_dict (dict_set _stream_s21_normalized n (dict s1)) s1).
    + reflexivity.
    + exact Hres.
    + apply stream_s21_normalized_computed; auto using sweep_resonator_cached.
  - repeat split.
Qed.

Lemma prepares_from_scratch (s s1 : t) (r : Resonator) (f : ndarray float64) :
  dict s _x_raw = None ->
  resonator s = (Ok r, s1) ->
  SingleSweep._resonator (sweep s1) = Some r ->
  dict s1 _stream_s21_normalized = None ->
  RoachStream.frequency (stream s1) = Ok f ->
  let n := remove_background r f (RoachStream.s21_raw (stream s1)) in
  let x := fst (invert r n) in
  let q := snd (invert r n) in
  prepares s (with_raw s1 n x q) n x q.
Proof.
  intros Hx Hres Hc Hmiss Hf n x q.
  destruct (@raw_computed s s1 r f Hres Hc Hmiss Hf) as [Hset Hready].
  split; [| exact Hready].
  apply x_raw_computed; [exact Hx | exact Hset | reflexivity].
Qed.

(** *** Deglitching *)

(** The mask and the masked series that [deglitch] ends with: those of the
    [try], or those of the [except] when [deglitch_mask_mad] or
    [mask_glitches] raises. *)
Definition unmasked (n : list complex) (x q : list float64)
  : list bool * list float64 * list float64 * list complex :=
  (repeat false (List.length x), x, q, n).

Definition deglitch_outcome (n : list complex) (x q : list float64)
           (threshold : float64) (window mask_extend_samples : Z)
  : list bool * list float64 * list float64 * list complex :=
  match deglitch_mask_mad x threshold window mask_extend_samples with
  | Ok mask =>
      match mask_glitches x q n mask window with
      | Ok masked => (mask, fst (fst masked), snd (fst masked), snd masked)
      | Raise _ => unmasked n x q
      end
  | Raise _ => unmasked n x q
  end.

Definition deglitch_attrs : list attr :=
  [_glitch_mask; _number_of_masked_samples; _x; _q;
   _stream_s21_normalized_deglitched].

(** [s'] is [s1] with the five attributes that [deglitch] sets. *)
Definition deglitched_to (s1 s' : t)
           (outcome : list bool * list float64 * list float64 * list complex)
  : Prop :=
  let '(mask, x, q, n) := outcome in
  dict s' _glitch_mask = Some mask
  /\ dict s' _number_of_masked_samples = Some (mask_sum mask)
  /\ dict s' _x = Some x
  /\ dict s' _q = Some q
  /\ dict s' _stream_s21_normalized_deglitched = Some n
  /\ (forall a, ~ In a deglitch_attrs -> dict s' a = dict s1 a)
  /\ same_object s1 s'.

Lemma not_in_cons {A} (a b : A) (l : list A) :
  ~ In a (b :: l) -> b <> a /\ ~ In a l.
Proof. simpl. intuition. Qed.

Ltac frame :=
  let a := fresh "a" in
  let Hn := fresh "Hn" in
  intros a Hn; unfold deglitch_attrs in Hn;
  repeat (apply not_in_cons in Hn; destruct Hn as [? Hn]);
  cbn [dict with_dict];
  repeat (rewrite dict_set_other by assumption);
  reflexivity.

Lemma deglitch_except_run (s1 : t) (n : list complex) (x q : list float64) :
  raw_ready s1 n x q ->
  exists s', deglitch_except s1 = (Ok tt, s')
             /\ deglitched_to s1 s' (unmasked n x q).
Proof.
  intros [Hn [Hx Hq]].
  unfold deglitch_except.
  unfold bind at 1. rewrite (x_raw_present _ Hx).
  unfold bind at 1. unfold setattr at 1.
  unfold bind at 1. unfold getattr at 1. cbn [dict with_dict].
  rewrite dict_set_same.
  unfold bind at 1. unfold setattr at 1. cbn [dict with_dict].
  unfold bind at 1. rewrite x_raw_present with (v := x)
    by (cbn [dict with_dict]; rewrite !dict_set_other by discriminate; exact Hx).
  unfold bind at 1. unfold setattr at 1. cbn [dict with_dict].
  unfold bind at 1. rewrite q_raw_present with (v := q)
    by (cbn [dict with_dict]; rewrite !dict_set_other by discriminate; exact Hq).
  unfold bind at 1. unfold setattr at 1. cbn [dict with_dict].
  unfold bind at 1. rewrite stream_s21_normalized_present with (v := n)
    by (cbn [dict with_dict]; rewrite !dict_set_other by discriminate; exact Hn).
  unfold setattr. cbn [dict with_dict].
  eexists. split; [reflexivity |].
  unfold deglitched_to, unmasked. cbn [dict with_dict].
  repeat split. frame.
Qed.

(** What [deglitch] logs at its end is there to be read. *)
Lemma deglitch_log (s1 s' : t) (n : list complex) (x q : list float64)
      (outcome : list bool * list float64 * list float64 * list complex) :
  raw_ready s1 n x q ->
  deglitched_to s1 s' outcome ->
  (masked <- getattr _number_of_masked_samples ;;
   x <- getattr _x_raw ;;
   ret tt)%monad s' = (Ok tt, s').
Proof.
  intros [_ [Hx _]] Hd.
  destruct outcome as [[[mask x'] q'] n']. unfold deglitched_to in Hd.
  destruct Hd as [_ [Hsum [_ [_ [_ [Hframe _]]]]]].
  unfold bind at 1. rewrite (@getattr_present _number_of_masked_samples _ s' Hsum).
  unfold bind at 1.
  rewrite (@getattr_present _x_raw x s').
  - reflexivity.
  - rewrite Hframe; [exact Hx |].
    unfold deglitch_attrs. simpl. intuition discriminate.
Qed.

Lemma deglitched_to_from (s1 s3 s' : t)
      (outcome : list bool * list float64 * list float64 * list complex) :
  (forall a, ~ In a deglitch_attrs -> dict s3 a = dict s1 a) ->
  same_object s1 s3 ->
  deglitched_to s3 s' outcome ->
  deglitched_to s1 s' outcome.
Proof.
  intros Hframe Hsame. destruct outcome as [[[mask x'] q'] n']. cbn.
  intros [H1 [H2 [H3 [H4 [H5 [H6 H7]]]]]].
  repeat (split; [assumption |]). split.
  - intros a Ha. rewrite H6, Hframe by exact Ha. reflexivity.
  - unfold same_object in *. intuition congruence.
Qed.

(** [deglitch] ends normally whenever the window is defined and the raw
    series can be read, whether or not the masking raises. *)
Lemma deglitch_run (s s1 : t) (n : list complex) (x q : list float64)
      (threshold window_in_seconds : float64) (mask_extend_samples window : Z) :
  window_samples window_in_seconds (RoachStream.stream_sample_rate (stream s))
  = Ok window ->
  prepares s s1 n x q ->
  exists s',
    deglitch threshold window_in_seconds mask_extend_samples s = (Ok tt, s')
    /\ deglitched_to s1 s'
         (deglitch_outcome n x q threshold window mask_extend_samples).
Proof.
  intros Hw [Hrun Hready].
  assert (Hready' := Hready). destruct Hready' as [Hn [Hx Hq]].
  unfold deglitch. unfold bind at 1, get. unfold bind at 1, lift. rewrite Hw.
  unfold bind at 1. unfold try_except, deglitch_try.
  unfold bind at 1. rewrite Hrun.
  unfold bind at 1. unfold lift at 1. unfold deglitch_outcome.
  destruct (deglitch_mask_mad x threshold window mask_extend_samples)
    as [mask | e].
  - unfold bind at 1. unfold setattr at 1.
    unfold bind at 1. unfold getattr at 1. cbn [dict with_dict].
    rewrite dict_set_same.
    unfold bind at 1. unfold setattr at 1. cbn [dict with_dict].
    set (s3 := with_dict (dict_set _number_of_masked_samples (mask_sum mask)
                            (dict_set _glitch_mask mask (dict s1)))
                         (with_dict (dict_set _glitch_mask mask (dict s1)) s1)).
    assert (Hready3 : raw_ready s3 n x q) by (repeat split; assumption).
    assert (Hframe3 : forall a, ~ In a deglitch_attrs -> dict s3 a = dict s1 a)
      by (unfold s3; frame).
    assert (Hsame3 : same_object s1 s3) by (repeat split).
    unfold bind at 1. rewrite (@x_raw_present x s3) by exact Hx.
    unfold bind at 1. rewrite (@q_raw_present q s3) by exact Hq.
    unfold bind at 1. rewrite (@stream_s21_normalized_present n s3) by exact Hn.
    unfold bind at 1. unfold getattr at 1.
    assert (Hmask : dict s3 _glitch_mask = Some mask) by reflexivity.
    rewrite Hmask.
    unfold bind at 1. unfold lift at 1.
    destruct (mask_glitches x q n mask window) as [masked | e].
    + unfold bind at 1. unfold setattr at 1.
      unfold bind at 1. unfold setattr at 1.
      unfold setattr at 1. cbn [dict with_dict].
      match goal with
      | |- exists s', _ ?sf = _ /\ _ =>
          assert (Hd : deglitched_to s1 sf
                         (mask, fst (fst masked), snd (fst masked), snd masked))
      end.
      { unfold deglitched_to, s3. repeat split. frame. }
      eexists. split; [| exact Hd].
      eapply deglitch_log; [exact Hready | exact Hd].
    + edestruct deglitch_except_run as [s' [Hexc Hd]]; [exact Hready3 |].
      rewrite Hexc.
      assert (Hd1 : deglitched_to s1 s' (unmasked n x q))
        by (eapply deglitched_to_from; eassumption).
      exists s'. split; [| exact Hd1].
      eapply deglitch_log; [exact Hready | exact Hd1].
  - edestruct deglitch_except_run as [s' [Hexc Hd]]; [exact Hready |].
    rewrite Hexc.
    exists s'. split; [| exact Hd].
    eapply deglitch_log; [exact Hready | exact Hd].
Qed.

(** *** The deglitched series *)

(** The deglitched series are ready in [s]. *)
Definition series_ready (s : t) (x q : list float64) : Prop :=
  dict s _x = Some x /\ dict s _q = Some q.

Lemma deglitched_computed (a : attr) (v : attr_type a) (s s' : t) :
  dict s a = None ->
  deglitch_default s = (Ok tt, s') ->
  dict s' a = Some v ->
  deglitched a s = (Ok v, s').
Proof.
  intros Hmiss Hrun Hv. unfold deglitched, bind at 1, hasattr. rewrite Hmiss.
  unfold bind at 1. rewrite Hrun. exact (@getattr_present a v s' Hv).
Qed.

Lemma x_present (v : list float64) (s : t) :
  dict s _x = Some v -> SingleSweepStream.x s = (Ok v, s).
Proof. exact (@deglitched_present _x v s). Qed.

Lemma q_present (v : list float64) (s : t) :
  dict s _q = Some v -> SingleSweepStream.q s = (Ok v, s).
Proof. exact (@deglitched_present _q v s). Qed.

(** *** Spectral densities *)

(** The nine values that [set_S] stores. *)
Record Spectra : Type := {
  edges : option (list float64);
  counts : list Z;
  frequency : list float64;
  qq : list float64;
  xx : list float64;
  xq : list complex;
  xx_variance : list float64;
  qq_variance : list float64;
  xq_variance : list complex
}.

(** The frequencies and the spectra of [q], of [x] and of both, as
    [mlab.psd] and [mlab.csd] return them. *)
Definition estimates (x q : list float64) (Fs : float64) (NFFT : Z)
           (window : Window) (detrend : Detrend) (noverlap : Z)
           (psd_kwds : PsdKwds)
  : list float64 * list float64 * list float64 * list complex :=
  (snd (csd x q Fs NFFT window detrend noverlap psd_kwds),
   fst (psd q Fs NFFT window detrend noverlap psd_kwds),
   fst (psd x Fs NFFT window detrend noverlap psd_kwds),
   fst (csd x q Fs NFFT window detrend noverlap psd_kwds)).

(** The estimates without their first and last entries, binned or not. *)
Definition finish (est : list float64 * list float64 * list float64 * list complex)
           (ndof : Z) (binned : bool) (bins_per_decade : Z) : Spectra :=
  let '(f, S_qq, S_xx, S_xq) := est in
  let f := drop_ends f in
  let S_xx := drop_ends S_xx in
  let S_qq := drop_ends S_qq in
  let S_xq := drop_ends S_xq in
  if binned then
    let b := log_bin_with_variance f bins_per_decade
               (S_xx, variance S_xx ndof)
               (S_qq, variance S_qq ndof)
               (S_xq, cvariance S_xq ndof) in
    {| edges := Some (bin_edges b);
       counts := bin_counts b;
       frequency := bin_f_mean b;
       qq := fst (bin_qq b);
       xx := fst (bin_xx b);
       xq := fst (bin_xq b);
       xx_variance := snd (bin_xx b);
       qq_variance := snd (bin_qq b);
       xq_variance := snd (bin_xq b) |}
  else
    {| edges := None;
       counts := repeat 1%Z (List.length f);
       frequency := f;
       qq := S_qq;
       xx := S_xx;
       xq := S_xq;
       xx_variance := variance S_xx ndof;
       qq_variance := variance S_qq ndof;
       xq_variance := cvariance S_xq ndof |}.

(** The estimates that a masking function keeps; [a[mask]] raises when the
    mask has not the length of the array. *)
Definition apply_mask (masking : option MaskingFunction)
           (est : list float64 * list float64 * list float64 * list complex)
  : result (list float64 * list float64 * list float64 * list complex) :=
  let '(f, S_qq, S_xx, S_xq) := est in
  match masking with
  | None => Ok est
  | Some mask_of =>
      let mask := mask_of f S_xx S_qq S_xq in
      (f' <- compress f mask ;;
       S_qq' <- compress S_qq mask ;;
       S_xx' <- compress S_xx mask ;;
       S_xq' <- compress S_xq mask ;;
       Ok (f', S_qq', S_xx', S_xq'))%result
  end.

Definition spectral_attrs : list attr :=
  [_S_edges; _S_counts; _S_frequency; _S_qq; _S_xx; _S_xq;
   _S_xx_variance; _S_qq_variance; _S_xq_variance; _S_mask].

(** [s'] is [s1] with the nine attributes that [set_S] sets, and with the
    mask when there is a masking function. *)
Definition spectra_stored (s1 s' : t) (sp : Spectra) (mask : option (list bool))
  : Prop :=
  dict s' _S_edges = Some (edges sp)
  /\ dict s' _S_counts = Some (counts sp)
  /\ dict s' _S_frequency = Some (frequency sp)
  /\ dict s' _S_qq = Some (qq sp)
  /\ dict s' _S_xx = Some (xx sp)
  /\ dict s' _S_xq = Some (xq sp)
  /\ dict s' _S_xx_variance = Some (xx_variance sp)
  /\ dict s' _S_qq_variance = Some (qq_variance sp)
  /\ dict s' _S_xq_variance = Some (xq_variance sp)
  /\ dict s' _S_mask = match mask with
                       | Some m => Some m
                       | None => dict s1 _S_mask
                       end
  /\ (forall a, ~ In a spectral_attrs -> dict s' a = dict s1 a)
  /\ same_object s1 s'.

Ltac spectral_frame :=
  let a := fresh "a" in
  let Hn := fresh "Hn" in
  intros a Hn; unfold spectral_attrs in Hn;
  repeat (apply not_in_cons in Hn; destruct Hn as [? Hn]);
  cbn [dict with_dict];
  repeat (rewrite dict_set_other by assumption);
  reflexivity.

Definition mask_used (masking : option MaskingFunction)
           (est : list float64 * list float64 * list float64 * list complex)
  : option (list bool) :=
  let '(f, S_qq, S_xx, S_xq) := est in
  match masking with
  | None => None
  | Some mask_of => Some (mask_of f S_xx S_qq S_xq)
  end.

Lemma set_S_finish (s1 s2 : t) (mask : option (list bool)) (binned : bool)
      (f0 S_qq0 S_xx0 : list float64) (S_xq0 : list complex)
      (ndof bins_per_decade : Z) :
  (forall a, ~ In a spectral_attrs -> dict s2 a = dict s1 a) ->
  same_object s1 s2 ->
  dict s2 _S_mask = match mask with Some m => Some m | None => dict s1 _S_mask end ->
  let f := drop_ends f0 in
  let S_xx := drop_ends S_xx0 in
  let S_qq := drop_ends S_qq0 in
  let S_xq := drop_ends S_xq0 in
  exists s',
    (if binned then
       let b := log_bin_with_variance f bins_per_decade
                  (S_xx, variance S_xx ndof)
                  (S_qq, variance S_qq ndof)
                  (S_xq, cvariance S_xq ndof) in
       setattr _S_edges (Some (bin_edges b)) ;;;
       setattr _S_counts (bin_counts b) ;;;
       setattr _S_frequency (bin_f_mean b) ;;;
       setattr _S_qq (fst (bin_qq b)) ;;;
       setattr _S_xx (fst (bin_xx b)) ;;;
       setattr _S_xq (fst (bin_xq b)) ;;;
       setattr _S_xx_variance (snd (bin_xx b)) ;;;
       setattr _S_qq_variance (snd (bin_qq b)) ;;;
       setattr _S_xq_variance (snd (bin_xq b))
     else
       setattr _S_edges None ;;;
       setattr _S_counts (repeat 1%Z (List.length f)) ;;;
       setattr _S_frequency f ;;;
       setattr _S_qq S_qq ;;;
       setattr _S_xx S_xx ;;;
       setattr _S_xq S_xq ;;;
       setattr _S_xx_variance (variance S_xx ndof) ;;;
       setattr _S_qq_variance (variance S_qq ndof) ;;;
       setattr _S_xq_variance (cvariance S_xq ndof))%monad s2
    = (Ok tt, s')
    /\ spectra_stored s1 s'
         (finish (f0, S_qq0, S_xx0, S_xq0) ndof binned bins_per_decade) mask.
Proof.
  intros Hframe Hsame Hmask. cbv zeta. unfold finish.
  destruct binned.
  - unfold bind, setattr. cbn [dict with_dict fst snd].
    eexists. split; [reflexivity |].
    unfold spectra_stored. cbn [edges counts frequency qq xx xq xx_variance
                                  qq_variance xq_variance dict with_dict].
    repeat split; try apply Hsame.
    + exact Hmask.
    + intros a Ha. rewrite <- (Hframe a Ha). revert a Ha. spectral_frame.
  - unfold bind, setattr. cbn [dict with_dict fst snd].
    eexists. split; [reflexivity |].
    unfold spectra_stored. cbn [edges counts frequency qq xx xq xx_variance
                                  qq_variance xq_variance dict with_dict].
    repeat split; try apply Hsame.
    + exact Hmask.
    + intros a Ha. rewrite <- (Hframe a Ha). revert a Ha. spectral_frame.
Qed.

(** [set_S] from a state in which reading [q] leaves the deglitched series
    ready, with a chunk length that is not zero and a mask, if any, of the
    length of the spectra. *)
Lemma set_S_run (s s1 : t) (xv qv : list float64) (NFFT : option Z) (nfft : Z)
      (window : Window) (detrend : Detrend) (noverlap : option Z)
      (binned : bool) (bins_per_decade : Z)
      (masking : option MaskingFunction) (psd_kwds : PsdKwds)
      (est : list float64 * list float64 * list float64 * list complex) :
  choose_NFFT NFFT s = (Ok nfft, s) ->
  nfft <> 0%Z ->
  SingleSweepStream.q s = (Ok qv, s1) ->
  series_ready s1 xv qv ->
  let Fs := RoachStream.stream_sample_rate (stream s) in
  let overlap := match noverlap with Some n => n | None => (nfft / 2)%Z end in
  let ndof := (2 * Z.of_nat (List.length xv) / nfft)%Z in
  let raw := estimates xv qv Fs nfft window detrend overlap psd_kwds in
  apply_mask masking raw = Ok est ->
  exists s',
    set_S NFFT window detrend noverlap binned bins_per_decade masking psd_kwds s
    = (Ok tt, s')
    /\ spectra_stored s1 s' (finish est ndof binned bins_per_decade)
                      (mask_used masking raw).
Proof.
  intros Hn Hnz Hq [Hsx Hsq] Fs overlap ndof raw Hest.
  unfold set_S. unfold bind at 1. rewrite Hn.
  unfold bind at 1, get. unfold bind at 1. rewrite Hq.
  unfold bind at 1. rewrite (@x_present xv s1 Hsx).
  unfold bind at 1. rewrite (@x_present xv s1 Hsx).
  unfold bind at 1. rewrite (@q_present qv s1 Hsq).
  fold Fs. fold overlap.
  unfold raw, estimates, apply_mask, mask_used in *.
  destruct masking as [mask_of |].
  - unfold rbind in Hest.
    set (f := snd (csd xv qv Fs nfft window detrend overlap psd_kwds)) in *.
    set (S_qq := fst (psd qv Fs nfft window detrend overlap psd_kwds)) in *.
    set (S_xx := fst (psd xv Fs nfft window detrend overlap psd_kwds)) in *.
    set (S_xq := fst (csd xv qv Fs nfft window detrend overlap psd_kwds)) in *.
    set (mask := mask_of f S_xx S_qq S_xq) in *.
    unfold bind at 1. unfold bind at 1. unfold lift at 1.
    destruct (compress f mask) as [f' |]; [| discriminate].
    unfold bind at 1. unfold lift at 1.
    destruct (compress S_qq mask) as [S_qq' |]; [| discriminate].
    unfold bind at 1. unfold lift at 1.
    destruct (compress S_xx mask) as [S_xx' |]; [| discriminate].
    unfold bind at 1. unfold lift at 1.
    destruct (compress S_xq mask) as [S_xq' |]; [| discriminate].
    injection Hest as <-.
    unfold bind at 1. unfold setattr at 1. unfold ret at 1.
    unfold bind at 1.
    set (s2 := with_dict (dict_set _S_mask mask (dict s1)) s1).
    rewrite (@x_present xv s2) by exact Hsx.
    unfold bind at 1.
    destruct (Z.eqb_spec nfft 0) as [E | _]; [contradiction |].
    unfold ret at 1. fold ndof.
    apply (@set_S_finish s1 s2 (Some mask) binned f' S_qq' S_xx' S_xq'
                         ndof bins_per_decade).
    + unfold s2. spectral_frame.
    + repeat split.
    + reflexivity.
  - injection Hest as <-.
    unfold bind at 1. unfold ret at 1.
    unfold bind at 1. rewrite (@x_present xv s1 Hsx).
    unfold bind at 1.
    destruct (Z.eqb_spec nfft 0) as [E | _]; [contradiction |].
    unfold ret at 1. fold ndof.
    apply (@set_S_finish s1 s1 None binned
                         (snd (csd xv qv Fs nfft window detrend overlap psd_kwds))
                         (fst (psd qv Fs nfft window detrend overlap psd_kwds))
                         (fst (psd xv Fs nfft window detrend overlap psd_kwds))
                         (fst (csd xv qv Fs nfft window detrend overlap psd_kwds))
                         ndof bins_per_decade).
    + reflexivity.
    + repeat split.
    + reflexivity.
Qed.

(** *** Principal components *)

(** [q / 2] *)
Definition halved (q : list float64) : list float64 :=
  map (fun v => Float.div v (Fin 2)) q.

(** [x + 1j * y], entry by entry. *)
Definition plus_j (a b : float64) : complex :=
  cadd (of_real a) (cmul j (of_real b)).

Lemma y_present (s : t) (qv : list float64) :
  dict s _q = Some qv -> y s = (Ok (halved qv), s).
Proof.
  intros Hq. unfold y, bind. rewrite (@q_present qv s Hq). reflexivity.
Qed.

Lemma complex_series_same_length (xv yv : list float64) :
  List.length xv = List.length yv ->
  complex_series xv yv = Ok (zip_with plus_j xv yv).
Proof.
  intros Hlen. unfold complex_series, broadcast2.
  rewrite Hlen, Nat.eqb_refl. reflexivity.
Qed.

Definition pca_attrs : list attr :=
  [_pca_S_frequency; _pca_S_00; _pca_S_11; _pca_angles].

Ltac pca_frame :=
  let a := fresh "a" in
  let Hn := fresh "Hn" in
  intros a Hn; unfold pca_attrs in Hn;
  repeat (apply not_in_cons in Hn; destruct Hn as [? Hn]);
  cbn [dict with_dict];
  repeat (rewrite dict_set_other by assumption);
  reflexivity.

(** [set_pca] from a state in which reading [x] leaves the deglitched series
    ready. *)
Lemma set_pca_run (s s1 : t) (xv qv : list float64) (NFFT : option Z) (nfft : Z)
      (window : Window) (detrend : Detrend) (binned : bool)
      (evals0 evals1 : list float64) :
  choose_NFFT NFFT s = (Ok nfft, s) ->
  SingleSweepStream.x s = (Ok xv, s1) ->
  series_ready s1 xv qv ->
  List.length xv = List.length qv ->
  let r := pca_noise (zip_with plus_j xv (halved qv)) nfft
                     (RoachStream.stream_sample_rate (stream s1))
                     window detrend binned true in
  getitem (pca_evals r) 0 = Ok evals0 ->
  getitem (pca_evals r) 1 = Ok evals1 ->
  exists s',
    set_pca NFFT window detrend binned s = (Ok tt, s')
    /\ dict s' _pca_S_frequency = Some (pca_fr r)
    /\ dict s' _pca_S_00 = Some evals0
    /\ dict s' _pca_S_11 = Some evals1
    /\ dict s' _pca_angles = Some (pca_angles_out r)
    /\ (forall a, ~ In a pca_attrs -> dict s' a = dict s1 a)
    /\ same_object s1 s'.
Proof.
  intros Hn Hx [Hsx Hsq] Hlen r H0 H1.
  unfold set_pca. unfold bind at 1. rewrite Hn.
  unfold bind at 1. rewrite Hx.
  unfold bind at 1. rewrite (@y_present s1 qv Hsq).
  unfold bind at 1. unfold lift at 1.
  rewrite complex_series_same_length
    by (unfold halved; rewrite length_map; exact Hlen).
  unfold bind at 1, get. fold r.
  unfold bind at 1. unfold setattr at 1.
  unfold bind at 1. unfold lift at 1. rewrite H0.
  unfold bind at 1. unfold setattr at 1.
  unfold bind at 1. unfold lift at 1. rewrite H1.
  unfold bind at 1. unfold setattr.
  cbn [dict with_dict].
  eexists. split; [reflexivity |].
  repeat split. pca_frame.
Qed.

(** *** The default length of an FFT chunk *)

Lemma one_to_any_power (p : positive) : (1 ^ p)%positive = 1%positive.
Proof.
  apply Pos2Z.inj. rewrite Pos2Z.inj_pow. apply Z.pow_1_l. lia.
Qed.

Lemma power_of_two_numerator (p : positive) :
  Qpower_positive 2 p = (Z.pow 2 (Zpos p) # 1)%Q.
Proof.
  rewrite (Qpower_decomp_positive p 2 1). rewrite one_to_any_power. reflexivity.
Qed.

Lemma int_of_power_of_two (k : Z) :
  (0 <= k)%Z -> int_of_float (Fin (Qpower 2 k)) = Ok (2 ^ k)%Z.
Proof.
  intros Hk. destruct k as [| p | p]; [reflexivity | | lia].
  unfold Qpower. rewrite power_of_two_numerator. unfold int_of_float.
  cbn [Qnum Qden]. rewrite Z.quot_1_r. reflexivity.
Qed.

(** The chunk length [int(2**(floor(log2(size)) - 3))] for a stream of
    [size] samples. *)
Definition chunk_length (size : nat) : result Z :=
  int_of_float
    (exp2_shift (np_round_log2 Qfloor_log2 (Float.of_Z (Z.of_nat size))) (-3)).

Lemma chunk_length_short (size : nat) : size < 8 -> chunk_length size = Ok 0%Z.
Proof.
  intros Hlt.
  do 8 (destruct size as [| size]; [reflexivity |]). lia.
Qed.

Lemma chunk_length_long (size : nat) :
  8 <= size -> chunk_length size = Ok (2 ^ (Z.log2 (Z.of_nat size) - 3))%Z.
Proof.
  intros Hge. unfold chunk_length, np_round_log2, Float.of_Z.
  assert (Hpos : (8 <= Z.of_nat size)%Z) by lia.
  destruct (Qle_bool (inject_Z (Z.of_nat size)) 0) eqn:E.
  - apply Qle_bool_iff in E. unfold Qle, inject_Z in E. simpl in E. lia.
  - unfold exp2_shift, Qfloor_log2.
    assert (H1 : Qle_bool 1 (inject_Z (Z.of_nat size)) = true).
    { apply Qle_bool_iff. unfold Qle, inject_Z. simpl. lia. }
    rewrite H1. rewrite Qfloor_Z.
    apply int_of_power_of_two.
    assert (Hlog : (Z.log2 8 <= Z.log2 (Z.of_nat size))%Z)
      by (apply Z.log2_le_mono; exact Hpos).
    change (Z.log2 8) with 3%Z in Hlog. lia.
Qed.

Lemma default_NFFT_chunk (s : t) :
  default_NFFT s = chunk_length (size (RoachStream.s21_raw (stream s))).
Proof. reflexivity. Qed.

Lemma choose_default_NFFT (s : t) (nfft : Z) :
  default_NFFT s = Ok nfft -> choose_NFFT None s = (Ok nfft, s).
Proof.
  intros Hn. unfold choose_NFFT, bind, get, lift. rewrite Hn. reflexivity.
Qed.

(** *** The whole pipeline on an object that has computed nothing yet *)

(** The resonator that [self.sweep.resonator] returns: the stored one, or
    the fit of the default model to the sweep. *)
Definition sweep_fit (sw : SingleSweep.t) : result Resonator :=
  match SingleSweep._resonator sw with
  | Some r => Ok r
  | None => ResonatorFacts.fitted sw LinearResonatorWithCable None
  end.

Definition after_resonator (s : t) (r : Resonator) : t :=
  match SingleSweep._resonator (sweep s) with
  | Some _ => s
  | None => refit s r
  end.

Lemma sweep_resonator_run (s : t) (r : Resonator) :
  sweep_fit (sweep s) = Ok r ->
  sweep_resonator s = (Ok r, after_resonator s r)
  /\ SingleSweep._resonator (sweep (after_resonator s r)) = Some r
  /\ stream (after_resonator s r) = stream s
  /\ (forall a, dict s a = None -> dict (after_resonator s r) a = None).
Proof.
  unfold sweep_fit, after_resonator.
  destruct (SingleSweep._resonator (sweep s)) as [r0 |] eqn:Hc; intros Hfit.
  - injection Hfit as ->. repeat split; auto using sweep_resonator_cached.
  - repeat split; auto using sweep_resonator_first.
    intros a Ha. unfold refit, ResonatorFacts.hook_of. cbn [dict with_dict].
    destruct (sweep_parent s); cbn [ResonatorFacts.notified]; [| exact Ha].
    unfold dict_delete.
    destruct (existsb _ memoized); [reflexivity | exact Ha].
Qed.

(** The values the pipeline computes, stage by stage. *)
Record Stages : Type := {
  stage_resonator : Resonator;
  stage_normalized : list complex;
  stage_x_raw : list float64;
  stage_q_raw : list float64;
  stage_mask : list bool;
  stage_x : list float64;
  stage_q : list float64;
  stage_deglitched : list complex
}.

Definition stages (r : Resonator) (f : ndarray float64) (raw : ndarray complex)
           (window : Z) : Stages :=
  let n := remove_background r f raw in
  let x_raw := fst (invert r n) in
  let q_raw := snd (invert r n) in
  let outcome := deglitch_outcome n x_raw q_raw (Fin 8) window 50%Z in
  {| stage_resonator := r;
     stage_normalized := n;
     stage_x_raw := x_raw;
     stage_q_raw := q_raw;
     stage_mask := fst (fst (fst outcome));
     stage_x := snd (fst (fst outcome));
     stage_q := snd (fst outcome);
     stage_deglitched := snd outcome |}.

Definition stages_stored (s' : t) (st : Stages) : Prop :=
  SingleSweep._resonator (sweep s') = Some (stage_resonator st)
  /\ dict s' _stream_s21_normalized = Some (stage_normalized st)
  /\ dict s' _x_raw = Some (stage_x_raw st)
  /\ dict s' _q_raw = Some (stage_q_raw st)
  /\ dict s' _glitch_mask = Some (stage_mask st)
  /\ dict s' _number_of_masked_samples = Some (mask_sum (stage_mask st))
  /\ dict s' _x = Some (stage_x st)
  /\ dict s' _q = Some (stage_q st)
  /\ dict s' _stream_s21_normalized_deglitched = Some (stage_deglitched st).

(** Reading [q] on an object without attributes fits the sweep, normalizes
    and inverts the stream, and deglitches the series. *)
Lemma q_from_scratch (s : t) (r : Resonator) (f : ndarray float64) (window : Z) :
  (forall a, dict s a = None) ->
  sweep_fit (sweep s) = Ok r ->
  RoachStream.frequency (stream s) = Ok f ->
  window_samples (Fin 1) (RoachStream.stream_sample_rate (stream s)) = Ok window ->
  let st := stages r f (RoachStream.s21_raw (stream s)) window in
  exists s',
    SingleSweepStream.q s = (Ok (stage_q st), s')
    /\ stages_stored s' st
    /\ same_object (after_resonator s r) s'
    /\ (forall a, In a spectral_attrs -> dict s' a = None).
Proof.
  intros Hfresh Hfit Hf Hw st.
  destruct (@sweep_resonator_run s r Hfit) as [Hres [Hc [Hstream Hnone]]].
  set (s1 := after_resonator s r) in *.
  assert (Hf1 : RoachStream.frequency (stream s1) = Ok f)
    by (rewrite Hstream; exact Hf).
  assert (Hprep := @prepares_from_scratch s s1 r f (Hfresh _x_raw) Hres Hc
                     (Hnone _ (Hfresh _)) Hf1).
  cbv zeta in Hprep. rewrite Hstream in Hprep.
  set (n := remove_background r f (RoachStream.s21_raw (stream s))) in *.
  set (xr := fst (invert r n)) in *.
  set (qr := snd (invert r n)) in *.
  destruct (@deglitch_run s _ n xr qr (Fin 8) (Fin 1) 50%Z window Hw Hprep)
    as [s' [Hrun Hd]].
  unfold st, stages. fold n. fold xr. fold qr.
  destruct (deglitch_outcome n xr qr (Fin 8) window 50%Z)
    as [[[mask xd] qd] nd].
  cbn [fst snd stage_q].
  unfold deglitched_to in Hd.
  destruct Hd as [Hm [Hsum [Hx [Hq [Hn [Hframe Hsame]]]]]].
  exists s'. split; [| split; [| split]].
  - exact (@deglitched_computed _q qd s s' (Hfresh _q) Hrun Hq).
  - unfold stages_stored.
    cbn [stage_resonator stage_normalized stage_x_raw stage_q_raw stage_mask
         stage_x stage_q stage_deglitched].
    repeat split; try assumption.
    + destruct Hsame as [Hsw _]. rewrite Hsw. exact Hc.
    + rewrite Hframe by (simpl; intuition discriminate). reflexivity.
    + rewrite Hframe by (simpl; intuition discriminate). reflexivity.
    + rewrite Hframe by (simpl; intuition discriminate). reflexivity.
  - exact Hsame.
  - intros a Ha. rewrite Hframe.
    + unfold with_raw. cbn [dict with_dict].
      rewrite !dict_set_other
        by (intros <-; simpl in Ha; intuition discriminate).
      apply Hnone, Hfresh.
    + intros Hin. simpl in Ha, Hin. intuition congruence.
Qed.


(** *** The window of the deglitcher *)

(** [int(2 ** np.ceil(np.log2(p)))] for a finite product [p] of the window
    in seconds and the sample rate. *)
Definition window_of (p : Q) : result Z :=
  int_of_float (exp2_shift (np_round_log2 Qceil_log2 (Fin p)) 0).



Lemma not_le_lt (a b : Q) : Qle_bool a b = false -> (b < a)%Q.
Proof.
  intros E. apply Qnot_le_lt. intros Hle. apply Qle_bool_iff in Hle.
  rewrite Hle in E. discriminate E.
Qed.

Lemma window_of_negative (p : Q) : (p < 0)%Q -> window_of p = Raise ValueError.
Proof.
  intros Hp. unfold window_of, np_round_log2.
  assert (Hle : Qle_bool p 0 = true)
    by (apply Qle_bool_iff, Qlt_le_weak; exact Hp).
  rewrite Hle.
  assert (Hz : Float.Qzerob p = false).
  { apply not_true_is_false. intros E. apply Qeq_bool_iff in E.
    rewrite E in Hp. discriminate Hp. }
  rewrite Hz. reflexivity.
Qed.














(** [deglitch] raises before its [try] when the window is not defined, and
    sets nothing. *)
Lemma deglitch_without_window (s : t) (threshold window_in_seconds : float64)
      (mask_extend_samples : Z) (e : exn) :
  window_samples window_in_seconds (RoachStream.stream_sample_rate (stream s))
  = Raise e ->
  deglitch threshold window_in_seconds mask_extend_samples s = (Raise e, s).
Proof.
  intros Hw. unfold deglitch, bind, get, lift. rewrite Hw. reflexivity.
Qed.

(** *** The chunk length that [set_S] and [set_pca] use *)

Definition chunk (size : nat) : Z :=
  if (8 <=? size)%nat then (2 ^ (Z.log2 (Z.of_nat size) - 3))%Z else 0%Z.

Lemma chunk_length_chunk (size : nat) : chunk_length size = Ok (chunk size).
Proof.
  unfold chunk. destruct (Nat.leb_spec 8 size) as [Hge | Hlt].
  - apply chunk_length_long. exact Hge.
  - apply chunk_length_short. exact Hlt.
Qed.

Definition chunk_of (NFFT : option Z) (s : t) : Z :=
  match NFFT with
  | Some n => n
  | None => chunk (size (RoachStream.s21_raw (stream s)))
  end.

Lemma choose_NFFT_run (NFFT : option Z) (s : t) :
  choose_NFFT NFFT s = (Ok (chunk_of NFFT s), s).
Proof.
  destruct NFFT as [n |]; [reflexivity |].
  apply choose_default_NFFT. rewrite default_NFFT_chunk.
  apply chunk_length_chunk.
Qed.

(** C7, amended: [set_pca] decomposes the complex series [x + 1j * y],
    where [y = q / 2], with [iqnoise.pca_noise], and stores the frequencies,
    the first and the second spectrum of eigenvalues as [pca_S_00] and
    [pca_S_11], and the angles as [pca_angles].  When [NFFT] is None the
    chunk has [int(2 ** (floor(log2(size)) - 3))] samples, where [size] is
    that of [stream.s21_raw]: two to the power [floor(log2(size)) - 3] for
    eight samples and more, and zero for fewer. *)
Theorem set_pca_decomposes_x_and_y
        (s s1 : t) (xv qv : list float64) (NFFT : option Z)
        (window : Window) (detrend : Detrend) (binned : bool)
        (evals0 evals1 : list float64) :
  SingleSweepStream.x s = (Ok xv, s1) ->
  series_ready s1 xv qv ->
  List.length xv = List.length qv ->
  let size := size (RoachStream.s21_raw (stream s)) in
  let nfft := match NFFT with
              | Some n => n
              | None => if (8 <=? size)%nat
                        then (2 ^ (Z.log2 (Z.of_nat size) - 3))%Z
                        else 0%Z
              end in
  let y := map (fun v => Float.div v (Fin 2)) qv in
  let series := zip_with (fun a b => cadd (of_real a) (cmul j (of_real b)))
                         xv y in
  let r := pca_noise series nfft (RoachStream.stream_sample_rate (stream s1))
                     window detrend binned true in
  getitem (pca_evals r) 0 = Ok evals0 ->
  getitem (pca_evals r) 1 = Ok evals1 ->
  exists s',
    set_pca NFFT window detrend binned s = (Ok tt, s')
    /\ fst (SingleSweepStream.y s1) = Ok y
    /\ dict s' _pca_S_frequency = Some (pca_fr r)
    /\ dict s' _pca_S_00 = Some evals0
    /\ dict s' _pca_S_11 = Some evals1
    /\ dict s' _pca_angles = Some (pca_angles_out r)
    /\ (forall a, ~ In a pca_attrs -> dict s' a = dict s1 a)
    /\ same_object s1 s'.
Proof.
  intros Hx Hready Hlen size0 nfft yv series r H0 H1.
  destruct (@set_pca_run s s1 xv qv NFFT nfft window detrend binned
                         evals0 evals1 (choose_NFFT_run NFFT s) Hx Hready Hlen
                         H0 H1)
    as [s' [Hrun Hrest]].
  exists s'. split; [exact Hrun | split; [| exact Hrest]].
  rewrite (@y_present s1 qv (proj2 Hready)). reflexivity.
Qed.


(** *** From the sweep to the spectral densities *)

(** C1: on a SingleSweepStream that has computed nothing yet, [set_S] runs
    the pipeline in order.  The resonator is the one of the sweep
    ([self.sweep.resonator]: the stored fit, or the fit of the default model
    to the sweep); [stream_s21_normalized] is [remove_background] of that
    resonator on the frequency and the [s21_raw] of the stream; [x_raw] and
    [q_raw] are the two results of [invert] of that resonator on
    [stream_s21_normalized]; [x] and [q] are what [deglitch()] makes of
    them; and the spectra are [mlab.psd] of [q], [mlab.psd] of [x] and
    [mlab.csd] of [x] and [q], masked, trimmed and binned. *)
Theorem pipeline_runs_in_order
        (s : t) (r : Resonator) (f : ndarray float64) (window_length : Z)
        (NFFT : option Z) (window : Window) (detrend : Detrend)
        (noverlap : option Z) (binned : bool) (bins_per_decade : Z)
        (masking : option MaskingFunction) (psd_kwds : PsdKwds)
        (est : list float64 * list float64 * list float64 * list complex) :
  (forall a, dict s a = None) ->
  sweep_fit (sweep s) = Ok r ->
  RoachStream.frequency (stream s) = Ok f ->
  window_samples (Fin 1) (RoachStream.stream_sample_rate (stream s))
  = Ok window_length ->
  chunk_of NFFT s <> 0%Z ->
  let normalized := remove_background r f (RoachStream.s21_raw (stream s)) in
  let raw_x := fst (invert r normalized) in
  let raw_q := snd (invert r normalized) in
  let outcome := deglitch_outcome normalized raw_x raw_q (Fin 8) window_length
                                  50%Z in
  let xv := snd (fst (fst outcome)) in
  let qv := snd (fst outcome) in
  let nfft := chunk_of NFFT s in
  let Fs := RoachStream.stream_sample_rate (stream s) in
  let overlap := match noverlap with Some n => n | None => (nfft / 2)%Z end in
  let ndof := (2 * Z.of_nat (List.length xv) / nfft)%Z in
  let S_qq_f := psd qv Fs nfft window detrend overlap psd_kwds in
  let S_xx_f := psd xv Fs nfft window detrend overlap psd_kwds in
  let S_xq_f := csd xv qv Fs nfft window detrend overlap psd_kwds in
  apply_mask masking (snd S_xq_f, fst S_qq_f, fst S_xx_f, fst S_xq_f) = Ok est ->
  let spectra := finish est ndof binned bins_per_decade in
  exists s',
    set_S NFFT window detrend noverlap binned bins_per_decade masking psd_kwds s
    = (Ok tt, s')
    /\ SingleSweep._resonator (sweep s') = Some r
    /\ dict s' _stream_s21_normalized = Some normalized
    /\ dict s' _x_raw = Some raw_x
    /\ dict s' _q_raw = Some raw_q
    /\ dict s' _x = Some xv
    /\ dict s' _q = Some qv
    /\ dict s' _S_frequency = Some (frequency spectra)
    /\ dict s' _S_xx = Some (xx spectra)
    /\ dict s' _S_qq = Some (qq spectra)
    /\ dict s' _S_xq = Some (xq spectra)
    /\ stream s' = stream s.
Proof.
  intros Hfresh Hfit Hf Hw Hnz normalized raw_x raw_q outcome xv qv nfft Fs
         overlap ndof S_qq_f S_xx_f S_xq_f Hest spectra.
  destruct (@q_from_scratch s r f window_length Hfresh Hfit Hf Hw)
    as [s1 [Hq [Hst [Hsame _]]]].
  unfold stages_stored, stages in Hst.
  cbn [stage_resonator stage_normalized stage_x_raw stage_q_raw stage_mask
       stage_x stage_q stage_deglitched] in Hst.
  fold normalized raw_x raw_q outcome xv qv in Hst.
  destruct Hst as [Hr [Hn [Hxr [Hqr [_ [_ [Hx Hq']]]]]]].
  destruct Hq' as [Hq' _].
  cbv zeta in Hq. unfold stages in Hq. cbn [stage_q] in Hq.
  fold normalized raw_x raw_q outcome qv in Hq.
  destruct (@set_S_run s s1 xv qv NFFT nfft window detrend noverlap binned
                       bins_per_decade masking psd_kwds est
                       (choose_NFFT_run NFFT s) Hnz Hq (conj Hx Hq') Hest)
    as [s' [Hrun Hs]].
  exists s'. split; [exact Hrun |].
  unfold spectra_stored in Hs.
  destruct Hs as [_ [_ [H3 [H4 [H5 [H6 [_ [_ [_ [_ [Hframe Hobj]]]]]]]]]]].
  destruct Hobj as [Hsw [Hstream _]].
  destruct Hsame as [Hsw1 [Hstream1 _]].
  assert (Hkeep : forall a, In a [_stream_s21_normalized; _x_raw; _q_raw; _x; _q] ->
                            dict s' a = dict s1 a).
  { intros a Ha. apply Hframe. intros Hin. simpl in Ha, Hin.
    intuition congruence. }
  repeat split.
  - rewrite Hsw. exact Hr.
  - rewrite Hkeep by (simpl; tauto). exact Hn.
  - rewrite Hkeep by (simpl; tauto). exact Hxr.
  - rewrite Hkeep by (simpl; tauto). exact Hqr.
  - rewrite Hkeep by (simpl; tauto). exact Hx.
  - rewrite Hkeep by (simpl; tauto). exact Hq'.
  - exact H3.
  - exact H5.
  - exact H4.
  - exact H6.
  - rewrite Hstream, Hstream1.
    unfold after_resonator, refit.
    destruct (SingleSweep._resonator (sweep s)); reflexivity.
Qed.

End Pipeline.

(** ** The pipeline on the stream of sixteen samples *)

(** Its raw series, the object once they are computed, and the series once
    the samples above the threshold of 8 are masked. *)
Definition raw_x : list float64 := map re Examples.sixteen.

Definition raw_q : list float64 := map im Examples.sixteen.


Definition masked_x : list float64 :=
  [Fin 0; Fin 1; Fin 2; Fin 3; Fin 4; Fin 5; Fin 6; Fin 7; Fin 8;
   Fin 0; Fin 0; Fin 0; Fin 0; Fin 0; Fin 0; Fin 0].

Definition masked_q : list float64 :=
  [Fin 2; Fin 2; Fin 2; Fin 2; Fin 2; Fin 2; Fin 2; Fin 2; Fin 2;
   Fin 0; Fin 0; Fin 0; Fin 0; Fin 0; Fin 0; Fin 0].

Definition deglitched_state : @t Examples.core Examples.lmfit :=
  snd (SingleSweepStream.x (CALC := Examples.calculate) (NP := Examples.numpy)
                           (DS := Examples.despike) Examples.sweep_stream).




(** C7 on the stream of sixteen samples: chunks of two samples. *)
Lemma set_pca_witness :
  exists s' : @t Examples.core Examples.lmfit,
    set_pca (CALC := Examples.calculate) (NP := Examples.numpy)
            (DS := Examples.despike) (IQ := Examples.iqnoise)
            None tt tt true Examples.sweep_stream
    = (Ok tt, s')
    /\ dict s' _pca_S_frequency = Some [Fin 0; Fin 1]
    /\ dict s' _pca_S_00
       = Some (map re (zip_with plus_j masked_x (halved masked_q)))
    /\ dict s' _pca_S_11
       = Some (map im (zip_with plus_j masked_x (halved masked_q)))
    /\ dict s' _pca_angles = Some (repeat (Fin 0) 16).
Proof.
  assert (Hx : SingleSweepStream.x
                 (CALC := Examples.calculate) (NP := Examples.numpy)
                 (DS := Examples.despike) Examples.sweep_stream
               = (Ok masked_x, deglitched_state))
    by (vm_compute; reflexivity).
  assert (Hready : series_ready deglitched_state masked_x masked_q)
    by (split; vm_compute; reflexivity).
  destruct (set_pca_decomposes_x_and_y
              (IQ := Examples.iqnoise) Examples.sweep_stream None tt tt true
              Hx Hready eq_refl eq_refl eq_refl)
    as [s' [Hrun [_ [Hf [H0 [H1 [Ha _]]]]]]].
  exists s'.
  exact (conj Hrun (conj Hf (conj H0 (conj H1 Ha)))).
Defined.

(** With four samples the chunk has [int(2 ** (2 - 3))] samples, which is
    none, where two to the power [floor(log2(4)) - 3] is one half. *)
Lemma set_pca_chunk_of_four_samples :
  size (RoachStream.s21_raw (stream Examples.short_sweep_stream)) = 4
  /\ choose_NFFT None Examples.short_sweep_stream
     = (Ok 0%Z, Examples.short_sweep_stream)
  /\ (Qpower 2 (Z.log2 4 - 3) == 1 # 2)%Q
  /\ fst (set_pca (CALC := Examples.calculate) (NP := Examples.numpy)
                  (DS := Examples.despike) (IQ := Examples.iqnoise)
                  None tt tt true Examples.short_sweep_stream)
     = Ok tt
  /\ dict (snd (set_pca (CALC := Examples.calculate) (NP := Examples.numpy)
                        (DS := Examples.despike) (IQ := Examples.iqnoise)
                        None tt tt true Examples.short_sweep_stream))
          _pca_S_frequency
     = Some (pca_fr (pca_noise (IQNoise := Examples.iqnoise)
                               [] 0%Z (Fin 1) tt tt true true)).
Proof. repeat split; vm_compute; reflexivity. Qed.

(** The fit of the default model to the sweep of three streams. *)
Definition fit_of_three : Examples.resonator :=
  {| Examples.res_model := 0%Z;
     Examples.res_frequency := [Fin 100; Fin 101; Fin 102];
     Examples.res_s21 :=
       [Complex (Fin (2 # 2)) (Fin (0 # 2)); Examples.z1;
        Complex (Fin (4 # 2)) (Fin (4 # 2))];
     Examples.res_errors :=
       [Complex (Fin (0 # 262144)) (Fin (0 # 262144));
        Complex (Fin 0) (Fin 0);
        Complex (Fin (0 # 262144)) (Fin (0 # 262144))];
     Examples.res_fitted := Some None |}.

(** C1 on the stream of sixteen samples, with chunks of eight samples and
    no binning: the spectra are those of the masked series. *)
Lemma pipeline_witness :
  exists s' : @t Examples.core Examples.lmfit,
    set_S (CALC := Examples.calculate) (NP := Examples.numpy)
          (DS := Examples.despike) (ML := Examples.mlab)
          (BN := Examples.binning)
          (Some 8%Z) tt tt None false 30%Z None tt Examples.sweep_stream
    = (Ok tt, s')
    /\ SingleSweep._resonator (sweep s') = Some fit_of_three
    /\ dict s' _stream_s21_normalized = Some Examples.sixteen
    /\ dict s' _x_raw = Some raw_x
    /\ dict s' _q_raw = Some raw_q
    /\ dict s' _x = Some masked_x
    /\ dict s' _q = Some masked_q
    /\ dict s' _S_frequency = Some [Fin (1 # 8); Fin (2 # 8); Fin (3 # 8)]
    /\ dict s' _S_xx = Some [Fin 1; Fin 4; Fin 9]
    /\ dict s' _S_qq = Some [Fin 4; Fin 4; Fin 4].
Proof.
  assert (Hfit : sweep_fit (CALC := Examples.calculate) (NP := Examples.numpy)
                           (sweep Examples.sweep_stream)
                 = Ok fit_of_three)
    by (vm_compute; reflexivity).
  assert (Hnz : chunk_of (Some 8%Z) Examples.sweep_stream <> 0%Z)
    by discriminate.
  destruct (pipeline_runs_in_order
              (DS := Examples.despike) (ML := Examples.mlab)
              (BN := Examples.binning)
              Examples.sweep_stream (Some 8%Z) tt tt None false 30%Z None tt
              (fun a => eq_refl) Hfit eq_refl eq_refl Hnz eq_refl)
    as [s' [Hrun [Hr [Hn [Hxr [Hqr [Hx [Hq [Hf [Hxx [Hqq _]]]]]]]]]]].
  exists s'.
  exact (conj Hrun (conj Hr (conj Hn (conj Hxr (conj Hqr (conj Hx (conj Hq
           (conj Hf (conj Hxx Hqq))))))))).
Defined.


End PipelineFacts.

(** * More properties of the SIM drivers *)

Module DriverFacts.
Import Sim SimFacts.

(** *** Modules behind a mainframe *)

(** What [receive] adds to the link: the mainframe's connect and disconnect
    commands, when there is a mainframe. *)
Definition brackets (self : SIM) : list string :=
  match parent self with
  | None => []
  | Some _ =>
      [(("CONN " ++ port self ++ ", " ++ dquote ++ escape ++ dquote) ++ termination)%string;
       (escape ++ termination)%string]
  end.

Lemma receive_idle (self : SIM) (w : World) :
  idle w -> receive self w = (Ok (next_reply w), wrote (consumed w) (brackets self)).
Proof.
  unfold idle, receive, brackets, wrote, consumed, next_reply. intros Hc.
  destruct w as [wr inc con]. simpl in Hc. subst con.
  destruct (parent self); simpl.
  - unfold connect, disconnect, SIM900_send, serial_write,
      serial_readline_strip, set_connected, bind, get, ret. simpl.
    destruct inc; simpl; rewrite <- !app_assoc; reflexivity.
  - unfold serial_readline_strip. simpl.
    destruct inc; simpl; rewrite app_nil_r; reflexivity.
Qed.

(** X1: a module's [send], [receive] and [send_and_receive] on an idle
    mainframe write the message between the mainframe's [CONN] and [ESCAPE]
    commands, read at most one line, and leave the mainframe idle. *)
Theorem idle_mainframe_stays_idle (self : SIM) (message : string) (w : World) :
  idle w ->
  send self message w = (Ok tt, wrote w (framed self message))
  /\ receive self w = (Ok (next_reply w), wrote (consumed w) (brackets self))
  /\ send_and_receive self message w
     = (Ok (next_reply w), wrote (consumed w) (framed self message))
  /\ idle (snd (send self message w))
  /\ idle (snd (receive self w))
  /\ idle (snd (send_and_receive self message w)).
Proof.
  intros Hi.
  rewrite (send_idle self message Hi), (receive_idle self Hi),
    (send_and_receive_idle self message Hi).
  repeat split; exact Hi.
Qed.

Lemma idle_mainframe_witness :
  send Examples.in_port_3 "*RST" Examples.quiet
  = (Ok tt, wrote Examples.quiet (framed Examples.in_port_3 "*RST"))
  /\ idle (snd (send_and_receive Examples.in_port_3 "*IDN?" Examples.quiet)).
Proof.
  destruct (@idle_mainframe_stays_idle Examples.in_port_3 "*RST" Examples.quiet
                                       eq_refl) as [Hs _].
  destruct (@idle_mainframe_stays_idle Examples.in_port_3 "*IDN?" Examples.quiet
                                       eq_refl) as [_ [_ [_ [_ [_ Hi]]]]].
  exact (conj Hs Hi).
Defined.

(** X2: while the mainframe is connected to a port, every call of a module
    behind it raises [ValueError] without writing or reading anything; the
    mainframe's [disconnect] writes the escape string and makes it idle
    again. *)
Theorem busy_mainframe_refuses (self : SIM) (m : SIM900) (p message : string)
        (w : World) :
  parent self = Some m ->
  connected w = Some p ->
  send self message w = (Raise ValueError, w)
  /\ receive self w = (Raise ValueError, w)
  /\ send_and_receive self message w = (Raise ValueError, w)
  /\ disconnect w
     = (Ok tt, {| written := written w ++ [(escape ++ termination)%string];
                  incoming := incoming w;
                  connected := None |}).
Proof.
  intros Hp Hc. repeat split.
  - exact (send_busy self message w Hp Hc).
  - unfold receive. rewrite Hp. unfold connect, bind, get. simpl.
    rewrite Hc. reflexivity.
  - unfold send_and_receive. rewrite Hp. unfold connect, bind, get. simpl.
    rewrite Hc. reflexivity.
Qed.

Definition stuck : World :=
  {| written := []; incoming := ["SRS"]; connected := Some "5" |}.

Lemma busy_mainframe_witness :
  send_and_receive Examples.in_port_3 "*IDN?" stuck = (Raise ValueError, stuck)
  /\ idle (snd (disconnect stuck)).
Proof.
  destruct (@busy_mainframe_refuses Examples.in_port_3 Mainframe "5" "*IDN?"
                                    stuck eq_refl eq_refl)
    as [_ [_ [Hsr Hd]]].
  split; [exact Hsr |]. rewrite Hd. reflexivity.
Defined.

(** *** The mainframe is left idle *)

(** A method keeps the mainframe idle when, started on an idle mainframe, it
    ends on one, whether it returns or raises. *)
Definition keeps_idle {A} (m : M World A) : Prop :=
  forall w, idle w -> idle (snd (m w)).

Lemma keeps_idle_ret {A} (a : A) : keeps_idle (ret a).
Proof. intros w Hi. exact Hi. Qed.

Lemma keeps_idle_raise {A} (e : exn) : keeps_idle (@raise World A e).
Proof. intros w Hi. exact Hi. Qed.

Lemma keeps_idle_lift {A} (r : result A) : keeps_idle (lift r).
Proof. intros w Hi. exact Hi. Qed.

Lemma keeps_idle_bind {A B} (m : M World A) (k : A -> M World B) :
  keeps_idle m -> (forall a, keeps_idle (k a)) -> keeps_idle (bind m k).
Proof.
  intros Hm Hk w Hi. unfold bind. specialize (Hm w Hi).
  destruct (m w) as [[a | e] w']; simpl in *.
  - apply Hk. exact Hm.
  - exact Hm.
Qed.

Lemma keeps_idle_send (self : SIM) (message : string) : keeps_idle (send self message).
Proof. intros w Hi. rewrite (send_idle self message Hi). exact Hi. Qed.

Lemma keeps_idle_send_and_receive (self : SIM) (message : string) :
  keeps_idle (send_and_receive self message).
Proof. intros w Hi. rewrite (send_and_receive_idle self message Hi). exact Hi. Qed.

Lemma keeps_idle_receive (self : SIM) : keeps_idle (receive self).
Proof. intros w Hi. rewrite (receive_idle self Hi). exact Hi. Qed.

Ltac idle_steps :=
  repeat first
    [ apply keeps_idle_bind; [| intros ?]
    | apply keeps_idle_ret
    | apply keeps_idle_raise
    | apply keeps_idle_lift
    | apply keeps_idle_send
    | apply keeps_idle_send_and_receive
    | apply keeps_idle_receive ].

Lemma keeps_idle_curve_info (self : SIMThermometer) (number : Z) :
  keeps_idle (curve_info self number).
Proof. unfold curve_info. idle_steps. Qed.

Lemma keeps_idle_read_points {FT : FloatText} (self : SIMThermometer) (number : Z)
      (ns : list nat) (acc : list float64 * list float64) :
  keeps_idle (read_points self number ns acc).
Proof.
  revert acc. induction ns as [| n ns IH]; intros acc; simpl.
  - apply keeps_idle_ret.
  - apply keeps_idle_bind; [| intros acc'; apply IH].
    unfold read_point. idle_steps.
Qed.

Lemma keeps_idle_read_curve {FT : FloatText} (self : SIMThermometer) (number : Z) :
  keeps_idle (read_curve self number).
Proof.
  unfold read_curve. apply keeps_idle_bind; [apply keeps_idle_curve_info |].
  intros [[format identification] points].
  apply keeps_idle_bind; [apply keeps_idle_read_points |].
  intros acc. apply keeps_idle_lift.
Qed.

Lemma keeps_idle_validate_curve {FT : FloatText} (self : SIMThermometer)
      (number : Z) (curve : CalibrationCurve) :
  keeps_idle (validate_curve self number curve).
Proof.
  unfold validate_curve. apply keeps_idle_bind; [apply keeps_idle_curve_info |].
  intros info. apply keeps_idle_bind; [apply keeps_idle_read_curve |].
  intros stored.
  destruct (curves_agree stored curve) as [b | e];
    [apply keeps_idle_ret |].
  destruct e; first [apply keeps_idle_ret | apply keeps_idle_raise].
Qed.

Lemma keeps_idle_write_curve {FT : FloatText} (self : SIMThermometer)
      (number : Z) (curve : CalibrationCurve) :
  List.length (sensor curve) = List.length (temperature curve) ->
  keeps_idle (write_curve self number curve).
Proof.
  intros Hlen w Hi.
  destruct (Nat.ltb_spec (maximum_temperature_points self)
                         (List.length (sensor curve))) as [Hlt | Hge].
  - rewrite (write_curve_too_many_points self number curve w Hlt). exact Hi.
  - rewrite (write_curve_then_validate self number curve Hge Hlen Hi).
    assert (Hv := @keeps_idle_validate_curve FT self number curve
                    (wrote w (curve_lines self number curve)) Hi).
    destruct (validate_curve self number curve _) as [[[|] | e] w']; exact Hv.
Qed.

(** X3: no method of a thermometer leaves the mainframe connected to a
    port: started on an idle mainframe, reading, validating and writing a
    curve and reading or setting the frequency end on an idle mainframe,
    whether they return or raise. *)
Theorem thermometer_keeps_the_mainframe_idle {FT : FloatText}
        (self : SIMThermometer) (number : Z) (curve : CalibrationCurve)
        (f : float64) (format identification : string) :
  List.length (sensor curve) = List.length (temperature curve) ->
  keeps_idle (curve_info self number)
  /\ keeps_idle (initialize_curve self number format identification)
  /\ keeps_idle (read_curve self number)
  /\ keeps_idle (validate_curve self number curve)
  /\ keeps_idle (write_curve self number curve)
  /\ keeps_idle (get_frequency self)
  /\ keeps_idle (set_frequency self f).
Proof.
  intros Hlen. repeat split.
  - apply keeps_idle_curve_info.
  - unfold initialize_curve. apply keeps_idle_send.
  - apply keeps_idle_read_curve.
  - apply keeps_idle_validate_curve.
  - apply keeps_idle_write_curve. exact Hlen.
  - unfold get_frequency. idle_steps.
  - unfold set_frequency.
    destruct (negb _); [apply keeps_idle_raise | apply keeps_idle_send].
Qed.

Lemma thermometer_idle_witness :
  idle (snd (write_curve (FT := Examples.fraction_text)
                         (SIM921 Examples.in_port_3) 1
                         Examples.one_point_curve Examples.point_dropped))
  /\ idle (snd (read_curve (FT := Examples.fraction_text)
                           (SIM921 Examples.in_port_3) 1 Examples.quiet)).
Proof.
  destruct (@thermometer_keeps_the_mainframe_idle
              Examples.fraction_text (SIM921 Examples.in_port_3) 1
              Examples.one_point_curve (Fin 10) "0" "X" eq_refl)
    as [_ [_ [Hr [_ [Hw _]]]]].
  split.
  - exact (Hw Examples.point_dropped eq_refl).
  - exact (Hr Examples.quiet eq_refl).
Defined.

(** *** Messages passed through by the mainframe *)

(** A string without a comma. *)
Fixpoint comma_free (s : string) : Prop :=
  match s with
  | EmptyString => True
  | String c s' => c <> ","%char /\ comma_free s'
  end.

Lemma split_once_comma_free (header content : string) :
  comma_free header ->
  split_once ","%char (header ++ String ","%char content) = [header; content].
Proof.
  induction header as [| c header IH]; simpl; intros Hfree.
  - reflexivity.
  - destruct Hfree as [Hc Hfree].
    destruct (Ascii.eqb_spec c ","%char) as [E | _]; [contradiction |].
    rewrite (IH Hfree). reflexivity.
Qed.

Lemma split_once_no_comma (s : string) :
  comma_free s -> split_once ","%char s = [s].
Proof.
  induction s as [| c s IH]; simpl; intros Hfree; [reflexivity |].
  destruct Hfree as [Hc Hfree].
  destruct (Ascii.eqb_spec c ","%char) as [E | _]; [contradiction |].
  rewrite (IH Hfree). reflexivity.
Qed.

Lemma last_char_append (header : string) (c : ascii) :
  last_char (header ++ String c EmptyString) = Ok (String c EmptyString).
Proof.
  induction header as [| d header IH]; [reflexivity |].
  simpl. rewrite IH.
  destruct (header ++ String c EmptyString)%string eqn:E; [| reflexivity].
  destruct header; discriminate E.
Qed.

(** X4: [parse_message] splits at the first comma only: it returns the
    last character before that comma as the port and everything after it,
    further commas included, as the message.  A message without a comma
    raises [ValueError], and one that starts with a comma [IndexError]. *)
Theorem parse_message_splits_at_the_first_comma :
  (forall (header : string) (c : ascii) (content : string),
      comma_free header -> c <> ","%char ->
      parse_message ((header ++ String c EmptyString) ++ String ","%char content)
      = Ok (String c EmptyString, content))
  /\ (forall message, comma_free message -> parse_message message = Raise ValueError)
  /\ (forall content, parse_message (String ","%char content) = Raise IndexError).
Proof.
  split; [| split].
  - intros header c content Hfree Hc. unfold parse_message.
    rewrite split_once_comma_free.
    + rewrite last_char_append. reflexivity.
    + clear content. induction header as [| d header IH]; simpl.
      * split; [exact Hc | exact I].
      * destruct Hfree as [Hd Hfree]. split; [exact Hd | exact (IH Hfree)].
  - intros message Hfree. unfold parse_message.
    rewrite (split_once_no_comma _ Hfree). reflexivity.
  - intros content. reflexivity.
Qed.

Lemma parse_message_witness :
  parse_message "MSG 3,Stanford_Research_Systems,SIM921,s/n1,ver2"
  = Ok ("3", "Stanford_Research_Systems,SIM921,s/n1,ver2")
  /\ parse_message "MSG 3" = Raise ValueError.
Proof.
  destruct parse_message_splits_at_the_first_comma as [Hsplit [Hnone _]].
  split.
  - apply (Hsplit "MSG " "3"%char "Stanford_Research_Systems,SIM921,s/n1,ver2").
    + simpl. repeat split; discriminate.
    + discriminate.
  - apply Hnone. simpl. repeat split; discriminate.
Defined.

(** The decimal digit [d] as a character. *)
Definition digit (d : nat) : ascii := ascii_of_nat (48 + d).

Lemma py_int_digit (d : nat) :
  d < 10 -> py_int (String (digit d) EmptyString) = Some (Z.of_nat d).
Proof.
  intros Hd. do 10 (destruct d as [| d]; [reflexivity |]). lia.
Qed.

Lemma py_int_not_a_digit (c : ascii) :
  (forall d, d < 10 -> c <> digit d) -> py_int (String c EmptyString) = None.
Proof.
  intros Hnot.
  destruct (py_int (String c EmptyString)) eqn:E; [| reflexivity].
  exfalso.
  destruct c as [[] [] [] [] [] [] [] []]; try discriminate E;
    first [ exact (Hnot 0 ltac:(lia) eq_refl) | exact (Hnot 1 ltac:(lia) eq_refl)
          | exact (Hnot 2 ltac:(lia) eq_refl) | exact (Hnot 3 ltac:(lia) eq_refl)
          | exact (Hnot 4 ltac:(lia) eq_refl) | exact (Hnot 5 ltac:(lia) eq_refl)
          | exact (Hnot 6 ltac:(lia) eq_refl) | exact (Hnot 7 ltac:(lia) eq_refl)
          | exact (Hnot 8 ltac:(lia) eq_refl) | exact (Hnot 9 ltac:(lia) eq_refl) ].
Qed.

Lemma drop_append (a b : string) : drop (String.length a) (a ++ b) = b.
Proof. induction a as [| c a IH]; [destruct b; reflexivity | exact IH]. Qed.

(** X5: [parse_definite_length] reads the second character as the number
    of length digits and returns what follows them: for a block made of any
    first character, a digit [d], [d] more characters and the data, it
    returns the data.  A message of fewer than two characters raises
    [IndexError], and one whose second character is no digit [ValueError]. *)
Theorem parse_definite_length_returns_the_data :
  (forall (c : ascii) (d : nat) (digits data : string),
      d < 10 -> String.length digits = d ->
      parse_definite_length (String c (String (digit d) (digits ++ data)))
      = Ok data)
  /\ parse_definite_length "" = Raise IndexError
  /\ (forall c, parse_definite_length (String c "") = Raise IndexError)
  /\ (forall (c x : ascii) (rest : string),
         (forall d, d < 10 -> x <> digit d) ->
         parse_definite_length (String c (String x rest)) = Raise ValueError).
Proof.
  repeat split.
  - intros c d digits data Hd Hlen. unfold parse_definite_length.
    cbn [String.get]. rewrite (py_int_digit Hd). rewrite Nat2Z.id.
    cbn [drop Nat.add]. rewrite <- Hlen. rewrite drop_append. reflexivity.
  - intros c x rest Hnot. unfold parse_definite_length. cbn [String.get].
    rewrite (py_int_not_a_digit Hnot). reflexivity.
Qed.

Lemma parse_definite_length_witness :
  parse_definite_length "#213SRS,SIM921,s/n" = Ok "SRS,SIM921,s/n"
  /\ parse_definite_length "#x" = Raise ValueError.
Proof.
  destruct parse_definite_length_returns_the_data as [Hdata [_ [_ Hbad]]].
  split.
  - exact (Hdata "#"%char 2 "13" "SRS,SIM921,s/n" ltac:(lia) eq_refl).
  - apply Hbad. intros d Hd.
    do 10 (destruct d as [| d]; [discriminate |]). lia.
Defined.

(** *** Commands that are checked before they are sent *)

(** What the mainframe's own [send] writes. *)
Lemma SIM900_send_run (message : string) (w : World) :
  SIM900_send message w = (Ok tt, wrote w [(message ++ termination)%string]).
Proof. reflexivity. Qed.

Lemma small_port (n : Z) :
  (1 <= n <= 8)%Z ->
  n = 1%Z \/ n = 2%Z \/ n = 3%Z \/ n = 4%Z \/ n = 5%Z \/ n = 6%Z
  \/ n = 7%Z \/ n = 8%Z.
Proof. lia. Qed.

(** X6: for the ports 1 to 8, [flush(port)] writes what [SIM_reset(port)]
    writes, the command [SRST port], and not [FLSH]; [flush] also takes the
    ports 9 and A to D, which [SIM_reset] refuses; without a port they write
    [FLSH] and [SRST]. *)
Theorem flush_of_a_port_resets_it :
  (forall (n : Z) (w : World),
      (1 <= n <= 8)%Z ->
      flush ports (Some (VInt n)) w
      = (Ok tt, wrote w [(("SRST " ++ str_int n) ++ termination)%string])
      /\ SIM_reset (Some n) w = flush ports (Some (VInt n)) w)
  /\ (forall w, flush ports (Some (VInt 9)) w
                = (Ok tt, wrote w [("SRST 9" ++ termination)%string])
                /\ SIM_reset (Some 9%Z) w = (Raise ValueError, w))
  /\ (forall w, flush ports (Some (VStr "A")) w
                = (Ok tt, wrote w [("SRST A" ++ termination)%string]))
  /\ (forall w, flush ports (Some (VStr "a")) w = (Raise ValueError, w))
  /\ (forall w, flush ports None w
                = (Ok tt, wrote w [("FLSH" ++ termination)%string]))
  /\ (forall w, SIM_reset None w
                = (Ok tt, wrote w [("SRST" ++ termination)%string])).
Proof.
  split; [| repeat split].
  intros n w Hn.
  destruct (small_port Hn) as [-> | [-> | [-> | [-> | [-> | [-> | [-> | ->]]]]]]];
    split; reflexivity.
Qed.

Lemma flush_witness :
  flush ports (Some (VInt 3)) Examples.quiet
  = (Ok tt, wrote Examples.quiet [("SRST 3" ++ termination)%string])
  /\ SIM_reset (Some 3%Z) Examples.quiet
     = flush ports (Some (VInt 3)) Examples.quiet.
Proof.
  destruct flush_of_a_port_resets_it as [Hport _].
  exact (Hport 3%Z Examples.quiet ltac:(lia)).
Defined.

(** A setter of a SIM921 that takes the integer codes from [low] through
    [high]: it
    sends the command with the code, and raises [ValueError] for any other
    code before it writes anything. *)
Definition takes_codes (setter : SIMThermometer -> Z -> M World unit)
           (command : string) (low high : Z) : Prop :=
  forall (s : SIM) (code : Z) (w : World),
    ((low <= code <= high)%Z ->
     idle w ->
     setter (SIM921 s) code w
     = (Ok tt, wrote w (framed s (command ++ " " ++ str_int code))))
    /\ (~ (low <= code <= high)%Z ->
        setter (SIM921 s) code w = (Raise ValueError, w)).

Lemma in_range_of_spec (low high x : Z) :
  in_range_of low (high + 1) x = true <-> (low <= x <= high)%Z.
Proof.
  unfold in_range_of. rewrite andb_true_iff, Z.leb_le, Z.ltb_lt. lia.
Qed.

Ltac code_setter low high :=
  let self := fresh "self" in
  let code := fresh "code" in
  let w := fresh "w" in
  let H := fresh "H" in
  let Hi := fresh "Hi" in
  intros self code w; split;
  [ intros H Hi;
    apply (in_range_of_spec low high code) in H; simpl in H;
    cbv beta delta [set_range set_excitation set_display set_time_constant];
    rewrite H; simpl negb; cbv iota;
    apply send_idle; exact Hi
  | intros H;
    cbv beta delta [set_range set_excitation set_display set_time_constant];
    destruct (in_range_of _ _ code) eqn:E; [| reflexivity];
    exfalso; apply H; apply (in_range_of_spec low high code); exact E ].

(** X7: the four SIM921 setters with integer codes accept exactly the codes
    that their error messages name, 0 through 9 for the range, -1 through 8
    for the excitation, 0 through 8 for the display and -1 through 6 for
    the time constant, and write nothing for any other code. *)
Theorem integer_codes_are_checked :
  takes_codes set_range "RANG" 0 9
  /\ takes_codes set_excitation "EXCI" (-1) 8
  /\ takes_codes set_display "DISP" 0 8
  /\ takes_codes set_time_constant "TCON" (-1) 6.
Proof.
  split; [| split; [| split]].
  - code_setter 0%Z 9%Z.
  - code_setter (-1)%Z 8%Z.
  - code_setter 0%Z 8%Z.
  - code_setter (-1)%Z 6%Z.
Qed.

Lemma integer_codes_witness :
  set_range (SIM921 Examples.direct) 9 Examples.quiet
  = (Ok tt, wrote Examples.quiet [("RANG 9" ++ termination)%string])
  /\ set_range (SIM921 Examples.direct) 10 Examples.quiet
     = (Raise ValueError, Examples.quiet)
  /\ set_time_constant (SIM921 Examples.direct) (-1) Examples.quiet
     = (Ok tt, wrote Examples.quiet [("TCON -1" ++ termination)%string]).
Proof.
  destruct integer_codes_are_checked as [Hrange [_ [_ Htime]]].
  split; [| split].
  - exact (proj1 (Hrange Examples.direct 9%Z Examples.quiet)
                 ltac:(lia) eq_refl).
  - exact (proj2 (Hrange Examples.direct 10%Z Examples.quiet)
                 ltac:(lia)).
  - exact (proj1 (Htime Examples.direct (-1)%Z Examples.quiet)
                 ltac:(lia) eq_refl).
Defined.

(** A setter that takes the values whose [str(v).upper()] is one of
    [names]: it sends the command with the value as it was given, and raises
    [ValueError] for any other value before it writes anything. *)
Definition takes_names (setter : value -> M World unit) (self : SIM)
           (command : string) (names : list string) : Prop :=
  forall (v : value) (w : World),
    (member (upper (str v)) names = true ->
     idle w ->
     setter v w = (Ok tt, wrote w (framed self (command ++ " " ++ str v))))
    /\ (member (upper (str v)) names = false ->
        setter v w = (Raise ValueError, w)).

Ltac name_setter :=
  let v := fresh "v" in
  let w := fresh "w" in
  let H := fresh "H" in
  let Hi := fresh "Hi" in
  intros v w; split;
  [ intros H Hi;
    cbv beta delta [set_token set_excitation_state set_excitation_mode
                    set_phase_hold set_display_temperature
                    set_analog_output_temperature set_autorange_gain
                    set_autorange_display];
    rewrite H; simpl negb; cbv iota;
    apply send_idle; exact Hi
  | intros H;
    cbv beta delta [set_token set_excitation_state set_excitation_mode
                    set_phase_hold set_display_temperature
                    set_analog_output_temperature set_autorange_gain
                    set_autorange_display];
    rewrite H; reflexivity ].

(** What [str] gives for an integer is in upper case already, and [int]
    reads it back. *)
Lemma upper_digits (u : Decimal.uint) :
  upper (NilEmpty.string_of_uint u) = NilEmpty.string_of_uint u.
Proof.
  induction u; cbn [NilEmpty.string_of_uint upper];
    [reflexivity | rewrite IHu; reflexivity ..].
Qed.

Lemma upper_str_int (z : Z) : upper (str_int z) = str_int z.
Proof.
  unfold str_int, NilZero.string_of_int, NilZero.string_of_uint.
  destruct (Z.to_int z) as [u | u]; destruct u;
    first [ reflexivity
          | apply upper_digits
          | cbn [upper]; f_equal; apply upper_digits ].
Qed.

Lemma py_int_str_int (z : Z) : py_int (str_int z) = Some z.
Proof.
  unfold py_int, str_int.
  assert (H : forall d, option_map Z.of_int
                          (NilZero.int_of_string (NilZero.string_of_int d))
                        = Some (Z.of_int d)).
  { intros [u | u].
    - destruct u; [reflexivity | rewrite NilZero.isi by discriminate; reflexivity ..].
    - destruct u; [reflexivity | rewrite NilZero.isi by discriminate; reflexivity ..]. }
  rewrite H, DecimalZ.of_to. reflexivity.
Qed.

Lemma integer_token (z : Z) :
  member (upper (str (VInt z))) boolean_tokens = true <-> (z = 0 \/ z = 1)%Z.
Proof.
  cbn [str]. rewrite upper_str_int. split.
  - intros H. unfold member, boolean_tokens in H. cbn [existsb] in H.
    assert (Hread := py_int_str_int z).
    repeat (apply orb_true_iff in H; destruct H as [H | H]);
      try discriminate H;
      apply String.eqb_eq in H; rewrite H in Hread;
      vm_compute in Hread; first [discriminate Hread | injection Hread as <-];
      auto.
  - intros [-> | ->]; reflexivity.
Qed.

(** X8: the setters of the on/off properties of a SIM921, and of [token],
    take the values whose [str(v).upper()] is [OFF], [0], [ON] or [1]: of
    the integers 0 and 1 only, and neither [True] nor [False]; they send the
    value as it was given, and write nothing for a value they refuse.  The
    setter of [analog_output_temperature] sends the command [A], where its
    getter asks [ATEM?]. *)
Theorem on_off_values_are_checked (s : SIM) :
  takes_names (set_token s) s "TOKN" boolean_tokens
  /\ takes_names (set_excitation_state (SIM921 s)) s "EXON" boolean_tokens
  /\ takes_names (set_phase_hold (SIM921 s)) s "PHLD" boolean_tokens
  /\ takes_names (set_display_temperature (SIM921 s)) s "DTEM" boolean_tokens
  /\ takes_names (set_analog_output_temperature (SIM921 s)) s "A"
                 boolean_tokens
  /\ takes_names (set_autorange_gain (SIM921 s)) s "AGAI" boolean_tokens
  /\ takes_names (set_autorange_display (SIM921 s)) s "ADIS" boolean_tokens
  /\ takes_names (set_excitation_mode (SIM921 s)) s "MODE" excitation_modes
  /\ (forall w, get_analog_output_temperature (SIM921 s) w
                = send_and_receive s "ATEM?" w)
  /\ (forall z, member (upper (str (VInt z))) boolean_tokens = true
                <-> (z = 0 \/ z = 1)%Z)
  /\ (forall b, member (upper (str (VBool b))) boolean_tokens = false).
Proof.
  split; [name_setter |].
  split; [name_setter |].
  split; [name_setter |].
  split; [name_setter |].
  split; [name_setter |].
  split; [name_setter |].
  split; [name_setter |].
  split; [name_setter |].
  split; [reflexivity |].
  split; [exact integer_token |].
  intros [|]; reflexivity.
Qed.

Lemma on_off_values_witness :
  set_phase_hold (SIM921 Examples.direct) (VStr "on") Examples.quiet
  = (Ok tt, wrote Examples.quiet [("PHLD on" ++ termination)%string])
  /\ set_phase_hold (SIM921 Examples.direct) (VBool true) Examples.quiet
     = (Raise ValueError, Examples.quiet)
  /\ set_analog_output_temperature (SIM921 Examples.direct) (VInt 1)
                                   Examples.quiet
     = (Ok tt, wrote Examples.quiet [("A 1" ++ termination)%string]).
Proof.
  destruct (on_off_values_are_checked Examples.direct)
    as [_ [_ [Hhold [_ [Hanalog _]]]]].
  split; [| split].
  - exact (proj1 (Hhold (VStr "on") Examples.quiet) eq_refl eq_refl).
  - exact (proj2 (Hhold (VBool true) Examples.quiet) eq_refl).
  - exact (proj1 (Hanalog (VInt 1) Examples.quiet) eq_refl eq_refl).
Defined.

Lemma integer_curve (z : Z) :
  member (str (VInt z)) ["1"; "2"; "3"] = true <-> (1 <= z <= 3)%Z.
Proof.
  cbn [str]. split.
  - intros H. unfold member in H. cbn [existsb] in H.
    assert (Hread := py_int_str_int z).
    repeat (apply orb_true_iff in H; destruct H as [H | H]);
      try discriminate H;
      apply String.eqb_eq in H; rewrite H in Hread;
      vm_compute in Hread; injection Hread as <-; lia.
  - intros H.
    assert (E : (z = 1 \/ z = 2 \/ z = 3)%Z) by lia.
    destruct E as [-> | [-> | ->]]; reflexivity.
Qed.

(** X25: the setter of [active_curve] of a SIM921 takes exactly the values
    whose [str] is [1], [2] or [3], so the integers 1 to 3 and no other
    integer, and sends [CURV] with the value; [set_curve_type] of a SIM922
    checks the curve type, which is [0], [STAN], [1] or [USER] in any case,
    and sends it with the channel, which it does not check.  A refused
    value raises [ValueError] and nothing is written. *)
Theorem curve_selection_is_checked (s : SIM) :
  (forall (number : value) (w : World),
      (member (str number) ["1"; "2"; "3"] = true ->
       idle w ->
       set_active_curve (SIM921 s) number w
       = (Ok tt, wrote w (framed s ("CURV " ++ str number))))
      /\ (member (str number) ["1"; "2"; "3"] = false ->
          set_active_curve (SIM921 s) number w = (Raise ValueError, w)))
  /\ (forall z, member (str (VInt z)) ["1"; "2"; "3"] = true <-> (1 <= z <= 3)%Z)
  /\ (forall (channel curve_type : value) (w : World),
         (member (upper (str curve_type)) ["0"; "STAN"; "1"; "USER"] = true ->
          idle w ->
          set_curve_type (SIM922 s) channel curve_type w
          = (Ok tt,
             wrote w (framed s ("CURV " ++ str channel ++ ", " ++ str curve_type))))
         /\ (member (upper (str curve_type)) ["0"; "STAN"; "1"; "USER"] = false ->
             set_curve_type (SIM922 s) channel curve_type w
             = (Raise ValueError, w))).
Proof.
  split; [| split; [exact integer_curve |]].
  - intros number w. unfold set_active_curve. split.
    + intros H Hi. rewrite H. cbn [negb]. apply send_idle. exact Hi.
    + intros H. rewrite H. reflexivity.
  - intros channel curve_type w. unfold set_curve_type. split.
    + intros H Hi. rewrite H. cbn [negb]. apply send_idle. exact Hi.
    + intros H. rewrite H. reflexivity.
Qed.

Lemma curve_selection_witness :
  set_active_curve (SIM921 Examples.direct) (VInt 2) Examples.quiet
  = (Ok tt, wrote Examples.quiet [("CURV 2" ++ termination)%string])
  /\ set_active_curve (SIM921 Examples.direct) (VInt 4) Examples.quiet
     = (Raise ValueError, Examples.quiet)
  /\ set_curve_type (SIM922 Examples.direct) (VInt 7) (VStr "user")
                    Examples.quiet
     = (Ok tt, wrote Examples.quiet [("CURV 7, user" ++ termination)%string]).
Proof.
  destruct (curve_selection_is_checked Examples.direct) as [Hactive [_ Htype]].
  split; [| split].
  - exact (proj1 (Hactive (VInt 2) Examples.quiet) eq_refl eq_refl).
  - exact (proj2 (Hactive (VInt 4) Examples.quiet) eq_refl).
  - exact (proj1 (Htype (VInt 7) (VStr "user") Examples.quiet) eq_refl eq_refl).
Defined.

(** *** Calibration curves *)

(** No two neighbours of a list of numbers are equal. *)
Fixpoint neighbours_differ (qs : list Q) : Prop :=
  match qs with
  | a :: (b :: _) as rest => ~ (a == b)%Q /\ neighbours_differ rest
  | _ => True
  end.

Lemma truthy_difference (a b : Q) :
  truthy (Float.sub (Fin b) (Fin a)) = true <-> ~ (a == b)%Q.
Proof.
  unfold truthy, Float.sub, Float.add, Float.opp, Qzerob.
  rewrite negb_true_iff. split.
  - intros E Hab. apply not_true_iff_false in E. apply E.
    apply Qeq_bool_iff. rewrite Hab. ring.
  - intros Hab. apply not_true_iff_false. intros E.
    apply Qeq_bool_iff in E. apply Hab.
    assert (H : (b == a)%Q).
    { setoid_replace b with (b + - a + a)%Q by ring. rewrite E. ring. }
    symmetry. exact H.
Qed.

Lemma all_differences_truthy (qs : list Q) :
  forallb truthy (np_diff (map Fin qs)) = true <-> neighbours_differ qs.
Proof.
  induction qs as [| a rest IH]; [simpl; tauto |].
  destruct rest as [| b rest]; [simpl; tauto |].
  change (np_diff (map Fin (a :: b :: rest)))
      with (Float.sub (Fin b) (Fin a) :: np_diff (map Fin (b :: rest))).
  cbn [forallb neighbours_differ]. rewrite andb_true_iff, truthy_difference, IH.
  tauto.
Qed.

(** The curve that [CalibrationCurve] builds when it accepts its data. *)
Definition curve_of (qs : list Q) (temperature : list float64)
           (identification format : string) : CalibrationCurve :=
  {| sensor := map Fin qs;
     temperature := temperature;
     identification := upper identification;
     format := format |}.

(** X9: [CalibrationCurve] accepts finite sensor values whenever no two
    neighbours are equal and there are as many temperatures, so it accepts
    values that decrease or that go up and down as well as values that
    increase; it raises [ValueError] when two neighbours are equal or when
    the numbers of sensor and temperature values differ. *)
Theorem curve_needs_distinct_neighbours
        (qs : list Q) (temperature : list float64)
        (identification format : string) :
  (neighbours_differ qs ->
   List.length qs = List.length temperature ->
   new_CalibrationCurve (map Fin qs) temperature identification format
   = Ok (curve_of qs temperature identification format))
  /\ (~ neighbours_differ qs ->
      new_CalibrationCurve (map Fin qs) temperature identification format
      = Raise ValueError)
  /\ (List.length qs <> List.length temperature ->
      new_CalibrationCurve (map Fin qs) temperature identification format
      = Raise ValueError).
Proof.
  unfold new_CalibrationCurve. rewrite length_map.
  split; [| split].
  - intros Hd Hlen. apply all_differences_truthy in Hd. rewrite Hd.
    rewrite Hlen, Nat.eqb_refl. reflexivity.
  - intros Hd.
    destruct (forallb truthy (np_diff (map Fin qs))) eqn:E; [| reflexivity].
    exfalso. apply Hd. apply all_differences_truthy. exact E.
  - intros Hlen.
    destruct (forallb truthy (np_diff (map Fin qs))); [| reflexivity].
    destruct (Nat.eqb_spec (List.length qs) (List.length temperature));
      [contradiction | reflexivity].
Qed.

Lemma curve_witness :
  new_CalibrationCurve (map Fin [3; 1; 2]%Q) [Fin 4; Fin 5; Fin 6] "x" "0"
  = Ok (curve_of [3; 1; 2]%Q [Fin 4; Fin 5; Fin 6] "x" "0")
  /\ new_CalibrationCurve (map Fin [1; 2; 2]%Q) [Fin 4; Fin 5; Fin 6] "x" "0"
     = Raise ValueError.
Proof.
  split.
  - apply (proj1 (curve_needs_distinct_neighbours
                    [3; 1; 2]%Q [Fin 4; Fin 5; Fin 6] "x" "0")).
    + simpl. repeat split; discriminate.
    + reflexivity.
  - apply (proj1 (proj2 (curve_needs_distinct_neighbours
                           [1; 2; 2]%Q [Fin 4; Fin 5; Fin 6] "x" "0"))).
    simpl. intros [_ [H _]]. apply H. reflexivity.
Defined.

Lemma upper_char_idempotent (c : ascii) : upper_char (upper_char c) = upper_char c.
Proof. destruct c as [[] [] [] [] [] [] [] []]; reflexivity. Qed.

Lemma upper_idempotent (s : string) : upper (upper s) = upper s.
Proof.
  induction s as [| c s IH]; [reflexivity |].
  simpl. rewrite upper_char_idempotent, IH. reflexivity.
Qed.

(** X10: a curve that [CalibrationCurve] has built is what
    [CalibrationCurve] builds again from its four attributes: the
    identification is in upper case already and the data pass the same
    checks. *)
Theorem curve_rebuilt_from_its_attributes
        (sensor temperature : list float64) (identification format : string)
        (curve : CalibrationCurve) :
  new_CalibrationCurve sensor temperature identification format = Ok curve ->
  new_CalibrationCurve (Sim.sensor curve) (Sim.temperature curve)
                       (Sim.identification curve) (Sim.format curve)
  = Ok curve.
Proof.
  unfold new_CalibrationCurve.
  destruct (forallb truthy (np_diff sensor)) eqn:Ed; [| discriminate].
  destruct (Nat.eqb (List.length sensor) (List.length temperature)) eqn:El;
    [| discriminate].
  simpl. intros E. injection E as <-. simpl.
  rewrite Ed, El, upper_idempotent. reflexivity.
Qed.

Lemma curve_rebuilt_witness :
  new_CalibrationCurve (sensor Examples.one_point_curve)
                       (temperature Examples.one_point_curve)
                       (identification Examples.one_point_curve)
                       (format Examples.one_point_curve)
  = Ok Examples.one_point_curve.
Proof.
  exact (@curve_rebuilt_from_its_attributes [Fin 100] [Fin 4] "x" "0"
           Examples.one_point_curve one_point_curve_constructed).
Defined.

(** *** Reading a curve *)

Section ReadCurve.

Context {FT : FloatText}.
Variable self : SIMThermometer.
Variable number : Z.

(** The reply to a [CAPT?] query holds the sensor value [x] and the
    temperature [y]: its first two fields, split at the separator of the
    instrument, are read by [float] as [x] and [y]. *)
Definition point_reply (line : string) (point : float64 * float64) : Prop :=
  exists (s t : string) (more : list string),
    split (CAPT_separator self) line = s :: t :: more
    /\ py_float s = Some (fst point)
    /\ py_float t = Some (snd point).

(** The queries that [read_curve] writes: one for the curve and one for
    each point, numbered from [first]. *)
Definition point_query (n : nat) : list string :=
  framed (sim self) ("CAPT? " ++ str_int number ++ ", " ++ str_int (Z.of_nat n)).

Definition point_queries (first count : nat) : list string :=
  flat_map point_query (seq first count).

(** The link after [out] was written and the replies before [rest] were
    read. *)
Definition exchanged (w : World) (out rest : list string) : World :=
  {| written := written w ++ out; incoming := rest; connected := connected w |}.

Lemma read_point_run (n : nat) (acc : list float64 * list float64)
      (line : string) (point : float64 * float64) (rest : list string) (w : World) :
  idle w ->
  incoming w = line :: rest ->
  point_reply line point ->
  read_point self number n acc w
  = (Ok (fst point :: fst acc, snd point :: snd acc),
     exchanged w (point_query n) rest).
Proof.
  intros Hi Hin [s [t [more [Hs [Hx Hy]]]]].
  unfold read_point. unfold bind at 1.
  rewrite (send_and_receive_idle _ _ Hi).
  unfold next_reply. rewrite Hin. rewrite Hs.
  unfold bind, lift, getitem, parse_float, ret. cbn [nth_error].
  rewrite Hx, Hy.
  unfold exchanged, wrote, consumed, point_query. cbn [written incoming connected].
  rewrite Hin. reflexivity.
Qed.

Lemma read_points_run (lines : list string) :
  forall (points : list (float64 * float64)) (first : nat)
         (acc : list float64 * list float64) (rest : list string) (w : World),
    idle w ->
    incoming w = lines ++ rest ->
    Forall2 point_reply lines points ->
    read_points self number (seq first (List.length lines)) acc w
    = (Ok (rev (map fst points) ++ fst acc, rev (map snd points) ++ snd acc),
       exchanged w (point_queries first (List.length lines)) rest).
Proof.
  induction lines as [| line lines IH];
    intros points first acc rest w Hi Hin Hall.
  - inversion Hall; subst. simpl. unfold ret, exchanged, point_queries.
    simpl. rewrite app_nil_r. simpl in Hin. rewrite <- Hin.
    rewrite world_eta. destruct acc; reflexivity.
  - inversion Hall as [| l p ls ps Hp Hps]; subst.
    cbn [List.length seq read_points]. unfold bind at 1.
    rewrite (@read_point_run first acc line p (lines ++ rest) w Hi Hin Hp).
    rewrite (IH ps (S first) _ rest (exchanged w (point_query first) (lines ++ rest)));
      [| exact Hi | reflexivity | exact Hps].
    cbn [fst snd map rev]. rewrite <- !app_assoc. cbn [app].
    unfold exchanged, point_queries. cbn [written incoming connected seq flat_map].
    rewrite <- app_assoc. reflexivity.
Qed.

(** X11: when the instrument answers the [CINI?] query with a format, an
    identification and a number of points, and then each [CAPT?] query with
    the two values of a point, [read_curve] asks for the points 1 to that
    number in order, reads exactly those replies, and returns the curve that
    [CalibrationCurve] builds from the values, the identification and the
    format. *)
Theorem read_curve_reads_every_point
        (w : World) (info format identification field : string)
        (more lines rest : list string) (points : list (float64 * float64)) :
  idle w ->
  incoming w = info :: lines ++ rest ->
  split ","%char info = format :: identification :: field :: more ->
  py_int field = Some (Z.of_nat (List.length lines)) ->
  Forall2 point_reply lines points ->
  read_curve self number w
  = (new_CalibrationCurve (map fst points) (map snd points) identification format,
     exchanged w (framed (sim self) ("CINI? " ++ str_int number)
                  ++ point_queries 1 (List.length lines))
               rest).
Proof.
  intros Hi Hin Hinfo Hfield Hall.
  unfold read_curve. unfold bind at 1. unfold curve_info. unfold bind at 1.
  rewrite (send_and_receive_idle _ _ Hi).
  unfold next_reply. rewrite Hin. rewrite Hinfo.
  unfold bind, lift, getitem, parse_int, ret. cbn [nth_error].
  rewrite Hfield. unfold range1. rewrite Nat2Z.id.
  set (w1 := wrote (consumed w) _).
  assert (Hrun := @read_points_run lines points 1 ([], []) rest w1 Hi).
  rewrite Hrun; [| unfold w1, wrote, consumed; cbn [incoming]; rewrite Hin; reflexivity
                 | exact Hall].
  cbn [fst snd]. rewrite !app_nil_r, !rev_involutive.
  unfold w1, exchanged, wrote, consumed. cbn [written incoming connected].
  rewrite <- app_assoc. reflexivity.
Qed.

(** X12: when the instrument does not answer, so that the read times out
    with an empty line, [curve_info], [read_curve] and [validate_curve]
    raise [IndexError] after writing the one [CINI?] query; [validate_curve]
    does not return [False]. *)
Theorem silent_instrument_raises_IndexError
        (curve : CalibrationCurve) (w : World) :
  idle w ->
  incoming w = [] ->
  let asked := wrote w (framed (sim self) ("CINI? " ++ str_int number)) in
  curve_info self number w = (Raise IndexError, asked)
  /\ read_curve self number w = (Raise IndexError, asked)
  /\ validate_curve self number curve w = (Raise IndexError, asked).
Proof.
  intros Hi Hin asked.
  assert (Hinfo : curve_info self number w = (Raise IndexError, asked)).
  { unfold curve_info. unfold bind at 1.
    rewrite (send_and_receive_idle _ _ Hi).
    unfold next_reply. rewrite Hin. cbn.
    unfold asked, wrote, consumed. cbn. rewrite Hin. reflexivity. }
  split; [exact Hinfo | split].
  - unfold read_curve, bind. rewrite Hinfo. reflexivity.
  - unfold validate_curve, bind. rewrite Hinfo. reflexivity.
Qed.

End ReadCurve.

(** A link on which the instrument holds a curve of two points. *)
Definition two_points_stored : World :=
  {| written := []; incoming := ["0,X,2"; "100,4"; "200,5"; "later"];
     connected := None |}.

Lemma read_curve_witness :
  read_curve (FT := Examples.fraction_text) (SIM921 Examples.direct) 1
             two_points_stored
  = (Ok {| sensor := [Fin 100; Fin 200];
           temperature := [Fin 4; Fin 5];
           identification := "X";
           format := "0" |},
     {| written := [("CINI? 1" ++ termination)%string;
                    ("CAPT? 1, 1" ++ termination)%string;
                    ("CAPT? 1, 2" ++ termination)%string];
        incoming := ["later"];
        connected := None |}).
Proof.
  apply (@read_curve_reads_every_point
           Examples.fraction_text (SIM921 Examples.direct) 1 two_points_stored
           "0,X,2" "0" "X" "2" [] ["100,4"; "200,5"] ["later"]
           [(Fin 100, Fin 4); (Fin 200, Fin 5)]).
  - reflexivity.
  - reflexivity.
  - reflexivity.
  - reflexivity.
  - constructor; [exists "100", "4", []; repeat split |].
    constructor; [exists "200", "5", []; repeat split |].
    constructor.
Defined.

Lemma silent_instrument_witness :
  validate_curve (FT := Examples.fraction_text) (SIM921 Examples.direct) 1
                 Examples.one_point_curve Examples.quiet
  = (Raise IndexError,
     wrote Examples.quiet [("CINI? 1" ++ termination)%string]).
Proof.
  exact (proj2 (proj2 (@silent_instrument_raises_IndexError
                         Examples.fraction_text (SIM921 Examples.direct) 1
                         Examples.one_point_curve Examples.quiet
                         eq_refl eq_refl))).
Defined.

End DriverFacts.

(** * More properties of the measurement classes *)

Module MeasurementFacts.
Import StreamFacts.

Section Streams.

Context {CORE : Core} {CALC : Calculate} {NP : NumPy}.

(** *** Sample times *)

Lemma strictly_sorted_map_seq {B} (R : B -> B -> Prop) (f : nat -> B) (a n : nat) :
  (forall i k, i < k -> R (f i) (f k)) ->
  StronglySorted R (map f (seq a n)).
Proof.
  intros Hmono. revert a. induction n as [| n IH]; intros a; simpl.
  - constructor.
  - constructor; [apply IH |].
    apply Forall_forall. intros y Hy. apply in_map_iff in Hy.
    destruct Hy as [i [<- Hi]]. apply in_seq in Hi. apply Hmono. lia.
Qed.

(** The time of sample [i] relative to the first, at [q] samples per
    second. *)
Definition relative_time (q : Q) (i : nat) : float64 :=
  Fin (inject_Z (Z.of_nat i) / q).

Lemma relative_time_increases (q : Q) (i k : nat) :
  (0 < q)%Q -> i < k ->
  Float.ltb (relative_time q i) (relative_time q k) = true.
Proof.
  intros Hq Hik. unfold relative_time, Float.ltb, Qltb.
  apply negb_true_iff. apply not_true_is_false. intros E.
  apply Qle_bool_iff in E. unfold Qdiv in E.
  assert (Hinv : (0 < / q)%Q) by (apply Qinv_lt_0_compat; exact Hq).
  apply (proj1 (Qmult_le_r _ _ (/ q) Hinv)) in E.
  rewrite <- Zle_Qle in E. lia.
Qed.

(** X13: at a positive sample rate the [sample_time] of a stream has one
    entry per sample, entry [i] being [i / rate], and the entries increase
    strictly, so that they are in the order that [numpy.searchsorted]
    needs. *)
Theorem sample_time_increases (self : RoachStream.t) (n : nat) (q : Q) :
  shape_last (RoachStream.s21_raw self) = Ok n ->
  RoachStream.stream_sample_rate self = Fin q ->
  (0 < q)%Q ->
  exists times : list float64,
    RoachStream.sample_time self = Ok times
    /\ List.length times = n
    /\ (forall i, i < n -> nth_error times i = Some (relative_time q i))
    /\ StronglySorted (fun a b => Float.ltb a b = true) times.
Proof.
  intros Hshape Hrate Hq.
  assert (Hz : Qzerob q = false).
  { apply not_true_is_false. intros E. apply Qeq_bool_iff in E.
    rewrite E in Hq. discriminate Hq. }
  assert (Htimes : RoachStream.sample_time self
                   = Ok (map (relative_time q) (seq 0 n))).
  { unfold RoachStream.sample_time. rewrite Hshape, Hrate. simpl.
    unfold arange. rewrite map_map. f_equal. apply map_ext. intros i.
    unfold Float.div, Float.of_Z. rewrite Hz. reflexivity. }
  exists (map (relative_time q) (seq 0 n)).
  split; [exact Htimes | split; [| split]].
  - rewrite length_map, length_seq. reflexivity.
  - intros i Hi. rewrite nth_error_map, nth_error_seq.
    destruct (Nat.ltb_spec i n); [reflexivity | lia].
  - apply strictly_sorted_map_seq. intros i k Hik.
    apply relative_time_increases; assumption.
Qed.

(** *** Slices between two times *)







(** *** The defaults of [epochs] *)

Lemma after_minus_infinity (t : float64) : np_lt t (Inf true) = false.
Proof. destruct t as [a | [|] |]; reflexivity. Qed.

Lemma before_plus_infinity (t : float64) :
  isnan t = false -> np_le t (Inf false) = true.
Proof. destruct t as [a | [|] |]; simpl; intros E; try reflexivity; discriminate E. Qed.

Lemma between_infinities {A} (times : list float64) (l : list A) :
  Forall (fun t => isnan t = false) times ->
  List.length l = List.length times ->
  between (Inf true) (Inf false) times l = l.
Proof.
  intros Hall. revert l. unfold between, kept.
  induction Hall as [| t times Ht _ IH]; intros l Hlen.
  - destruct l; [reflexivity | discriminate Hlen].
  - destruct l as [| x l]; [discriminate Hlen |]. injection Hlen as Hlen.
    cbn [combine filter fst]. unfold np_le at 1.
    rewrite after_minus_infinity, (before_plus_infinity _ Ht).
    cbn [negb andb map snd]. rewrite (IH l Hlen). reflexivity.
Qed.

(** X17: with its default arguments, minus and plus infinity, [epochs()]
    on a stream of at least one sample with a finite epoch and a positive
    sample rate returns all the samples, with the state, and starts at the
    time of the first sample; the sequence start number is not kept. *)
Theorem epochs_by_default_keeps_every_sample
        (self : RoachStream.t) (z : complex) (l : list complex) (e q : Q) :
  RoachStream.s21_raw self = Arr1 (z :: l) ->
  RoachStream.epoch self = Fin e ->
  RoachStream.stream_sample_rate self = Fin q ->
  (0 < q)%Q ->
  exists r : RoachStream.t,
    RoachStream.epochs self (Inf true) (Inf false) = Ok r
    /\ RoachStream.s21_raw r = RoachStream.s21_raw self
    /\ RoachStream.state r = RoachStream.state self
    /\ RoachStream.epoch r = time_of (Fin e) (Fin q) 0
    /\ RoachStream.sequence_start_number r = None.
Proof.
  intros Hraw He Hrate Hq.
  set (times := map (time_of (Fin e) (Fin q)) (seq 0 (List.length (z :: l)))).
  assert (Hzero : searchsorted_left times (Inf true) = 0).
  { unfold searchsorted_left.
    assert (E : filter (fun x => np_lt x (Inf true)) times = []).
    { induction times as [| t ts IH]; [reflexivity |].
      simpl. rewrite after_minus_infinity. exact IH. }
    rewrite E. reflexivity. }
  assert (Hz : Qzerob q = false).
  { apply not_true_is_false. intros E. apply Qeq_bool_iff in E.
    rewrite E in Hq. discriminate Hq. }
  destruct (@epochs_of_a_steady_stream _ _ self (Inf true) (Inf false)
                                       (z :: l) e q Hraw He Hrate Hq)
    as [r [Hrun [Hs [Hst Hepoch]]]].
  - fold times. rewrite Hzero. simpl. lia.
  - fold times in Hs, Hepoch. rewrite Hzero in Hepoch.
    exists r. split; [exact Hrun | split; [| split; [exact Hst | split]]].
    + rewrite Hs, Hraw. f_equal. apply between_infinities.
      * unfold times. apply Forall_forall. intros t Ht.
        apply in_map_iff in Ht. destruct Ht as [i [<- _]].
        unfold time_of, Float.div, Float.of_Z. rewrite Hz. reflexivity.
      * unfold times. rewrite length_map, length_seq. reflexivity.
    + exact Hepoch.
    + unfold RoachStream.epochs in Hrun.
      destruct (RoachStream.sample_time self); [| discriminate Hrun].
      simpl in Hrun.
      destruct (getitem _ _); [| discriminate Hrun]. simpl in Hrun.
      destruct (slice_last _ _ _); [| discriminate Hrun]. simpl in Hrun.
      injection Hrun as <-. reflexivity.
Qed.

(** *** One channel of a stream array *)

Lemma py_getitem_map {A B} (f : A -> B) (l : list A) (n : Z) :
  py_getitem (map f l) n = rmap f (py_getitem l n).
Proof.
  unfold py_getitem, getitem. rewrite length_map.
  destruct (0 <=? n)%Z.
  - rewrite nth_error_map. destruct (nth_error l (Z.to_nat n)); reflexivity.
  - destruct (- Z.of_nat (List.length l) <=? n)%Z; [| reflexivity].
    rewrite nth_error_map.
    destruct (nth_error l (Z.to_nat (Z.of_nat (List.length l) + n))); reflexivity.
Qed.

Lemma sequence_length {A} (l : list (result A)) (xs : list A) :
  sequence l = Ok xs -> List.length xs = List.length l.
Proof.
  revert xs. induction l as [| [a | e] l IH]; intros xs E; simpl in E.
  - injection E as <-. reflexivity.
  - destruct (sequence l) as [ys |]; [| discriminate E].
    injection E as <-. simpl. rewrite (IH ys eq_refl). reflexivity.
  - discriminate E.
Qed.

Lemma sequence_nth {A B} (g : A -> result B) (l : list A) (ys : list B) (k : nat)
      (x : A) :
  sequence (map g l) = Ok ys -> nth_error l k = Some x ->
  exists y, g x = Ok y /\ nth_error ys k = Some y.
Proof.
  revert ys k. induction l as [| a l IH]; intros ys k E Hx.
  - destruct k; discriminate Hx.
  - simpl in E. destruct (g a) as [b |] eqn:Ea; [| discriminate E].
    destruct (sequence (map g l)) as [bs |] eqn:El; [| discriminate E].
    injection E as <-. destruct k as [| k]; simpl in *.
    + injection Hx as <-. exists b. split; [exact Ea | reflexivity].
    + exact (IH bs k eq_refl Hx).
Qed.

Lemma sequence_py_getitem {A B} (g : A -> result B) (l : list A) (ys : list B)
      (n : Z) (x : A) :
  sequence (map g l) = Ok ys -> py_getitem l n = Ok x ->
  exists y, g x = Ok y /\ py_getitem ys n = Ok y.
Proof.
  intros E Hx.
  assert (Hlen : List.length ys = List.length l)
    by (rewrite (sequence_length _ E); apply length_map).
  unfold py_getitem, getitem in *. rewrite Hlen.
  destruct (0 <=? n)%Z.
  - destruct (nth_error l (Z.to_nat n)) as [x' |] eqn:Ex; [| discriminate Hx].
    injection Hx as ->.
    destruct (sequence_nth g l _ E Ex) as [y [Hy Hk]].
    exists y. rewrite Hk. auto.
  - destruct (- Z.of_nat (List.length l) <=? n)%Z; [| discriminate Hx].
    destruct (nth_error l (Z.to_nat (Z.of_nat (List.length l) + n)))
      as [x' |] eqn:Ex; [| discriminate Hx].
    injection Hx as ->.
    destruct (sequence_nth g l _ E Ex) as [y [Hy Hk]].
    exists y. rewrite Hk. auto.
Qed.

(** X18: [stream(number)] of a stream array is the SingleStream of channel
    [number], counted from the end when negative: it holds that channel's
    samples, and its frequency, its [s21_raw_mean] and its
    [s21_raw_mean_error] are the entries at [number] of the frequency, the
    mean and the error of the array. *)
Theorem stream_is_one_channel
        (self : RoachStream.t) (number : Z)
        (indices bins : list Z) (rows : list (list complex))
        (index bin : Z) (samples : list complex) :
  RoachStream.tone_index self = Arr1 indices ->
  RoachStream.filterbank_bin self = Arr1 bins ->
  RoachStream.s21_raw self = Arr2 rows ->
  py_getitem indices number = Ok index ->
  py_getitem bins number = Ok bin ->
  py_getitem rows number = Ok samples ->
  exists ss : RoachStream.t,
    StreamArray.stream self number = Ok ss
    /\ RoachStream.s21_raw ss = Arr1 samples
    /\ RoachStream.number ss = Some number
    /\ (forall fs, RoachStream.frequency self = Ok (Arr1 fs) ->
                   exists f, py_getitem fs number = Ok f
                             /\ RoachStream.frequency ss = Ok (Arr0 f))
    /\ (forall means, RoachStream.s21_raw_mean self = Ok (Arr1 means) ->
                      exists m, py_getitem means number = Ok m
                                /\ RoachStream.s21_raw_mean ss = Ok (Arr0 m))
    /\ (forall errors, RoachStream.s21_raw_mean_error self = Ok (Arr1 errors) ->
                       exists err, py_getitem errors number = Ok err
                                   /\ RoachStream.s21_raw_mean_error ss
                                      = Ok (Arr0 err)).
Proof.
  intros Hix Hfb Hraw Hi Hb Hs.
  unfold StreamArray.stream, StreamArray.getitem.
  rewrite Hix, Hfb, Hraw. cbn [item row]. rewrite Hi, Hb, Hs. cbn [rmap rbind].
  eexists. split; [reflexivity |]. cbn [RoachStream.s21_raw RoachStream.number].
  split; [reflexivity | split; [reflexivity | split; [| split]]].
  - intros fs Hf. unfold RoachStream.frequency in *.
    cbn [RoachStream.tone_bin RoachStream.tone_index RoachStream.roach_state].
    rewrite Hix in Hf. cbn [index_with] in Hf.
    destruct (sequence (map (py_getitem (RoachStream.tone_bin self)) indices))
      as [picked |] eqn:E; [| discriminate Hf].
    cbn in Hf. injection Hf as <-.
    destruct (sequence_py_getitem _ _ number E Hi) as [tone [Htone Hp]].
    exists (calculate_frequency (RoachStream.roach_state self) tone).
    split.
    + rewrite py_getitem_map, Hp. reflexivity.
    + cbn [index_with]. rewrite Htone. reflexivity.
  - intros means Hm. unfold RoachStream.s21_raw_mean in *.
    cbn [RoachStream.s21_raw]. rewrite Hraw in Hm. cbn in Hm.
    injection Hm as <-. exists (nanmean samples).
    split; [rewrite py_getitem_map, Hs; reflexivity | reflexivity].
  - intros errors He. rewrite s21_raw_mean_error_by_channel in *.
    cbn [RoachStream.s21_raw]. rewrite Hraw in He. injection He as <-.
    exists (channel_error samples).
    split; [rewrite py_getitem_map, Hs; reflexivity | reflexivity].
Qed.

(** A channel that the stream array does not have raises [IndexError]. *)
Lemma stream_out_of_range (self : RoachStream.t) (number : Z) (indices : list Z) :
  RoachStream.tone_index self = Arr1 indices ->
  (Z.of_nat (List.length indices) <= number
   \/ number < - Z.of_nat (List.length indices))%Z ->
  StreamArray.stream self number = Raise IndexError.
Proof.
  intros Hix Hout. unfold StreamArray.stream, StreamArray.getitem.
  rewrite Hix. cbn [item]. unfold py_getitem, getitem.
  destruct (Z.leb_spec 0 number).
  - destruct (nth_error indices (Z.to_nat number)) eqn:E; [| reflexivity].
    assert (Hlt : Z.to_nat number < List.length indices)
      by (apply nth_error_Some; congruence).
    lia.
  - destruct (Z.leb_spec (- Z.of_nat (List.length indices)) number);
      [lia | reflexivity].
Qed.

(** *** The number of channels *)

Lemma any_difference_cons (a b : Z) (rest : list Z) :
  any_difference (a :: b :: rest)
  = (negb (b - a =? 0)%Z || any_difference (b :: rest))%bool.
Proof. reflexivity. Qed.

Lemma no_difference (n : nat) (ns : list nat) :
  Forall (fun m => m = n) ns -> any_difference (map Z.of_nat ns) = false.
Proof.
  induction 1 as [| a ns Ha Hall IH]; [reflexivity |].
  destruct ns as [| b ns]; [reflexivity |].
  cbn [map] in *. rewrite any_difference_cons, IH.
  inversion Hall; subst.
  rewrite Z.sub_diag. reflexivity.
Qed.

Lemma a_difference (a : nat) (ns : list nat) :
  any_difference (map Z.of_nat (a :: ns)) = false -> Forall (fun m => m = a) ns.
Proof.
  revert a. induction ns as [| b ns IH]; intros a E; [constructor |].
  cbn [map] in E. rewrite any_difference_cons in E.
  apply orb_false_iff in E. destruct E as [Eab E].
  apply negb_false_iff, Z.eqb_eq in Eab.
  assert (b = a) by lia. subst b.
  constructor; [reflexivity | exact (IH a E)].
Qed.

(** X19: [num_channels] of a SweepArray is 0 when it has no stream arrays,
    the common number of tones of its stream arrays when they all have as
    many, and raises [ValueError] when they do not. *)
Theorem num_channels_is_the_common_number (self : SweepArray.t) :
  (SweepArray.stream_arrays self = [] -> SweepArray.num_channels self = Ok 0)
  /\ (forall n,
        SweepArray.stream_arrays self <> [] ->
        Forall (fun sa => size (RoachStream.tone_index sa) = n)
               (SweepArray.stream_arrays self) ->
        SweepArray.num_channels self = Ok n)
  /\ (~ (exists n, Forall (fun sa => size (RoachStream.tone_index sa) = n)
                          (SweepArray.stream_arrays self)) ->
      SweepArray.num_channels self = Raise ValueError).
Proof.
  unfold SweepArray.num_channels.
  rewrite <- (map_map (fun sa => size (RoachStream.tone_index sa)) Z.of_nat).
  split; [| split].
  - intros E. rewrite E. reflexivity.
  - intros n Hne Hall.
    rewrite (@no_difference n); [| apply Forall_map; exact Hall].
    destruct (SweepArray.stream_arrays self) as [| sa rest];
      [contradiction |].
    inversion Hall; subst. reflexivity.
  - intros Hno.
    destruct (any_difference _) eqn:E; [reflexivity |].
    exfalso. apply Hno.
    destruct (SweepArray.stream_arrays self) as [| sa rest].
    + exists 0. constructor.
    + exists (size (RoachStream.tone_index sa)).
      constructor; [reflexivity |].
      apply (proj1 (Forall_map (fun sa0 => size (RoachStream.tone_index sa0))
                               (fun m => m = size (RoachStream.tone_index sa))
                               rest)).
      exact (a_difference _ _ E).
Qed.

Lemma epochs_keeps_the_tones (stream sliced : RoachStream.t)
      (start stop : float64) :
  RoachStream.epochs stream start stop = Ok sliced ->
  RoachStream.tone_index sliced = RoachStream.tone_index stream.
Proof.
  unfold RoachStream.epochs.
  destruct (RoachStream.sample_time stream); [| discriminate].
  cbn [rbind]. destruct (getitem _ _); [| discriminate].
  cbn [rbind]. destruct (slice_last _ _ _); [| discriminate].
  cbn [rbind]. intros E. injection E as <-. reflexivity.
Qed.

(** X20: a SweepStreamArray is built only when the sweep array has as many
    channels as the stream array has tones, and [MeasurementError] is raised
    otherwise; [epochs] of one that was built never raises
    [MeasurementError]: it returns the same sweep array with the stream
    array that [StreamArray.epochs] returns, and fails only when that
    fails. *)
Theorem sweep_stream_array_keeps_its_channels
        (sweep_array : SweepArray.t) (stream_array : RoachStream.t)
        (state : StateDict) (description : string) (channels : nat) :
  SweepArray.num_channels sweep_array = Ok channels ->
  (channels <> size (RoachStream.tone_index stream_array) ->
   SweepStreamArray.new sweep_array stream_array state description
   = Raise SweepStreamArray.MeasurementError)
  /\ (channels = size (RoachStream.tone_index stream_array) ->
      exists self,
        SweepStreamArray.new sweep_array stream_array state description = Ok self
        /\ SweepStreamArray.num_channels self
           = Ok (size (RoachStream.tone_index
                         (SweepStreamArray.stream_array self)))
        /\ (forall start stop sliced,
               RoachStream.epochs stream_array start stop = Ok sliced ->
               SweepStreamArray.epochs self start stop
               = Ok {| SweepStreamArray.sweep_array := sweep_array;
                       SweepStreamArray.stream_array := sliced;
                       SweepStreamArray.state := state;
                       SweepStreamArray.description := description |})
        /\ (forall start stop e,
               RoachStream.epochs stream_array start stop = Raise e ->
               SweepStreamArray.epochs self start stop = Raise e)).
Proof.
  intros Hn. unfold SweepStreamArray.new. rewrite Hn. cbn [rbind]. split.
  - intros Hne.
    destruct (Nat.eqb_spec channels (size (RoachStream.tone_index stream_array)));
      [contradiction | reflexivity].
  - intros Heq. rewrite Heq, Nat.eqb_refl. cbn [negb].
    eexists. split; [reflexivity |].
    unfold SweepStreamArray.num_channels, SweepStreamArray.epochs,
      SweepStreamArray.new.
    cbn [SweepStreamArray.sweep_array SweepStreamArray.stream_array
         SweepStreamArray.state SweepStreamArray.description].
    split; [rewrite Hn, Heq; reflexivity | split].
    + intros start stop sliced Hsliced. rewrite Hsliced. cbn [rbind].
      rewrite Hn. cbn [rbind].
      rewrite (epochs_keeps_the_tones _ _ _ Hsliced), Heq, Nat.eqb_refl.
      reflexivity.
    + intros start stop e Hfail. rewrite Hfail. reflexivity.
Qed.

End Streams.

(** *** On the streams of three samples *)

Lemma sample_time_witness :
  exists times : list float64,
    RoachStream.sample_time (CALC := Examples.calculate) Examples.three_seconds
    = Ok times
    /\ List.length times = 3
    /\ (forall i, i < 3 -> nth_error times i = Some (relative_time 1 i))
    /\ StronglySorted (fun a b => Float.ltb a b = true) times.
Proof.
  exact (@sample_time_increases Examples.core Examples.calculate
           Examples.three_seconds 3 1%Q eq_refl eq_refl eq_refl).
Defined.




Lemma epochs_by_default_witness :
  exists r : RoachStream.t,
    RoachStream.epochs (CALC := Examples.calculate) Examples.three_seconds
                       (Inf true) (Inf false)
    = Ok r
    /\ RoachStream.s21_raw r = RoachStream.s21_raw Examples.three_seconds
    /\ RoachStream.sequence_start_number r = None.
Proof.
  destruct (@epochs_by_default_keeps_every_sample
              Examples.core Examples.calculate Examples.three_seconds
              Examples.z0 [Examples.z1; Examples.z2] 0%Q 1%Q
              eq_refl eq_refl eq_refl eq_refl)
    as [r [Hrun [Hs [_ [_ Hn]]]]].
  exists r. exact (conj Hrun (conj Hs Hn)).
Defined.

Lemma stream_witness :
  exists ss : RoachStream.t,
    StreamArray.stream Examples.two_channels (-1) = Ok ss
    /\ RoachStream.s21_raw ss
       = Arr1 [Examples.z0; Examples.znan; Examples.z2]
    /\ RoachStream.frequency (CALC := Examples.calculate) ss
       = Ok (Arr0 (Float.of_Z 101)).
Proof.
  destruct (@stream_is_one_channel
              Examples.core Examples.calculate Examples.numpy
              Examples.two_channels (-1)%Z [0; 1]%Z [0; 0]%Z
              [[Examples.znan; Examples.znan; Examples.znan];
               [Examples.z0; Examples.znan; Examples.z2]]
              1%Z 0%Z [Examples.z0; Examples.znan; Examples.z2]
              eq_refl eq_refl eq_refl eq_refl eq_refl eq_refl)
    as [ss [Hrun [Hs [_ [Hf _]]]]].
  destruct (Hf [Float.of_Z 100; Float.of_Z 101] eq_refl) as [f [Hpick Hfreq]].
  injection Hpick as <-.
  exists ss. exact (conj Hrun (conj Hs Hfreq)).
Defined.

(** A sweep of one stream array of two channels. *)
Definition one_array : @SweepArray.t Examples.core :=
  {| SweepArray.stream_arrays := [Examples.two_channels];
     SweepArray.state := Fin 0 : @StateDict Examples.core;
     SweepArray.description := "" |}.

Lemma num_channels_witness :
  SweepArray.num_channels one_array = Ok 2
  /\ SweepArray.num_channels Examples.sweep_array_of_three = Raise ValueError.
Proof.
  split.
  - apply (proj1 (proj2 (num_channels_is_the_common_number one_array)) 2).
    + discriminate.
    + repeat constructor.
  - apply (proj2 (proj2 (num_channels_is_the_common_number
                           Examples.sweep_array_of_three))).
    intros [n Hall]. inversion Hall as [| sa rest H1 Hrest]; subst.
    inversion Hrest as [| sa' rest' H2 _]; subst.
    discriminate H2.
Defined.

Lemma sweep_stream_array_witness :
  exists self,
    SweepStreamArray.new one_array Examples.two_channels
                         (Fin 0 : @StateDict Examples.core) ""
    = Ok self
    /\ SweepStreamArray.num_channels self
       = Ok (size (RoachStream.tone_index (SweepStreamArray.stream_array self)))
    /\ SweepStreamArray.new Examples.sweep_array_of_three Examples.two_channels
                            (Fin 0 : @StateDict Examples.core) ""
       = Raise ValueError.
Proof.
  destruct (@sweep_stream_array_keeps_its_channels
              Examples.core Examples.calculate one_array Examples.two_channels
              (Fin 0 : @StateDict Examples.core) "" 2 eq_refl)
    as [_ Hbuilt].
  destruct (Hbuilt eq_refl) as [self [Hnew [Hn _]]].
  exists self. split; [exact Hnew | split; [exact Hn | reflexivity]].
Defined.

(** *** The sweep of one channel *)

Section Sweeps.

Context {CORE : Core} {CALC : Calculate} {NP : NumPy} {LM : LmfitResonator}.

(** A stream array of [c] channels: one tone index, one filterbank bin and
    one row of samples per channel. *)
Definition has_channels (c : nat) (sa : RoachStream.t) : Prop :=
  exists (indices bins : list Z) (rows : list (list complex)),
    RoachStream.tone_index sa = Arr1 indices
    /\ RoachStream.filterbank_bin sa = Arr1 bins
    /\ RoachStream.s21_raw sa = Arr2 rows
    /\ List.length indices = c
    /\ List.length bins = c
    /\ List.length rows = c.

(** The stream [ss] is channel [number] of the stream array [sa]. *)
Definition channel_of (number : Z) (sa ss : RoachStream.t) : Prop :=
  StreamArray.stream sa number = Ok ss
  /\ row (RoachStream.s21_raw sa) number = Ok (RoachStream.s21_raw ss)
  /\ item (RoachStream.tone_index sa) number = Ok (RoachStream.tone_index ss)
  /\ RoachStream.number ss = Some number.

Lemma py_getitem_in_range {A} (l : list A) (n : Z) :
  (- Z.of_nat (List.length l) <= n < Z.of_nat (List.length l))%Z ->
  exists x, py_getitem l n = Ok x.
Proof.
  intros Hn. unfold py_getitem, getitem.
  destruct (Z.leb_spec 0 n).
  - destruct (nth_error l (Z.to_nat n)) as [x |] eqn:E; [exists x; reflexivity |].
    apply nth_error_None in E. lia.
  - destruct (Z.leb_spec (- Z.of_nat (List.length l)) n); [| lia].
    destruct (nth_error l (Z.to_nat (Z.of_nat (List.length l) + n)))
      as [x |] eqn:E; [exists x; reflexivity |].
    apply nth_error_None in E. lia.
Qed.

Lemma channel_in_range (c : nat) (sa : RoachStream.t) (number : Z) :
  has_channels c sa ->
  (- Z.of_nat c <= number < Z.of_nat c)%Z ->
  exists ss, channel_of number sa ss.
Proof.
  intros [indices [bins [rows [Hix [Hfb [Hraw [Hi [Hb Hr]]]]]]]] Hn.
  destruct (@py_getitem_in_range _ indices number) as [index Hindex];
    [rewrite Hi; exact Hn |].
  destruct (@py_getitem_in_range _ bins number) as [bin Hbin];
    [rewrite Hb; exact Hn |].
  destruct (@py_getitem_in_range _ rows number) as [samples Hsamples];
    [rewrite Hr; exact Hn |].
  unfold channel_of, StreamArray.stream, StreamArray.getitem.
  rewrite Hix, Hfb, Hraw. cbn [item row].
  rewrite Hindex, Hbin, Hsamples. cbn [rmap rbind].
  eexists. repeat split.
Qed.

Lemma channels_in_range (c : nat) (number : Z) (arrays : list RoachStream.t) :
  Forall (has_channels c) arrays ->
  (- Z.of_nat c <= number < Z.of_nat c)%Z ->
  exists streams,
    sequence (map (fun sa => StreamArray.stream sa number) arrays) = Ok streams
    /\ Forall2 (channel_of number) arrays streams.
Proof.
  intros Hall Hn. induction Hall as [| sa arrays Hsa _ IH].
  - exists []. split; [reflexivity | constructor].
  - destruct (channel_in_range Hsa Hn) as [ss Hss].
    destruct IH as [streams [Hrun Hrel]].
    exists (ss :: streams). split.
    + cbn [map sequence]. rewrite (proj1 Hss), Hrun. reflexivity.
    + constructor; assumption.
Qed.

(** X24: on a SweepArray whose stream arrays hold [c] channels each,
    [sweep(number)] for a channel in range, counted from the end when
    negative, returns the SingleSweep of that channel: one stream per
    stream array, in their order, each the stream of channel [number] of its
    array; the number is recorded, the state and the description are kept,
    and no resonator is fitted yet.  For a channel out of range it raises
    [IndexError], unless there are no stream arrays. *)
Theorem sweep_is_one_channel_of_every_array
        (self : SweepArray.t) (number : Z) (c : nat) :
  Forall (has_channels c) (SweepArray.stream_arrays self) ->
  ((- Z.of_nat c <= number < Z.of_nat c)%Z ->
   exists sw : SingleSweep.t,
     SweepArrayChannel.sweep self number = Ok sw
     /\ Forall2 (channel_of number) (SweepArray.stream_arrays self)
                (SingleSweep.streams sw)
     /\ SingleSweep.number sw = Some number
     /\ SingleSweep.state sw = SweepArray.state self
     /\ SingleSweep.description sw = SweepArray.description self
     /\ SingleSweep._resonator sw = None)
  /\ ((number < - Z.of_nat c \/ Z.of_nat c <= number)%Z ->
      SweepArrayChannel.sweep self number
      = match SweepArray.stream_arrays self with
        | [] => Ok {| SingleSweep.streams := [];
                      SingleSweep.number := Some number;
                      SingleSweep.state := SweepArray.state self;
                      SingleSweep.description := SweepArray.description self;
                      SingleSweep._resonator := None |}
        | _ :: _ => Raise IndexError
        end).
Proof.
  intros Hall. unfold SweepArrayChannel.sweep, SweepArrayChannel.getitem. split.
  - intros Hn. destruct (channels_in_range Hall Hn) as [streams [Hrun Hrel]].
    rewrite Hrun. cbn [rbind]. eexists. split; [reflexivity |].
    cbn. repeat split. exact Hrel.
  - intros Hout. destruct (SweepArray.stream_arrays self) as [| sa rest];
      [reflexivity |].
    inversion Hall as [| sa' rest' Hsa _]; subst.
    destruct Hsa as [indices [bins [rows [Hix [_ [_ [Hi _]]]]]]].
    cbn [map sequence].
    rewrite (@stream_out_of_range _ sa number indices Hix);
      [reflexivity | rewrite Hi; lia].
Qed.

End Sweeps.

(** Two stream arrays of two channels each. *)
Definition two_arrays : @SweepArray.t Examples.core :=
  {| SweepArray.stream_arrays :=
       [Examples.two_channels;
        Examples.stream_array [1; 2]%Z
          [[Examples.z1; Examples.z1]; [Examples.z2; Examples.z2]]];
     SweepArray.state := Fin 0 : @StateDict Examples.core;
     SweepArray.description := EmptyString |}.

Lemma sweep_witness :
  (exists sw : @SingleSweep.t Examples.core Examples.lmfit,
      SweepArrayChannel.sweep two_arrays (-1) = Ok sw
      /\ map RoachStream.s21_raw (SingleSweep.streams sw)
         = [Arr1 [Examples.z0; Examples.znan; Examples.z2];
            Arr1 [Examples.z2; Examples.z2]])
  /\ SweepArrayChannel.sweep (LM := Examples.lmfit) two_arrays 2
     = Raise IndexError.
Proof.
  assert (Hall : Forall (has_channels 2) (SweepArray.stream_arrays two_arrays)).
  { constructor; [| constructor; [| constructor]];
      eexists; eexists; eexists; repeat split. }
  destruct (@sweep_is_one_channel_of_every_array
              Examples.core Examples.lmfit two_arrays (-1)%Z 2 Hall)
    as [Hin _].
  destruct (@sweep_is_one_channel_of_every_array
              Examples.core Examples.lmfit two_arrays 2%Z 2 Hall)
    as [_ Hout].
  split.
  - destruct (Hin ltac:(lia)) as [sw [Hrun _]].
    exists sw. split; [exact Hrun |].
    vm_compute in Hrun. injection Hrun as <-. reflexivity.
  - exact (Hout ltac:(lia)).
Defined.

End MeasurementFacts.

(** * More properties of the sweep-stream *)

Module CacheFacts.
Import SingleSweepStream PipelineFacts.

Section Caches.

Context {CORE : Core} {CALC : Calculate} {NP : NumPy} {LM : LmfitResonator}
        {DS : Despike} {ML : Mlab} {BN : Binning} {IQ : IQNoise}.

(** *** Properties that are computed once *)

(** The shape of the memoized properties: compute when the attribute is
    missing, then read it. *)
Definition cached (a : attr) (compute : M t unit) : M t (attr_type a) :=
  (present <- hasattr a ;;
   (if present then ret tt else compute) ;;;
   getattr a)%monad.

Lemma cached_stores (a : attr) (compute : M t unit) (v : attr_type a) (s s' : t) :
  cached a compute s = (Ok v, s') -> dict s' a = Some v.
Proof.
  unfold cached, bind, hasattr, getattr, ret.
  destruct (dict s a) as [v0 |] eqn:E.
  - rewrite E. intros H. injection H as <- <-. exact E.
  - destruct (compute s) as [[[] | e] s1]; [| discriminate].
    destruct (dict s1 a) as [v1 |] eqn:E1; [| discriminate].
    intros H. injection H as <- <-. exact E1.
Qed.

Lemma cached_again (a : attr) (compute : M t unit) (v : attr_type a) (s s' : t) :
  cached a compute s = (Ok v, s') -> cached a compute s' = (Ok v, s').
Proof.
  intros H. apply cached_stores in H.
  unfold cached, bind, hasattr, getattr, ret.
  rewrite H. cbv beta iota. rewrite H. reflexivity.
Qed.

(** X21: a property that has returned a value returns the same value at
    the next access and leaves the object as it is: the raw and the
    deglitched series, the spectra and the principal components other than
    [pca_S_frequency] are computed at most once. *)
Theorem properties_are_computed_once (s s' : t) :
  (forall v, stream_s21_normalized s = (Ok v, s') ->
             stream_s21_normalized s' = (Ok v, s'))
  /\ (forall v, x_raw s = (Ok v, s') -> x_raw s' = (Ok v, s'))
  /\ (forall v, q_raw s = (Ok v, s') -> q_raw s' = (Ok v, s'))
  /\ (forall a v, deglitched a s = (Ok v, s') -> deglitched a s' = (Ok v, s'))
  /\ (forall a v, spectral a s = (Ok v, s') -> spectral a s' = (Ok v, s'))
  /\ (forall v, pca_S_00 s = (Ok v, s') -> pca_S_00 s' = (Ok v, s'))
  /\ (forall v, pca_S_11 s = (Ok v, s') -> pca_S_11 s' = (Ok v, s'))
  /\ (forall v, pca_angles s = (Ok v, s') -> pca_angles s' = (Ok v, s')).
Proof.
  repeat split.
  - intros v. apply (@cached_again _stream_s21_normalized).
  - intros v. apply (@cached_again _x_raw).
  - intros v. apply (@cached_again _q_raw).
  - intros a v. apply (@cached_again a).
  - intros a v. apply (@cached_again a).
  - intros v. apply (@cached_again _pca_S_00).
  - intros v. apply (@cached_again _pca_S_11).
  - intros v. apply (@cached_again _pca_angles).
Qed.

(** X22: [pca_S_frequency] runs [set_pca()] at every access, whatever is
    stored: when the deglitched series can be read, it returns the
    frequencies of the decomposition with the default arguments and
    replaces the stored [pca_S_00], [pca_S_11] and [pca_angles] by those of
    that decomposition. *)
Theorem pca_S_frequency_runs_set_pca
        (s s1 : t) (xv qv : list float64) (evals0 evals1 : list float64) :
  SingleSweepStream.x s = (Ok xv, s1) ->
  series_ready s1 xv qv ->
  List.length xv = List.length qv ->
  let r := pca_noise (zip_with plus_j xv (halved qv)) (chunk_of None s)
                     (RoachStream.stream_sample_rate (stream s1))
                     window_none detrend_none true true in
  getitem (pca_evals r) 0 = Ok evals0 ->
  getitem (pca_evals r) 1 = Ok evals1 ->
  exists s',
    pca_S_frequency s = (Ok (pca_fr r), s')
    /\ dict s' _pca_S_frequency = Some (pca_fr r)
    /\ dict s' _pca_S_00 = Some evals0
    /\ dict s' _pca_S_11 = Some evals1
    /\ dict s' _pca_angles = Some (pca_angles_out r).
Proof.
  intros Hx Hready Hlen r H0 H1.
  destruct (@set_pca_run _ _ _ _ _ _ _ s s1 xv qv None (chunk_of None s)
                         window_none detrend_none true evals0 evals1
                         (choose_NFFT_run None s) Hx Hready Hlen H0 H1)
    as [s' [Hrun [Hf [He0 [He1 [Ha _]]]]]].
  exists s'. unfold pca_S_frequency, bind, set_pca_default.
  rewrite Hrun. unfold getattr. fold r in Hf. rewrite Hf.
  repeat split; assumption.
Qed.

(** *** The spectra of y *)

(** Two floats that are the same number: rationals that are equal, the
    same infinity, or both NaN. *)
Definition same_float (a b : float64) : Prop :=
  match a, b with
  | Fin x, Fin y => (x == y)%Q
  | Inf s, Inf t => s = t
  | NaN, NaN => True
  | _, _ => False
  end.

Lemma square_not_negative (a : Q) : Qltb (a * a) 0 = false.
Proof.
  unfold Qltb. apply negb_false_iff. apply Qle_bool_iff.
  destruct (Qlt_le_dec a 0) as [Hneg | Hpos].
  - setoid_replace (a * a)%Q with ((- a) * (- a))%Q by ring.
    apply Qmult_le_0_compat; apply Qlt_le_weak;
      apply (Qopp_lt_compat a 0); exact Hneg.
  - apply Qmult_le_0_compat; exact Hpos.
Qed.

Lemma quarter_square_zero (a : Q) :
  Qzerob (a / 4 * (a / 4)) = Qzerob (a * a).
Proof.
  unfold Qzerob.
  destruct (Qeq_bool (a * a) 0) eqn:E.
  - apply Qeq_bool_iff in E. apply Qeq_bool_iff.
    setoid_replace (a / 4 * (a / 4))%Q with (a * a / 16)%Q by field.
    rewrite E. reflexivity.
  - apply not_true_is_false. intros E'. apply Qeq_bool_iff in E'.
    apply not_true_iff_false in E. apply E. apply Qeq_bool_iff.
    setoid_replace (a * a)%Q with (16 * (a / 4 * (a / 4)))%Q by field.
    rewrite E'. reflexivity.
Qed.

Lemma variance_of_a_quarter (v : float64) (ndof : Z) :
  same_float
    (Float.div (Float.div (Float.mul v v) (Float.of_Z ndof)) (Fin 16))
    (Float.div (Float.mul (Float.div v (Fin 4)) (Float.div v (Fin 4)))
               (Float.of_Z ndof)).
Proof.
  unfold Float.of_Z. destruct v as [a | b |].
  - change (Float.div (Fin a) (Fin 4)) with (Fin (a / 4)).
    cbn [Float.mul]. unfold Float.div at 2 3.
    destruct (Qzerob (inject_Z ndof)) eqn:En.
    + rewrite quarter_square_zero.
      destruct (Qzerob (a * a)); [exact I |].
      rewrite !square_not_negative. reflexivity.
    + change (Float.div (Fin (a * a / inject_Z ndof)) (Fin 16))
        with (Fin (a * a / inject_Z ndof / 16)).
      cbn [same_float]. field.
      intros E. apply not_true_iff_false in En. apply En.
      apply Qeq_bool_iff. exact E.
  - destruct b; cbn; destruct (Qltb (inject_Z ndof) 0); reflexivity.
  - exact I.
Qed.

(** X23: when the spectra are not binned, so that the stored variance of
    [S_qq] is [S_qq**2 / ndof], the property [S_yy_variance] is the same
    numbers as [S_yy**2 / ndof]: dividing the spectrum by 4 and its variance
    by 16 keeps the variance of [S_yy] that of a spectrum of [ndof] degrees
    of freedom. *)
Theorem S_yy_variance_is_that_of_S_yy
        (s : t) (S_qq_stored : list float64) (ndof : Z) :
  dict s _S_qq = Some S_qq_stored ->
  dict s _S_qq_variance = Some (variance S_qq_stored ndof) ->
  exists (yy vv : list float64),
    S_yy s = (Ok yy, s)
    /\ S_yy_variance s = (Ok vv, s)
    /\ Forall2 same_float vv (variance yy ndof).
Proof.
  intros Hqq Hvar.
  assert (Hread : SingleSweepStream.S_qq s = (Ok S_qq_stored, s)).
  { unfold SingleSweepStream.S_qq, spectral, bind, hasattr, getattr, ret.
    rewrite Hqq. cbv beta iota. rewrite Hqq. reflexivity. }
  assert (Hreadv : S_qq_variance s = (Ok (variance S_qq_stored ndof), s)).
  { unfold S_qq_variance, spectral, bind, hasattr, getattr, ret.
    rewrite Hvar. cbv beta iota. rewrite Hvar. reflexivity. }
  eexists. eexists. split; [| split].
  - unfold S_yy, bind. rewrite Hread. reflexivity.
  - unfold S_yy_variance, bind. rewrite Hreadv. reflexivity.
  - unfold variance. rewrite !map_map. clear.
    induction S_qq_stored as [| v l IH]; constructor.
    + apply variance_of_a_quarter.
    + exact IH.
Qed.

End Caches.

(** *** On the stream of sixteen samples *)

Lemma computed_once_witness :
  deglitched (CALC := Examples.calculate) (NP := Examples.numpy)
             (DS := Examples.despike) _x deglitched_state
  = (Ok masked_x, deglitched_state).
Proof.
  assert (Hx : deglitched
                 (CALC := Examples.calculate) (NP := Examples.numpy)
                 (DS := Examples.despike) _x Examples.sweep_stream
               = (Ok masked_x, deglitched_state))
    by (vm_compute; reflexivity).
  destruct (@properties_are_computed_once
              Examples.core Examples.calculate Examples.numpy Examples.lmfit
              Examples.despike Examples.mlab Examples.binning Examples.iqnoise
              Examples.sweep_stream deglitched_state)
    as [_ [_ [_ [Hd _]]]].
  exact (Hd _x masked_x Hx).
Defined.

(** The object after [set_pca(NFFT=8, binned=False)]. *)
Definition custom_pca : @t Examples.core Examples.lmfit :=
  snd (set_pca (CALC := Examples.calculate) (NP := Examples.numpy)
               (DS := Examples.despike) (IQ := Examples.iqnoise)
               (Some 8%Z) tt tt false Examples.sweep_stream).

Lemma pca_S_frequency_witness :
  dict custom_pca _pca_S_frequency
  = Some [Fin 0; Fin 1; Fin 2; Fin 3; Fin 4]
  /\ exists s' : @t Examples.core Examples.lmfit,
       pca_S_frequency (CALC := Examples.calculate) (NP := Examples.numpy)
                       (DS := Examples.despike) (IQ := Examples.iqnoise)
                       custom_pca
       = (Ok [Fin 0; Fin 1], s')
       /\ dict s' _pca_S_frequency = Some [Fin 0; Fin 1].
Proof.
  split; [vm_compute; reflexivity |].
  assert (Hx : SingleSweepStream.x
                 (CALC := Examples.calculate) (NP := Examples.numpy)
                 (DS := Examples.despike) custom_pca
               = (Ok masked_x, custom_pca))
    by (vm_compute; reflexivity).
  assert (Hready : series_ready custom_pca masked_x masked_q)
    by (split; vm_compute; reflexivity).
  destruct (@pca_S_frequency_runs_set_pca
              Examples.core Examples.calculate Examples.numpy Examples.lmfit
              Examples.despike Examples.mlab Examples.iqnoise
              custom_pca custom_pca masked_x masked_q _ _
              Hx Hready eq_refl eq_refl eq_refl)
    as [s' [Hrun [Hf _]]].
  exists s'. exact (conj Hrun Hf).
Defined.

(** The object after [set_S(NFFT=8, binned=False)]. *)
Definition unbinned : @t Examples.core Examples.lmfit :=
  snd (set_S (CALC := Examples.calculate) (NP := Examples.numpy)
             (DS := Examples.despike) (ML := Examples.mlab)
             (BN := Examples.binning)
             (Some 8%Z) tt tt None false 30%Z None tt Examples.sweep_stream).

Lemma S_yy_variance_witness :
  exists yy vv : list float64,
    S_yy (CALC := Examples.calculate) (NP := Examples.numpy)
         (DS := Examples.despike) (ML := Examples.mlab) (BN := Examples.binning)
         unbinned
    = (Ok yy, unbinned)
    /\ S_yy_variance (CALC := Examples.calculate) (NP := Examples.numpy)
                     (DS := Examples.despike) (ML := Examples.mlab)
                     (BN := Examples.binning) unbinned
       = (Ok vv, unbinned)
    /\ Forall2 same_float vv (variance yy 4).
Proof.
  assert (Hqq : dict unbinned _S_qq = Some [Fin 4; Fin 4; Fin 4])
    by (vm_compute; reflexivity).
  assert (Hvar : dict unbinned _S_qq_variance
                 = Some (variance [Fin 4; Fin 4; Fin 4] 4))
    by (vm_compute; reflexivity).
  exact (@S_yy_variance_is_that_of_S_yy
           Examples.core Examples.calculate Examples.numpy Examples.lmfit
           Examples.despike Examples.mlab Examples.binning
           unbinned [Fin 4; Fin 4; Fin 4] 4%Z Hqq Hvar).
Defined.

End CacheFacts.
